(** * IDS4 supervisory control loop: a shallow embedding and its properties

    The Python modules under [python_env/modules] are embedded as monadic
    programs over an explicit world: the shared state dictionary, the log,
    the history of interactions with the outside (network, docker, psutil,
    sleeps), the Prometheus gauges and the controller's own level cell.

    A finite Python float is the rational it denotes; where the source adds
    to a float or converts an int to a float, the exact result is rounded to
    the nearest IEEE 754 binary64 number, as Python does. Exception classes
    are those of Python 3.11 and later. Log messages are kept as their
    static text (interpolated arguments are dropped), values written to the
    shared state are kept in full. *)

From Stdlib Require Import ZArith QArith Qround Qpower Qabs Lqa Lia Ascii String.
From stdpp Require Import base option list gmap strings pretty.

Local Set Warnings "-register-all".
Local Close Scope Q_scope.
Local Open Scope string_scope.
Local Open Scope Z_scope.

(** ** Python values, exceptions and the effect monad *)

Module Py.

(** The Python objects that travel through the modules: what the shared
    state holds, what the YAML document is made of, what a log record is. *)
Inductive value :=
| VNone
| VBool (b : bool)
| VInt (z : Z)
| VFloat (q : Q)
| VStr (s : string)
| VList (l : list value)
| VDict (d : gmap string value).

(** Python truthiness, as used by [if x], [not x] and [1 if x else 0]. *)
Definition truthy (v : value) : bool :=
  match v with
  | VNone => false
  | VBool b => b
  | VInt z => negb (z =? 0)
  | VFloat q => negb (Qeq_bool q 0)
  | VStr s => negb (String.eqb s "")
  | VList l => negb (Nat.eqb (length l) 0)
  | VDict d => negb (Nat.eqb (size d) 0)
  end.

(** [isinstance(v, dict)] *)
Definition is_dict (v : value) : bool :=
  match v with VDict _ => true | _ => false end.

(** Exception classes the modules distinguish in their [except] clauses. *)
Inductive exn_class :=
| GaiError
| ConnectionRefusedError
| TimeoutError
| SSLError
| OSError
| AiohttpClientError
| AiohttpClientOSError
| DockerNotFound
| OpenSearchConnectionError
| BotoClientError
| FileNotFoundError
| YAMLError
| ValueError
| TypeError
| AttributeError
| OverflowError
| RuntimeError.

Record exn := Exn { exn_cls : exn_class; exn_msg : string }.

Inductive level := INFO | WARNING | ERROR.

(** What a process does to the outside, in the order it does it. *)
Inductive event :=
| EvSleep (secs : Q)
| EvCall
| EvCpuPercent
| EvVirtualMemory
| EvGetaddrinfo (host : string)
| EvOpenConnection (host : string) (port : Z) (ssl : bool)
| EvWaitClosed
| EvHttpGet (url : string) (timeout : Z)
| EvStartHttpServer (port : Z)
| EvDockerPing
| EvDockerGet (container : string)
| EvStrftime (pattern : string)
| EvCredentials
| EvBulk (host : string) (payload : string).

Record world := World {
  shared_state : gmap string value;
  log : list (level * string);
  trace : list event;
  gauges : gmap string Q;
  throttling_level : Z
}.

Inductive outcome (A : Type) :=
| Ret (a : A)
| Raise (e : exn).
Arguments Ret {A} a.
Arguments Raise {A} e.

Definition M (A : Type) : Type := world -> outcome A * world.

Definition ret {A} (a : A) : M A := fun w => (Ret a, w).

Definition raise {A} (e : exn) : M A := fun w => (Raise e, w).

Definition bind {A B} (m : M A) (k : A -> M B) : M B :=
  fun w =>
    match m w with
    | (Ret a, w') => k a w'
    | (Raise e, w') => (Raise e, w')
    end.

(** [try: body except Exception as e: handler e]; a handler that does not
    match the class re-raises. *)
Definition try_except {A} (body : M A) (handler : exn -> M A) : M A :=
  fun w =>
    match body w with
    | (Ret a, w') => (Ret a, w')
    | (Raise e, w') => handler e w'
    end.

(** [shared_state[key] = v] *)
Definition setitem (key : string) (v : value) : M unit :=
  fun w =>
    (Ret tt, World (<[key := v]> (shared_state w)) (log w) (trace w)
                   (gauges w) (throttling_level w)).

(** [shared_state.get(key, default)] *)
Definition getitem (key : string) (dflt : value) : M value :=
  fun w => (Ret (default dflt (shared_state w !! key)), w).

Definition logging (lvl : level) (msg : string) : M unit :=
  fun w =>
    (Ret tt, World (shared_state w) (log w ++ [(lvl, msg)]) (trace w)
                   (gauges w) (throttling_level w)).

(** Record an interaction with the outside. *)
Definition emit (ev : event) : M unit :=
  fun w =>
    (Ret tt, World (shared_state w) (log w) (trace w ++ [ev])
                   (gauges w) (throttling_level w)).

(** Ask the outside: the answer may depend on everything done so far. *)
Definition ask {A} (ev : event) (oracle : list event -> outcome A) : M A :=
  fun w =>
    (oracle (trace w),
     World (shared_state w) (log w) (trace w ++ [ev])
           (gauges w) (throttling_level w)).

Definition sleep (secs : Q) : M unit := emit (EvSleep secs).

Definition gauge_set (name : string) (x : Q) : M unit :=
  fun w =>
    (Ret tt, World (shared_state w) (log w) (trace w)
                   (<[name := x]> (gauges w)) (throttling_level w)).

Definition set_level_value (z : Z) : M unit :=
  fun w =>
    (Ret tt, World (shared_state w) (log w) (trace w) (gauges w) z).

(** The durations slept during a history, in order. *)
Definition sleeps_in (h : list event) : list Q :=
  omap (fun ev => match ev with EvSleep s => Some s | _ => None end) h.



Definition empty_world : world := World ∅ [] [] ∅ 0.

(** [isinstance(e, OSError)]: the socket and ssl errors derive from it, and
    so does the builtin [TimeoutError], of which [socket.timeout] and
    [asyncio.TimeoutError] are other names; [aiohttp.ClientOSError] (a
    connection the client could not open) derives both from [OSError] and
    from [aiohttp.ClientError]. *)
Definition is_OSError (e : exn) : bool :=
  match exn_cls e with
  | GaiError | ConnectionRefusedError | TimeoutError | SSLError | OSError
  | AiohttpClientOSError | FileNotFoundError => true
  | _ => false
  end.

Definition is_gaierror (e : exn) : bool :=
  match exn_cls e with GaiError => true | _ => false end.

Definition is_aiohttp_ClientError (e : exn) : bool :=
  match exn_cls e with
  | AiohttpClientError | AiohttpClientOSError => true
  | _ => false
  end.

(** [type(v).__name__] *)
Definition type_name (v : value) : string :=
  match v with
  | VNone => "NoneType"
  | VBool _ => "bool"
  | VInt _ => "int"
  | VFloat _ => "float"
  | VStr _ => "str"
  | VList _ => "list"
  | VDict _ => "dict"
  end.

(** What [v.get] raises on an object that is not a dictionary. *)
Definition no_attribute_get (v : value) : exn :=
  Exn AttributeError ("'" ++ type_name v ++ "' object has no attribute 'get'").

(** [s.rstrip(c)] for a single character [c]. *)
Fixpoint rstrip (c : ascii) (s : string) : string :=
  match s with
  | EmptyString => EmptyString
  | String a rest =>
      match rstrip c rest with
      | EmptyString => if Ascii.eqb a c then EmptyString else String a EmptyString
      | r => String a r
      end
  end.

(** [s.split(c)[0]] for a single character [c]. *)
Fixpoint split_head (c : ascii) (s : string) : string :=
  match s with
  | EmptyString => EmptyString
  | String a rest => if Ascii.eqb a c then EmptyString else String a (split_head c rest)
  end.

(** The text after the last non-overlapping [c c], scanning from the left;
    [None] when there is no such separator. *)
Fixpoint after_last_double (c : ascii) (s : string) : option string :=
  match s with
  | EmptyString => None
  | String a s1 =>
      match s1 with
      | EmptyString => None
      | String b s2 =>
          if Ascii.eqb a c && Ascii.eqb b c
          then Some (default s2 (after_last_double c s2))
          else after_last_double c s1
      end
  end.

(** [s.split(c)] for a single character [c]. *)
Fixpoint split (c : ascii) (s : string) : list string :=
  match s with
  | EmptyString => [EmptyString]
  | String a rest =>
      let parts := split c rest in
      if Ascii.eqb a c then EmptyString :: parts
      else
        match parts with
        | p :: ps => String a p :: ps
        | [] => [String a EmptyString]
        end
  end.

(** [sep.join(parts)] *)
Fixpoint join (sep : string) (parts : list string) : string :=
  match parts with
  | [] => EmptyString
  | [p] => p
  | p :: rest => p ++ sep ++ join sep rest
  end.

(** [s.split(c + c)[-1]] *)
Definition split2_last (c : ascii) (s : string) : string :=
  default s (after_last_double c s).

End Py.

Import Py.

Declare Scope py_scope.
Delimit Scope py_scope with py.
Notation "x <- c1 ;; c2" := (bind c1 (fun x => c2))
  (at level 100, c1 at next level, right associativity) : py_scope.
Notation "c1 ;; c2" := (bind c1 (fun _ => c2))
  (at level 100, right associativity) : py_scope.
Local Open Scope py_scope.

(** ** Python floats

    A finite [float] is an IEEE 754 binary64 number: a significand of at
    most 53 bits times a power of two. Comparisons between numbers are
    exact in Python, also between a [float] and an [int]; an addition of
    floats and the conversion [float(n)] of an int answer the exact result
    rounded to the nearest float, ties going to the even significand. *)

Module Float.

Definition pow2 (k : Z) : Q := (2 ^ k)%Q.

(** The binade of [x > 0]: [2 ** ilog2 x <= x < 2 ** (ilog2 x + 1)]. *)
Definition ilog2 (x : Q) : Z :=
  let k := Z.log2 (Qnum x) - Z.log2 (Zpos (Qden x)) in
  if Qle_bool (pow2 k) x then k else k - 1.

(** The nearest integer, ties to even. *)
Definition rne (y : Q) : Z :=
  let f := Qfloor y in
  match (y - inject_Z f ?= 1 # 2)%Q with
  | Lt => f
  | Gt => f + 1
  | Eq => if Z.even f then f else f + 1
  end.

(** [x > 0] scaled to a significand between [2 ** 52] and [2 ** 53],
    rounded there, and scaled back. *)
Definition round_pos (x : Q) : Q :=
  let e := ilog2 x - 52 in
  (inject_Z (rne (x / pow2 e)) * pow2 e)%Q.

(** The nearest number with a significand of 53 bits, ties to even. The
    exponent is not bounded here: callers check the range. *)
Definition round53 (x : Q) : Q :=
  match Qnum x with
  | Z0 => 0%Q
  | Zpos _ => round_pos x
  | Zneg _ => (- round_pos (- x))%Q
  end.

(** The finite floats: 53 significant bits, a multiple of [2 ** -1074],
    below [2 ** 1024] in absolute value. *)
Definition is_float (q : Q) : bool :=
  Qeq_bool (round53 q) q
  && Qeq_bool (inject_Z (Qfloor (q * pow2 1074))) (q * pow2 1074)
  && negb (Qle_bool (pow2 1024) (Qabs q)).

Record t := Make {
  value : Q;
  value_is_float : is_float value = true
}.

(** [float(n)] for an int: exact up to [2 ** 53], rounded beyond, and an
    [OverflowError] when the rounded value leaves the range of floats. *)
Definition of_int (n : Z) : outcome Q :=
  if Z.abs n <=? 2 ^ 53 then Ret (inject_Z n)
  else
    let r := round53 (inject_Z n) in
    if Qle_bool (pow2 1024) (Qabs r)
    then Raise (Exn OverflowError "int too large to convert to float")
    else Ret r.

End Float.

(** ** The host: files, child processes, index templates

    The programs that also look at the file system, start child processes
    or administer the search engine run over the world together with the
    list of those requests, in the order they were made. *)

Module Host.

Inductive request :=
| OsPathExists (path : string)
| SubprocessRun (cmd : string)
| PutIndexTemplate (host : string) (name : string) (body : value).

(** How [subprocess.run(cmd, shell=True, check=True, capture_output=True,
    text=True)] ends: normally, or with one of the exceptions the callers
    tell apart. *)
Inductive completed :=
| Completed (stdout : string) (stderr : string)
| CalledProcessError (stderr : string)
| CommandNotFound
| Unexpected (e : exn).

Record state := State {
  py : world;
  requests : list request
}.

Definition M (A : Type) : Type := state -> outcome A * state.

Definition ret {A} (a : A) : M A := fun s => (Ret a, s).

Definition raise {A} (e : exn) : M A := fun s => (Raise e, s).

Definition bind {A B} (m : M A) (k : A -> M B) : M B :=
  fun s =>
    match m s with
    | (Ret a, s') => k a s'
    | (Raise e, s') => (Raise e, s')
    end.

Definition try_except {A} (body : M A) (handler : exn -> M A) : M A :=
  fun s =>
    match body s with
    | (Ret a, s') => (Ret a, s')
    | (Raise e, s') => handler e s'
    end.

(** A program over the world alone, run inside. *)
Definition lift {A} (m : Py.M A) : M A :=
  fun s =>
    match m (py s) with
    | (r, w) => (r, State w (requests s))
    end.

(** Make a request: the answer may depend on the requests made so far. *)
Definition ask {A} (rq : request) (oracle : list request -> outcome A) : M A :=
  fun s => (oracle (requests s), State (py s) (requests s ++ [rq])).

(** The commands run so far, in order. *)
Definition commands (h : list request) : list string :=
  omap (fun rq => match rq with SubprocessRun cmd => Some cmd | _ => None end) h.

End Host.

Declare Scope host_scope.
Delimit Scope host_scope with host.
Notation "x <- c1 ;; c2" := (Host.bind c1 (fun x => c2))
  (at level 100, c1 at next level, right associativity) : host_scope.
Notation "c1 ;; c2" := (Host.bind c1 (fun _ => c2))
  (at level 100, right associativity) : host_scope.

(** ** resource_controller.py *)

Module ResourceController.

(** [ThrottlingLevel] of the specification; the source stores the code. *)
Inductive ThrottlingLevel := Normal | Light | Moderate | Severe.

Definition level_code (l : ThrottlingLevel) : Z :=
  match l with Normal => 0 | Light => 1 | Moderate => 2 | Severe => 3 end.

(** A configured limit, as [config.get] answered it: an [int] (the default
    70, or a [bool], which is an [int]) or a finite [float]. *)
Inductive number :=
| NInt (n : Z)
| NFloat (f : Float.t).

(** The number a limit denotes. *)
Definition number_value (l : number) : Q :=
  match l with
  | NInt n => inject_Z n
  | NFloat f => Float.value f
  end.

(** [l + c] for an int literal [c]: exact on an [int]; on a [float] the
    literal is converted and the sum is rounded to the nearest float. With
    [c] 5 or 10 the sum of a finite float stays in the range where
    rounding to 53 bits is all that happens. *)
Definition add (l : number) (c : Z) : Q :=
  match l with
  | NInt n => inject_Z (n + c)
  | NFloat f => Float.round53 (Float.value f + inject_Z c)
  end.

Record t := Make {
  cpu_limit : number;
  ram_limit : number;
  sleep_interval : Z
}.

(** [x > y]: Python compares two numbers exactly, whatever their types. *)
Definition gt (x y : Q) : bool := negb (Qle_bool x y).

Section Controller.
Variable psutil_cpu_percent : list event -> outcome Q.
Variable psutil_virtual_memory_percent : list event -> outcome Q.
Variable self : t.

Definition _get_system_metrics : M (Q * Q) :=
  cpu_percent <- ask EvCpuPercent psutil_cpu_percent ;;
  ram_percent <- ask EvVirtualMemory psutil_virtual_memory_percent ;;
  ret (cpu_percent, ram_percent).

(** The nested conditional of [_apply_throttling]. *)
Definition current_throttling_level (cpu_usage ram_usage : Q) : Z :=
  if gt cpu_usage (number_value (cpu_limit self))
     || gt ram_usage (number_value (ram_limit self)) then
    if gt cpu_usage (add (cpu_limit self) 10) || gt ram_usage (add (ram_limit self) 10) then 3
    else if gt cpu_usage (add (cpu_limit self) 5) || gt ram_usage (add (ram_limit self) 5) then 2
    else 1
  else 0.

Definition _apply_throttling (cpu_usage ram_usage : Q) : M unit :=
  let lvl := current_throttling_level cpu_usage ram_usage in
  set_level_value lvl ;;
  setitem "throttling_level" (VInt lvl) ;;
  if 0 <? lvl then logging WARNING "Régulation activée"
  else logging INFO "Régulation désactivée".

(** [while True:] unrolled [ticks] times; [Ret tt] after the last tick
    stands for a loop that is still running. *)
Fixpoint run_loop (ticks : nat) : M unit :=
  match ticks with
  | O => ret tt
  | S n =>
      metrics <- _get_system_metrics ;;
      let '(cpu_usage, ram_usage) := metrics in
      setitem "cpu_usage" (VFloat cpu_usage) ;;
      setitem "ram_usage" (VFloat ram_usage) ;;
      _apply_throttling cpu_usage ram_usage ;;
      sleep (inject_Z (sleep_interval self)) ;;
      run_loop n
  end.

Definition run (ticks : nat) : M unit :=
  logging INFO "Processus de Contrôle / Ressources démarré." ;;
  run_loop ticks.
End Controller.

(** The level as the specification words it: a flat if / elif chain, its
    sums [cpu_limit+10] and [cpu_limit+5] being those of the program. *)
Definition spec_level (cpu_limit ram_limit : number) (cpu ram : Q) : ThrottlingLevel :=
  if gt cpu (add cpu_limit 10) || gt ram (add ram_limit 10) then Severe
  else if gt cpu (add cpu_limit 5) || gt ram (add ram_limit 5) then Moderate
  else if gt cpu (number_value cpu_limit) || gt ram (number_value ram_limit) then Light
  else Normal.

End ResourceController.

(** An int written where a limit is expected is that limit, and a limit
    written where a percentage is expected is the number it denotes. *)
Coercion ResourceController.NInt : Z >-> ResourceController.number.
Coercion ResourceController.number_value : ResourceController.number >-> Q.

(** ** connectivity_async.py *)

Module ConnectivityAsync.

Record t := Make {
  opensearch_endpoint : option string;
  redis_host : string;
  redis_port : Z;
  max_retries : Z;
  initial_backoff : Z;
  (** what [config.get('connectivity_check_interval', 10)] answers *)
  connectivity_check_interval : value
}.

(** A member of the list [asyncio.gather] answers under
    [return_exceptions=True]: the value a task returned, or the exception it raised. *)
Inductive result :=
| RValue (v : value)
| RException (e : exn).

Definition is_Exception (r : result) : bool :=
  match r with RException _ => true | RValue _ => false end.

(** [r is True] *)
Definition is_True (r : result) : bool :=
  match r with RValue (VBool true) => true | _ => false end.

(** [all(r is True for r in results if not isinstance(r, Exception))] *)
Definition pipeline_ok_of (results : list result) : bool :=
  forallb is_True (List.filter (fun r => negb (is_Exception r)) results).

Definition falsy_str (o : option string) : bool :=
  match o with
  | None => true
  | Some s => String.eqb s ""
  end.

Section Checks.
Variable getaddrinfo : list event -> string -> outcome unit.
Variable open_connection : list event -> string -> Z -> bool -> outcome unit.
Variable wait_closed : list event -> outcome unit.
Variable session_get : list event -> string -> outcome Z.
Variable self : t.

(** The [while] loop of [_retry_operation], entered with [retries];
    [fuel] bounds the iterations, and falling out of the loop returns
    [None] as a Python function without [return] does. *)
Fixpoint retry_loop {A} (fuel : nat) (func : M A) (retries : Z) : M (option A) :=
  match fuel with
  | O => ret None
  | S fuel' =>
      if retries <? max_retries self then
        try_except
          (a <- func ;; ret (Some a))
          (fun e =>
             let retries := retries + 1 in
             if retries >=? max_retries self then raise e
             else
               let sleep_time := initial_backoff self * 2 ^ retries in
               logging WARNING "Opération échouée. Réessai." ;;
               sleep (inject_Z sleep_time) ;;
               retry_loop fuel' func retries)
      else ret None
  end.

Definition _retry_operation {A} (func : M A) : M (option A) :=
  retry_loop (Z.to_nat (max_retries self)) func 0.

Definition check_dns_resolution (hostname : string) : M bool :=
  try_except
    (ask (EvGetaddrinfo hostname) (fun h => getaddrinfo h hostname) ;;
     logging INFO "Résolution DNS réussie" ;;
     ret true)
    (fun e =>
       if is_gaierror e then
         logging ERROR "Échec de la résolution DNS" ;; raise e
       else raise e).

Definition check_tls_handshake (hostname : string) (port : Z) : M bool :=
  try_except
    (ask (EvOpenConnection hostname port true)
         (fun h => open_connection h hostname port true) ;;
     ask EvWaitClosed wait_closed ;;
     logging INFO "Négociation TLS réussie" ;;
     ret true)
    (fun e =>
       if is_OSError e then
         logging ERROR "Échec de la négociation TLS" ;; raise e
       else raise e).

Definition check_opensearch_bulk_test : M bool :=
  match opensearch_endpoint self with
  | Some endpoint =>
      if String.eqb endpoint "" then
        logging WARNING "Endpoint OpenSearch non configuré" ;;
        setitem "aws_ready" (VBool false) ;;
        ret false
      else
        try_except
          (let opensearch_url := rstrip "/"%char endpoint ++ "/_cluster/health" in
           status <- ask (EvHttpGet opensearch_url 5)
                         (fun h => session_get h opensearch_url) ;;
           if status =? 200 then
             logging INFO "Test OpenSearch réussi." ;;
             setitem "aws_ready" (VBool true) ;;
             ret true
           else
             logging WARNING "Test OpenSearch échoué." ;;
             setitem "aws_ready" (VBool false) ;;
             setitem "last_error"
               (VStr ("OpenSearch health check failed: " ++ pretty status)) ;;
             ret false)
          (fun e =>
             if is_aiohttp_ClientError e then
               logging ERROR "Erreur client HTTP lors du test OpenSearch" ;;
               setitem "aws_ready" (VBool false) ;;
               setitem "last_error"
                 (VStr ("OpenSearch HTTP client error: " ++ exn_msg e)) ;;
               raise e
             else
               logging ERROR "Erreur inattendue lors du test OpenSearch" ;;
               setitem "aws_ready" (VBool false) ;;
               setitem "last_error"
                 (VStr ("OpenSearch test error: " ++ exn_msg e)) ;;
               raise e)
  | None =>
      logging WARNING "Endpoint OpenSearch non configuré" ;;
      setitem "aws_ready" (VBool false) ;;
      ret false
  end.

Definition check_redis_connectivity : M bool :=
  try_except
    (ask (EvOpenConnection (redis_host self) (redis_port self) false)
         (fun h => open_connection h (redis_host self) (redis_port self) false) ;;
     ask EvWaitClosed wait_closed ;;
     logging INFO "Connectivité Redis réussie" ;;
     setitem "redis_ready" (VBool true) ;;
     ret true)
    (fun e =>
       if is_OSError e then
         logging ERROR "Échec de la connectivité Redis" ;;
         setitem "redis_ready" (VBool false) ;;
         setitem "last_error" (VStr ("Redis connectivity error: " ++ exn_msg e)) ;;
         raise e
       else raise e).

(** What a retried check hands to [gather]: [True], [False] or [None]. *)
Definition as_value (o : option bool) : value :=
  match o with Some b => VBool b | None => VNone end.

(** [asyncio.gather] with [return_exceptions=True]: every task runs to
    its end whatever the others do, and an exception becomes a member of
    the answer. The tasks interleave at their awaits in the source; here
    they run one after the other, in the order of the list. *)
Fixpoint gather (tasks : list (M (option bool))) : M (list result) :=
  match tasks with
  | [] => ret []
  | task :: rest =>
      r <- try_except (o <- task ;; ret (RValue (as_value o)))
                      (fun e => ret (RException e)) ;;
      rs <- gather rest ;;
      ret (r :: rs)
  end.

Definition opensearch_hostname : option string :=
  match opensearch_endpoint self with
  | Some endpoint =>
      if String.eqb endpoint "" then None
      else Some (split_head ":"%char (split_head "/"%char (split2_last "/"%char endpoint)))
  | None => None
  end.

Definition tasks : list (M (option bool)) :=
  (if falsy_str opensearch_hostname then []
   else
     let hostname := default "" opensearch_hostname in
     [ _retry_operation (check_dns_resolution hostname);
       _retry_operation (check_tls_handshake hostname 443);
       _retry_operation check_opensearch_bulk_test ])
  ++ [ _retry_operation check_redis_connectivity ].

(** [isinstance(interval, (int, float))], [bool] being an [int]. *)
Definition interval : Q :=
  match connectivity_check_interval self with
  | VBool b => if b then 1%Q else 0%Q
  | VInt z => inject_Z z
  | VFloat q => q
  | _ => 10%Q
  end.

(** One turn of the [while True:] of [run_connectivity_checks]. *)
Definition connectivity_cycle : M unit :=
  try_except
    (results <- gather tasks ;;
     let pipeline_ok := pipeline_ok_of results in
     setitem "pipeline_ok" (VBool pipeline_ok) ;;
     if negb pipeline_ok then
       logging WARNING "Certaines vérifications de connectivité ont échoué."
     else
       logging INFO "Toutes les vérifications de connectivité sont OK.")
    (fun e =>
       logging ERROR "Erreur critique dans le processus de connectivité" ;;
       setitem "pipeline_ok" (VBool false) ;;
       setitem "last_error" (VStr ("Connectivity process error: " ++ exn_msg e))) ;;
  (match connectivity_check_interval self with
   | VBool _ | VInt _ | VFloat _ => ret tt
   | _ => logging WARNING "connectivity_check_interval n'est pas un nombre."
   end) ;;
  sleep interval.

Fixpoint run_cycles (cycles : nat) : M unit :=
  match cycles with
  | O => ret tt
  | S n => connectivity_cycle ;; run_cycles n
  end.

Definition run_connectivity_checks (cycles : nat) : M unit :=
  logging INFO "Processus de Connectivité (ASYNC) démarré." ;;
  run_cycles cycles.
End Checks.

End ConnectivityAsync.

(** ** docker_manager.py *)

Module DockerManager.

(** [f"oi-{service_name}-1"], the default docker compose container name. *)
Definition container_name (service_name : string) : string :=
  "oi-" ++ service_name ++ "-1".

Definition is_NotFound (e : exn) : bool :=
  match exn_cls e with DockerNotFound => true | _ => false end.

Definition required_services : list string :=
  ["vector"; "redis"; "prometheus"; "grafana"].

Section Docker.
Variable ping : list event -> outcome unit.
(** [client.containers.get(name).status] *)
Variable containers_get : list event -> string -> outcome string.

Definition _check_docker_daemon : M bool :=
  try_except
    (ask EvDockerPing ping ;;
     logging INFO "Le démon Docker est en cours d'exécution." ;;
     ret true)
    (fun e =>
       logging ERROR "Le démon Docker n'est pas accessible" ;;
       setitem "last_error" (VStr ("Docker daemon not accessible: " ++ exn_msg e)) ;;
       ret false).

(** The body of the [for] loop: is this service running? *)
Definition check_service (service_name : string) : M bool :=
  try_except
    (status <- ask (EvDockerGet (container_name service_name))
                   (fun h => containers_get h (container_name service_name)) ;;
     if negb (String.eqb status "running") then
       logging WARNING "Le service Docker n'est pas en cours d'exécution." ;;
       ret false
     else
       logging INFO "Le service Docker est en cours d'exécution." ;;
       ret true)
    (fun e =>
       if is_NotFound e then
         logging WARNING "Le conteneur pour le service Docker n'a pas été trouvé." ;;
         ret false
       else
         logging ERROR "Erreur lors de la vérification du service Docker" ;;
         ret false).

(** [for service_name in services: ... break]; answers [all_healthy]. *)
Fixpoint services_loop (services : list string) : M bool :=
  match services with
  | [] => ret true
  | service_name :: rest =>
      running <- check_service service_name ;;
      if running then services_loop rest else ret false
  end.

Definition check_stack_health_of (services : list string) : M bool :=
  daemon <- _check_docker_daemon ;;
  if negb daemon then ret false
  else
    try_except
      (all_healthy <- services_loop services ;;
       setitem "docker_healthy" (VBool all_healthy) ;;
       (if negb all_healthy
        then setitem "last_error" (VStr "Docker stack not healthy.")
        else ret tt) ;;
       ret all_healthy)
      (fun e =>
         logging ERROR "Erreur lors de la vérification de la santé de la pile Docker" ;;
         setitem "docker_healthy" (VBool false) ;;
         setitem "last_error" (VStr ("Docker health check error: " ++ exn_msg e)) ;;
         ret false).

Definition check_stack_health : M bool :=
  check_stack_health_of required_services.
End Docker.

Definition docker_compose_path : string := "docker/docker-compose.yml".

Section Compose.
Local Open Scope host_scope.
Variable ping : list event -> outcome unit.
Variable os_path_exists : list Host.request -> string -> bool.
Variable subprocess_run : list Host.request -> string -> Host.completed.

Definition _run_docker_compose_command (command : string) (detach : bool)
  : Host.M bool :=
  found <- Host.ask (Host.OsPathExists docker_compose_path)
                    (fun h => Ret (os_path_exists h docker_compose_path)) ;;
  if negb found then
    Host.lift
      (logging ERROR "Fichier docker-compose.yml non trouvé" ;;
       setitem "last_error"
         (VStr ("docker-compose.yml not found: " ++ docker_compose_path)))%py ;;
    Host.ret false
  else
    let cmd := "docker compose -f " ++ docker_compose_path ++ " " ++ command in
    let cmd := if detach then cmd ++ " -d" else cmd in
    Host.lift (logging INFO "Exécution de la commande Docker Compose") ;;
    result <- Host.ask (Host.SubprocessRun cmd) (fun h => Ret (subprocess_run h cmd)) ;;
    match result with
    | Host.Completed stdout stderr =>
        Host.lift
          (logging INFO "Sortie Docker Compose" ;;
           if negb (String.eqb stderr "")
           then logging WARNING "Erreurs/Avertissements Docker Compose"
           else Py.ret tt)%py ;;
        Host.ret true
    | Host.CalledProcessError stderr =>
        Host.lift
          (logging ERROR "Échec de la commande Docker Compose" ;;
           setitem "last_error" (VStr ("Docker Compose failed: " ++ stderr)))%py ;;
        Host.ret false
    | Host.CommandNotFound =>
        Host.lift
          (logging ERROR "La commande 'docker compose' n'a pas été trouvée." ;;
           setitem "last_error" (VStr "Docker Compose command not found."))%py ;;
        Host.ret false
    | Host.Unexpected e =>
        Host.lift
          (logging ERROR "Erreur inattendue lors de l'exécution de Docker Compose" ;;
           setitem "last_error"
             (VStr ("Unexpected Docker Compose error: " ++ exn_msg e)))%py ;;
        Host.ret false
    end.

Definition prepare_docker_stack : Host.M bool :=
  daemon <- Host.lift (_check_docker_daemon ping) ;;
  if negb daemon then Host.ret false
  else
    Host.lift (logging INFO "Préparation de la pile Docker...") ;;
    built <- _run_docker_compose_command "build" false ;;
    if negb built then Host.ret false
    else
      started <- _run_docker_compose_command "up" true ;;
      if negb started then Host.ret false
      else
        Host.lift (logging INFO "Pile Docker démarrée avec succès.") ;;
        Host.ret true.

Definition stop_docker_stack : Host.M bool :=
  daemon <- Host.lift (_check_docker_daemon ping) ;;
  if negb daemon then Host.ret false
  else
    Host.lift (logging INFO "Arrêt de la pile Docker...") ;;
    stopped <- _run_docker_compose_command "down" false ;;
    if negb stopped then Host.ret false
    else
      Host.lift (logging INFO "Pile Docker arrêtée et supprimée.") ;;
      Host.ret true.
End Compose.

End DockerManager.

(** ** vector_manager.py *)

Module VectorManager.

Definition check_vector_health : M bool :=
  docker_healthy <- getitem "docker_healthy" (VBool false) ;;
  if truthy docker_healthy then
    logging INFO "Le conteneur Vector est sain (selon DockerManager)." ;;
    setitem "vector_healthy" (VBool true) ;;
    ret true
  else
    logging WARNING "Le conteneur Vector n'est pas sain." ;;
    setitem "vector_healthy" (VBool false) ;;
    setitem "last_error" (VStr "Vector container not healthy.") ;;
    ret false.

End VectorManager.

(** ** metrics_server.py *)

Module MetricsServer.

Section Metrics.
(** Python's [float(s)] on a string: [None] when it raises. *)
Variable float_of_string : string -> option Q.
Variable start_http_server : list event -> Z -> outcome unit.
Variable port : Z.

(** [float(v)], which [Gauge.set] applies to its argument. *)
Definition to_float (v : value) : outcome Q :=
  match v with
  | VBool b => Ret (if b then 1%Q else 0%Q)
  | VInt z => Float.of_int z
  | VFloat q => Ret q
  | VStr s =>
      match float_of_string s with
      | Some q => Ret q
      | None => Raise (Exn ValueError "could not convert string to float")
      end
  | _ => Raise (Exn TypeError "float() argument must be a string or a real number")
  end.

Definition Gauge_set (name : string) (v : value) : M unit :=
  match to_float v with
  | Ret q => gauge_set name q
  | Raise e => raise e
  end.

(** [1 if x else 0] *)
Definition flag (v : value) : value := VInt (if truthy v then 1 else 0).

Definition _update_metrics : M unit :=
  cpu_usage <- getitem "cpu_usage" (VFloat 0) ;;
  Gauge_set "ids2_cpu_usage_percent" cpu_usage ;;
  ram_usage <- getitem "ram_usage" (VFloat 0) ;;
  Gauge_set "ids2_ram_usage_percent" ram_usage ;;
  redis_queue_depth <- getitem "redis_queue_depth" (VInt 0) ;;
  Gauge_set "ids2_redis_queue_depth" redis_queue_depth ;;
  vector_healthy <- getitem "vector_healthy" (VBool false) ;;
  Gauge_set "ids2_vector_health" (flag vector_healthy) ;;
  aws_ready <- getitem "aws_ready" (VBool false) ;;
  Gauge_set "ids2_aws_ready" (flag aws_ready) ;;
  redis_ready <- getitem "redis_ready" (VBool false) ;;
  Gauge_set "ids2_redis_ready" (flag redis_ready) ;;
  pipeline_ok <- getitem "pipeline_ok" (VBool false) ;;
  Gauge_set "ids2_pipeline_ok" (flag pipeline_ok) ;;
  throttling <- getitem "throttling_level" (VInt 0) ;;
  Gauge_set "ids2_throttling_level" throttling.

(** [while True:] unrolled [cycles] times. *)
Fixpoint run_loop (cycles : nat) : M unit :=
  match cycles with
  | O => ret tt
  | S n => _update_metrics ;; sleep 5%Q ;; run_loop n
  end.

Definition run (cycles : nat) : M unit :=
  logging INFO "Processus de Surveillance / Métriques démarré." ;;
  ask (EvStartHttpServer port) (fun h => start_http_server h port) ;;
  run_loop cycles.
End Metrics.

End MetricsServer.

(** ** config_manager.py *)

Module ConfigManager.

Record t := Make {
  config_path : string;
  config : value
}.

(** The [for k in keys:] walk of [get]. *)
Fixpoint walk (keys : list string) (v : value) (dflt : value) : value :=
  match keys with
  | [] => v
  | k :: rest =>
      match v with
      | VDict d =>
          match d !! k with
          | Some v' => walk rest v' dflt
          | None => dflt
          end
      | _ => dflt
      end
  end.

Definition get (self : t) (key : string) (dflt : value) : value :=
  walk (split "."%char key) (config self) dflt.

Section Files.
Variable os_path_exists : string -> bool.
(** [open(path, 'r')] and reading it *)
Variable read_file : string -> outcome string.
Variable yaml_safe_load : string -> outcome value.

Definition _load_config (self : t) : outcome value :=
  if negb (os_path_exists (config_path self)) then
    Raise (Exn FileNotFoundError
               ("Le fichier de configuration n'a pas été trouvé à : " ++ config_path self))
  else
    match read_file (config_path self) with
    | Ret text => yaml_safe_load text
    | Raise e => Raise e
    end.

(** [self.config = self._load_config()] then [print(...)], with the
    object and the standard output passed through: an exception of the
    right-hand side leaves before the assignment. *)
Definition reload_config (self : t) (stdout : list string)
  : outcome unit * t * list string :=
  match _load_config self with
  | Raise e => (Raise e, self, stdout)
  | Ret doc =>
      let self := Make (config_path self) doc in
      let stdout := (stdout ++ ["Configuration rechargée."])%list in
      (Ret tt, self, stdout)
  end.
End Files.

End ConfigManager.

(** ** aws_manager.py *)

Module AWSManager.

Record t := Make {
  config : ConfigManager.t;
  (** [config.get('aws.opensearch_endpoint')]: [None] or the string *)
  opensearch_endpoint : option string;
  aws_region : string
}.

Definition is_OpenSearchConnectionError (e : exn) : bool :=
  match exn_cls e with OpenSearchConnectionError => true | _ => false end.

Definition is_ClientError (e : exn) : bool :=
  match exn_cls e with BotoClientError => true | _ => false end.

Section Send.
Variable json_dumps : value -> string.
Variable json_dumps_indent : value -> string.
Variable strftime : list event -> string -> outcome string.
Variable get_credentials : list event -> outcome unit.
Variable client_bulk : list event -> string -> string -> outcome value.
(** [e.response.get("Error", {}).get("Code")] as text *)
Variable error_code : exn -> string.
Variable self : t.

(** One turn of [for log in logs:]: the lines added to [bulk_data]. *)
Definition bulk_lines (index_name_prefix : string) (log : value) : M (list string) :=
  if is_dict log then
    let index_pattern :=
      ConfigManager.get (config self) "vector.index_pattern"
                        (VStr (index_name_prefix ++ "%Y.%m.%d")) in
    match index_pattern with
    | VStr pattern =>
        current_index_name <- ask (EvStrftime pattern) (fun h => strftime h pattern) ;;
        ret [ json_dumps
                (VDict {[ "index" := VDict {[ "_index" := VStr current_index_name ]} ]});
              json_dumps log ]
    | _ => raise (Exn TypeError "strftime() argument 1 must be str")
    end
  else
    logging WARNING "Log ignoré car non au format dictionnaire" ;;
    ret [].

Fixpoint build_bulk_data (index_name_prefix : string) (logs : list value)
  : M (list string) :=
  match logs with
  | [] => ret []
  | log :: rest =>
      lines <- bulk_lines index_name_prefix log ;;
      more <- build_bulk_data index_name_prefix rest ;;
      ret (lines ++ more)%list
  end.

(** The body of the [try] inside the retry loop; it answers what the
    function returns. *)
Definition attempt (endpoint payload : string) : M bool :=
  ask EvCredentials get_credentials ;;
  ask EvCredentials get_credentials ;;
  ask EvCredentials get_credentials ;;
  let host := split_head ":"%char (split2_last "/"%char endpoint) in
  logging INFO "Tentative d'envoi de logs à OpenSearch" ;;
  response <- ask (EvBulk host payload) (fun h => client_bulk h host payload) ;;
  ok <- (match response with
         | VDict d =>
             ret (truthy response && negb (truthy (default VNone (d !! "errors"))))
         | _ =>
             if truthy response
             then raise (no_attribute_get response)
             else ret false
         end) ;;
  if ok : bool then
    setitem "aws_ready" (VBool true) ;;
    logging INFO "Logs envoyés avec succès à OpenSearch." ;;
    ret true
  else
    logging ERROR "Erreur lors de l'envoi en masse à OpenSearch" ;;
    setitem "aws_ready" (VBool false) ;;
    setitem "last_error"
      (VStr ("OpenSearch bulk error: " ++ json_dumps_indent response)) ;;
    ret false.

(** The three [except] clauses; each falls through to [retries += 1]. *)
Definition on_error (e : exn) : M unit :=
  if is_OpenSearchConnectionError e then
    logging ERROR "Erreur de connexion OpenSearch" ;;
    setitem "aws_ready" (VBool false) ;;
    setitem "last_error" (VStr ("OpenSearch connection error: " ++ exn_msg e))
  else if is_ClientError e then
    logging ERROR "Erreur Client AWS lors de l'envoi à OpenSearch" ;;
    setitem "aws_ready" (VBool false) ;;
    setitem "last_error" (VStr ("AWS ClientError: " ++ error_code e))
  else
    logging ERROR "Erreur inattendue lors de l'envoi à OpenSearch" ;;
    setitem "aws_ready" (VBool false) ;;
    setitem "last_error" (VStr ("OpenSearch send error: " ++ exn_msg e)).

(** [while retries < max_retries:] and what follows it. *)
Fixpoint send_loop (fuel : nat) (endpoint payload : string)
         (max_retries initial_backoff retries : Z) : M bool :=
  match fuel with
  | O =>
      logging ERROR "Échec de l'envoi de logs à OpenSearch." ;;
      ret false
  | S fuel' =>
      if retries <? max_retries then
        returned <- try_except
                      (b <- attempt endpoint payload ;; ret (Some b))
                      (fun e => on_error e ;; ret None) ;;
        match returned with
        | Some b => ret b
        | None =>
            let retries := retries + 1 in
            (if retries <? max_retries then
               logging WARNING "Réessai" ;;
               sleep (inject_Z (initial_backoff * 2 ^ retries))
             else ret tt) ;;
            send_loop fuel' endpoint payload max_retries initial_backoff retries
        end
      else
        logging ERROR "Échec de l'envoi de logs à OpenSearch." ;;
        ret false
  end.

Definition send_bulk_to_opensearch (logs : list value) (index_name_prefix : string)
           (max_retries initial_backoff : Z) : M bool :=
  match opensearch_endpoint self with
  | Some endpoint =>
      if String.eqb endpoint "" then
        logging ERROR "Endpoint OpenSearch non disponible" ;;
        setitem "aws_ready" (VBool false) ;;
        setitem "last_error" (VStr "OpenSearch endpoint not configured.") ;;
        ret false
      else if negb (truthy (VList logs)) then ret true
      else
        bulk_data <- build_bulk_data index_name_prefix logs ;;
        if negb (truthy (VList (VStr <$> bulk_data))) then ret true
        else
          let payload := join (String "010" EmptyString) bulk_data
                         ++ String "010" EmptyString in
          send_loop (Z.to_nat max_retries) endpoint payload
                    max_retries initial_backoff 0
  | None =>
      logging ERROR "Endpoint OpenSearch non disponible" ;;
      setitem "aws_ready" (VBool false) ;;
      setitem "last_error" (VStr "OpenSearch endpoint not configured.") ;;
      ret false
  end.
End Send.

(** The simplified ECS index template for Suricata. *)
Definition index_template_body (index_pattern : string) : value :=
  let keyword := VDict {[ "type" := VStr "keyword" ]} in
  let ip := VDict {[ "properties" := VDict {[ "ip" := VDict {[ "type" := VStr "ip" ]} ]} ]} in
  VDict
    (<[ "index_patterns" := VList [VStr index_pattern] ]>
       {[ "template" :=
            VDict
              (<[ "settings" :=
                    VDict (<[ "number_of_shards" := VInt 1 ]>
                             {[ "number_of_replicas" := VInt 0 ]}) ]>
                 {[ "mappings" :=
                      VDict
                        {[ "properties" :=
                             VDict
                               (<[ "@timestamp" := VDict {[ "type" := VStr "date" ]} ]>
                                  (<[ "event" :=
                                        VDict
                                          {[ "properties" :=
                                               VDict (<[ "kind" := keyword ]>
                                                        (<[ "category" := keyword ]>
                                                           {[ "type" := keyword ]})) ]} ]>
                                     (<[ "source" := ip ]>
                                        (<[ "destination" := ip ]>
                                           {[ "suricata" :=
                                                VDict
                                                  {[ "properties" :=
                                                       VDict
                                                         (<[ "signature" :=
                                                               VDict {[ "type" := VStr "text" ]} ]>
                                                            {[ "severity" :=
                                                                 VDict {[ "type" := VStr "integer" ]} ]}) ]} ]})))) ]} ]}) ]}).

Section Template.
Local Open Scope host_scope.
Variable json_dumps : value -> string.
Variable get_credentials : list event -> outcome unit.
Variable put_index_template :
  list Host.request -> string -> string -> value -> outcome value.
Variable self : t.

Definition apply_index_template (template_name index_pattern : string)
  : Host.M bool :=
  match opensearch_endpoint self with
  | Some endpoint =>
      if String.eqb endpoint "" then
        Host.lift (logging ERROR "Endpoint OpenSearch non disponible") ;;
        Host.ret false
      else
        Host.try_except
          (Host.lift
             (Py.ask EvCredentials get_credentials ;;
              Py.ask EvCredentials get_credentials ;;
              Py.ask EvCredentials get_credentials)%py ;;
           let host := split_head ":"%char (split2_last "/"%char endpoint) in
           let body := index_template_body index_pattern in
           Host.lift (logging INFO "Application du modèle d'index") ;;
           response <- Host.ask (Host.PutIndexTemplate host template_name body)
                                (fun h => put_index_template h host template_name body) ;;
           acknowledged <-
             (match response with
              | VDict d => Host.ret (truthy (default VNone (d !! "acknowledged")))
              | _ => Host.raise (no_attribute_get response)
              end) ;;
           if acknowledged : bool then
             Host.lift (logging INFO "Modèle d'index appliqué avec succès.") ;;
             Host.ret true
           else
             Host.lift
               (logging ERROR "Échec de l'application du modèle d'index" ;;
                setitem "last_error"
                  (VStr ("OpenSearch index template failed: " ++ json_dumps response)))%py ;;
             Host.ret false)
          (fun e =>
             Host.lift
               (logging ERROR "Erreur lors de l'application du modèle d'index OpenSearch" ;;
                setitem "last_error"
                  (VStr ("OpenSearch index template error: " ++ exn_msg e)))%py ;;
             Host.ret false)
  | None =>
      Host.lift (logging ERROR "Endpoint OpenSearch non disponible") ;;
      Host.ret false
  end.
End Template.

End AWSManager.

(** ** Expected histories *)


(** ** Vocabulary of the statements *)

(** A program that leaves the shared state as it found it, however it ends. *)
Definition keeps_store {A} (m : M A) : Prop :=
  forall w, shared_state (snd (m w)) = shared_state w.

(** The boolean readiness keys the exporter mirrors, with their gauges. *)
Definition readiness_gauges : list (string * string) :=
  [ ("vector_healthy", "ids2_vector_health");
    ("aws_ready", "ids2_aws_ready");
    ("redis_ready", "ids2_redis_ready");
    ("pipeline_ok", "ids2_pipeline_ok") ].

(** What [1 if shared_state.get(key, False) else 0] puts on a gauge. *)
Definition readiness_reading (w : world) (key : string) : Q :=
  inject_Z (if truthy (default (VBool false) (shared_state w !! key)) then 1 else 0).

(** The container look-ups made for a list of services, in order. *)
Definition docker_gets (services : list string) : list event :=
  (fun s => EvDockerGet (DockerManager.container_name s)) <$> services.

(** A string without the character [c]. *)
Fixpoint lacks (c : ascii) (s : string) : bool :=
  match s with
  | EmptyString => true
  | String a rest => negb (Ascii.eqb a c) && lacks c rest
  end.

(** The numeric keys the exporter mirrors: key, default, gauge. *)
Definition numeric_gauges : list (string * value * string) :=
  [ ("cpu_usage", VFloat 0, "ids2_cpu_usage_percent");
    ("ram_usage", VFloat 0, "ids2_ram_usage_percent");
    ("redis_queue_depth", VInt 0, "ids2_redis_queue_depth");
    ("throttling_level", VInt 0, "ids2_throttling_level") ].



(** A program that only adds to the history, and one whose first addition
    is [ev], however they end. *)
Definition grows {A} (m : M A) : Prop :=
  forall w, exists rest, trace (snd (m w)) = (trace w ++ rest)%list.

Definition starts_with {A} (ev : event) (m : M A) : Prop :=
  forall w, exists rest, trace (snd (m w)) = (trace w ++ ev :: rest)%list.




(** The command line [_run_docker_compose_command] builds. *)
Definition compose_command (command : string) (detach : bool) : string :=
  let cmd := "docker compose -f " ++ DockerManager.docker_compose_path ++ " " ++ command in
  if detach then cmd ++ " -d" else cmd.


(** ** Concrete surroundings used to run the programs *)

Module Scenario.

(** A connectivity checker with the constants of [__init__]. *)
Definition checker : ConnectivityAsync.t :=
  ConnectivityAsync.Make (Some "https://search.example.com/") "localhost" 6379
                         5 1 (VInt 10).

Definition tls_failure : exn := Exn SSLError "handshake failure".

Definition http_failure : exn := Exn AiohttpClientError "Cannot connect to host".

(** DNS answers, Redis accepts, the search engine says 200, and every TLS
    handshake is refused. *)
Definition getaddrinfo_ok (h : list event) (host : string) : outcome unit := Ret tt.

Definition open_connection_tls_down (h : list event) (host : string) (port : Z)
           (ssl : bool) : outcome unit :=
  if ssl then Raise tls_failure else Ret tt.

Definition wait_closed_ok (h : list event) : outcome unit := Ret tt.

Definition session_get_200 (h : list event) (url : string) : outcome Z := Ret 200.

Definition session_get_down (h : list event) (url : string) : outcome Z :=
  Raise http_failure.


(** A controller with the default limits, and a host where the CPU reads
    85 percent on the first tick and cannot be read any more afterwards. *)
Definition controller : ResourceController.t := ResourceController.Make 70 70 1.

(** The floats written 59.9 and 69.9, and a controller whose CPU limit is
    the former. *)
Definition float_59_9 : Float.t :=
  Float.Make (8430175552484147 # 140737488355328) eq_refl.

Definition float_69_9 : Float.t :=
  Float.Make (2459387609009357 # 35184372088832) eq_refl.

Definition tight_controller : ResourceController.t :=
  ResourceController.Make (ResourceController.NFloat float_59_9) 70 1.

Definition sample_failure : exn := Exn RuntimeError "cannot read /proc/stat".

Definition cpu_percent_once (h : list event) : outcome Q :=
  match h with
  | [] => Ret 85%Q
  | _ => Raise sample_failure
  end.

Definition virtual_memory_ok (h : list event) : outcome Q := Ret 30%Q.




(** A configuration in memory, and two states of the file system: the
    file gone, and the file rewritten with one new key. *)
Definition loaded_config : ConfigManager.t :=
  ConfigManager.Make "config.yaml"
    (VDict {[ "test_section" := VDict {[ "key1" := VStr "value1" ]} ]}).

Definition no_file (path : string) : bool := false.

Definition a_file (path : string) : bool := true.

Definition read_new_text (path : string) : outcome string :=
  Ret "new_key: 'new_value'".

Definition parse_new_text (text : string) : outcome value :=
  Ret (VDict {[ "new_key" := VStr "new_value" ]}).

(** An AWS manager with an endpoint, and a batch without any dictionary. *)
Definition aws : AWSManager.t :=
  AWSManager.Make loaded_config (Some "https://search.example.com") "eu-west-1".

Definition not_logs : list value := [VStr "eve"; VInt 7; VNone].

Definition no_json (v : value) : string := "{}".

Definition strftime_ok (h : list event) (pattern : string) : outcome string :=
  Ret "suricata-2024.01.01".

Definition credentials_ok (h : list event) : outcome unit := Ret tt.

Definition bulk_ok (h : list event) (host payload : string) : outcome value :=
  Ret (VDict {[ "errors" := VBool false ]}).

Definition no_code (e : exn) : string := "None".

(** A docker daemon that answers, with redis exited and grafana absent. *)
Definition ping_ok (h : list event) : outcome unit := Ret tt.

Definition containers_redis_exited (h : list event) (name : string)
  : outcome string :=
  if String.eqb name "oi-redis-1" then Ret "exited"
  else if String.eqb name "oi-grafana-1"
       then Raise (Exn DockerNotFound "No such container")
       else Ret "running".


(** A host where the compose file is there and every command succeeds
    except the build. *)
Definition compose_file_there (h : list Host.request) (path : string) : bool := true.

Definition build_fails (h : list Host.request) (cmd : string) : Host.completed :=
  if String.eqb cmd "docker compose -f docker/docker-compose.yml build"
  then Host.CalledProcessError "failed to solve: process did not complete"
  else Host.Completed "" "".

Definition empty_host : Host.state := Host.State empty_world [].




Definition one_alert : list value := [VDict {[ "event_type" := VStr "alert" ]}].

End Scenario.

(** * Properties *)

Local Open Scope list_scope.
Local Open Scope Z_scope.

(** ** Reasoning about the effect monad *)

Lemma bind_Ret {A B} (m : M A) (k : A -> M B) w a w' :
  m w = (Ret a, w') -> bind m k w = k a w'.
Proof. intros H. unfold bind. now rewrite H. Qed.

Lemma bind_Raise {A B} (m : M A) (k : A -> M B) w e w' :
  m w = (Raise e, w') -> bind m k w = (Raise e, w').
Proof. intros H. unfold bind. now rewrite H. Qed.

Lemma try_except_Ret {A} (body : M A) handler w a w' :
  body w = (Ret a, w') -> try_except body handler w = (Ret a, w').
Proof. intros H. unfold try_except. now rewrite H. Qed.

Lemma try_except_Raise {A} (body : M A) handler w e w' :
  body w = (Raise e, w') -> try_except body handler w = handler e w'.
Proof. intros H. unfold try_except. now rewrite H. Qed.

(** ** Rounding to the nearest float *)

Section Rounding.
Import Float.

Lemma pow2_pos k : (0 < pow2 k)%Q.
Proof. apply Qpower_0_lt. reflexivity. Qed.

Lemma pow2_add a b : (pow2 (a + b) == pow2 a * pow2 b)%Q.
Proof. apply Qpower_plus. discriminate. Qed.

Lemma pow2_le a b : a <= b -> (pow2 a <= pow2 b)%Q.
Proof. intros H. apply Qpower_le_compat_l; [exact H|discriminate]. Qed.

Lemma pow2_lt a b : a < b -> (pow2 a < pow2 b)%Q.
Proof. intros H. apply Qpower_lt_compat_l; [exact H|reflexivity]. Qed.

Lemma pow2_lt_inv a b : (pow2 a < pow2 b)%Q -> a < b.
Proof. intros H. apply (Qpower_lt_compat_l_inv 2); [exact H|reflexivity]. Qed.

Lemma pow2_Z n : 0 <= n -> (inject_Z (2 ^ n) == pow2 n)%Q.
Proof. intros H. apply (Zpower_Qpower 2 n H). Qed.

Lemma Qnum_pos x : (0 < x)%Q <-> exists p, Qnum x = Zpos p.
Proof.
  destruct x as [n d]. unfold Qlt. cbn. split.
  - intros H. destruct n; try lia. now exists p.
  - intros [p ->]. lia.
Qed.

(** [ilog2] finds the binade. *)
Lemma ilog2_spec x :
  (0 < x)%Q -> (pow2 (ilog2 x) <= x /\ x < pow2 (ilog2 x + 1))%Q.
Proof.
  intros Hx. unfold ilog2.
  destruct x as [n d]. cbn [Qnum Qden].
  assert (Hn : 0 < n) by (unfold Qlt in Hx; cbn in Hx; lia).
  set (a := Z.log2 n). set (b := Z.log2 (Z.pos d)).
  assert (Ha : 0 <= a) by apply Z.log2_nonneg.
  assert (Hb : 0 <= b) by apply Z.log2_nonneg.
  destruct (Z.log2_spec n Hn) as [Hn1 Hn2]. fold a in Hn1, Hn2.
  destruct (Z.log2_spec (Z.pos d) eq_refl) as [Hd1 Hd2]. fold b in Hd1, Hd2.
  assert (Hx_eq : ((n # d) * inject_Z (Z.pos d) == inject_Z n)%Q).
  { unfold Qeq, Qmult, inject_Z. cbn. lia. }
  assert (Hqn1 : (pow2 a <= inject_Z n)%Q).
  { rewrite <- pow2_Z by lia. rewrite <- Zle_Qle. exact Hn1. }
  assert (Hqn2 : (inject_Z n < pow2 (a + 1))%Q).
  { rewrite <- pow2_Z by lia. rewrite <- Zlt_Qlt. exact Hn2. }
  assert (Hqd1 : (pow2 b <= inject_Z (Z.pos d))%Q).
  { rewrite <- pow2_Z by lia. rewrite <- Zle_Qle. exact Hd1. }
  assert (Hqd2 : (inject_Z (Z.pos d) < pow2 (b + 1))%Q).
  { rewrite <- pow2_Z by lia. rewrite <- Zlt_Qlt. exact Hd2. }
  assert (Hup : ((n # d) < pow2 (a - b + 1))%Q).
  { assert (E : (pow2 (a + 1) == pow2 (a - b + 1) * pow2 b)%Q).
    { rewrite <- pow2_add. replace (a - b + 1 + b) with (a + 1) by lia. reflexivity. }
    pose proof (pow2_pos b). pose proof (pow2_pos (a - b + 1)).
    set (X := (n # d)%Q) in *. set (D := inject_Z (Z.pos d)) in *.
    set (P := pow2 (a - b + 1)) in *. set (B := pow2 b) in *.
    set (A1 := pow2 (a + 1)) in *. set (N := inject_Z n) in *.
    nra. }
  assert (Hlow : (pow2 (a - b - 1) < (n # d))%Q).
  { assert (E : (pow2 a == pow2 (a - b - 1) * pow2 (b + 1))%Q).
    { rewrite <- pow2_add. replace (a - b - 1 + (b + 1)) with a by lia. reflexivity. }
    pose proof (pow2_pos (b + 1)). pose proof (pow2_pos (a - b - 1)).
    set (X := (n # d)%Q) in *. set (D := inject_Z (Z.pos d)) in *.
    set (P := pow2 (a - b - 1)) in *. set (B := pow2 (b + 1)) in *.
    set (A1 := pow2 a) in *. set (N := inject_Z n) in *.
    nra. }
  destruct (Qle_bool (pow2 (a - b)) (n # d)) eqn:E.
  - apply Qle_bool_iff in E. split; [exact E|exact Hup].
  - split; [apply Qlt_le_weak; exact Hlow|].
    replace (a - b - 1 + 1) with (a - b) by lia.
    apply Qnot_le_lt. intros H. apply Qle_bool_iff in H. congruence.
Qed.

Lemma ilog2_unique x k :
  (pow2 k <= x)%Q -> (x < pow2 (k + 1))%Q -> ilog2 x = k.
Proof.
  intros H1 H2.
  assert (Hx : (0 < x)%Q) by (pose proof (pow2_pos k); lra).
  destruct (ilog2_spec x Hx) as [H3 H4].
  assert (ilog2 x < k + 1) by (apply pow2_lt_inv; lra).
  assert (k < ilog2 x + 1) by (apply pow2_lt_inv; lra).
  lia.
Qed.

Lemma ilog2_mono x y : (0 < x)%Q -> (x <= y)%Q -> ilog2 x <= ilog2 y.
Proof.
  intros Hx Hxy.
  destruct (ilog2_spec x Hx) as [H1 _].
  assert (Hy : (0 < y)%Q) by lra.
  destruct (ilog2_spec y Hy) as [_ H2].
  assert (ilog2 x < ilog2 y + 1) by (apply pow2_lt_inv; lra).
  lia.
Qed.

Lemma rne_bounds y : Qfloor y <= rne y <= Qfloor y + 1.
Proof.
  unfold rne. destruct (_ ?= _)%Q; [destruct (Z.even _)|..]; lia.
Qed.

Lemma rne_Z n : rne (inject_Z n) = n.
Proof.
  unfold rne. rewrite Qfloor_Z.
  assert (H : (inject_Z n - inject_Z n ?= 1 # 2)%Q = Lt).
  { rewrite <- Qlt_alt. generalize (inject_Z n). intros q. lra. }
  now rewrite H.
Qed.

(** Rounding to an integer keeps the order and the integers. *)
Lemma rne_mono x y : (x <= y)%Q -> rne x <= rne y.
Proof.
  intros Hxy.
  pose proof (Qfloor_resp_le x y Hxy) as Hf.
  destruct (Z.eq_dec (Qfloor x) (Qfloor y)) as [E|NE].
  - unfold rne. rewrite E.
    destruct (Qcompare_spec (x - inject_Z (Qfloor y)) (1 # 2)) as [H1|H1|H1];
    destruct (Qcompare_spec (y - inject_Z (Qfloor y)) (1 # 2)) as [H2|H2|H2];
      try (destruct (Z.even (Qfloor y))); try lia; exfalso; lra.
  - pose proof (rne_bounds x). pose proof (rne_bounds y). lia.
Qed.

Lemma rne_ge n y : (inject_Z n <= y)%Q -> n <= rne y.
Proof. intros H. rewrite <- (rne_Z n). now apply rne_mono. Qed.

Lemma rne_le n y : (y <= inject_Z n)%Q -> rne y <= n.
Proof. intros H. rewrite <- (rne_Z n). now apply rne_mono. Qed.

Lemma scaled_bounds x :
  (0 < x)%Q ->
  (inject_Z (2 ^ 52) <= x / pow2 (ilog2 x - 52)
   /\ x / pow2 (ilog2 x - 52) <= inject_Z (2 ^ 53))%Q.
Proof.
  intros Hx. destruct (ilog2_spec x Hx) as [H1 H2].
  rewrite !pow2_Z by lia.
  set (k := ilog2 x) in *.
  pose proof (pow2_pos (k - 52)) as He.
  assert (E1 : (pow2 k == pow2 52 * pow2 (k - 52))%Q).
  { rewrite <- pow2_add. replace (52 + (k - 52)) with k by lia. reflexivity. }
  assert (E2 : (pow2 (k + 1) == pow2 53 * pow2 (k - 52))%Q).
  { rewrite <- pow2_add. replace (53 + (k - 52)) with (k + 1) by lia. reflexivity. }
  split.
  - apply Qle_shift_div_l; [exact He|]. lra.
  - apply Qle_shift_div_r; [exact He|]. lra.
Qed.

(** The rounding of a number stays in the closure of its binade. *)
Lemma round_pos_bounds x :
  (0 < x)%Q ->
  (pow2 (ilog2 x) <= round_pos x /\ round_pos x <= pow2 (ilog2 x + 1))%Q.
Proof.
  intros Hx. destruct (scaled_bounds x Hx) as [H1 H2].
  unfold round_pos. set (k := ilog2 x) in *.
  pose proof (pow2_pos (k - 52)) as He.
  apply rne_ge in H1. apply rne_le in H2.
  rewrite Zle_Qle in H1, H2. rewrite !pow2_Z in H1, H2 by lia.
  assert (E1 : (pow2 k == pow2 52 * pow2 (k - 52))%Q).
  { rewrite <- pow2_add. replace (52 + (k - 52)) with k by lia. reflexivity. }
  assert (E2 : (pow2 (k + 1) == pow2 53 * pow2 (k - 52))%Q).
  { rewrite <- pow2_add. replace (53 + (k - 52)) with (k + 1) by lia. reflexivity. }
  set (m := inject_Z (rne _)) in *.
  set (P := pow2 (k - 52)) in *. set (A := pow2 52) in *. set (B := pow2 53) in *.
  split; nra.
Qed.

Lemma round_pos_mono x y :
  (0 < x)%Q -> (x <= y)%Q -> (round_pos x <= round_pos y)%Q.
Proof.
  intros Hx Hxy.
  assert (Hy : (0 < y)%Q) by lra.
  pose proof (ilog2_mono x y Hx Hxy) as Hk.
  destruct (Z.eq_dec (ilog2 x) (ilog2 y)) as [E|NE].
  - unfold round_pos. rewrite E.
    pose proof (pow2_pos (ilog2 y - 52)) as He.
    apply Qmult_le_compat_r; [|lra].
    rewrite <- Zle_Qle. apply rne_mono.
    apply Qmult_le_compat_r; [exact Hxy|].
    apply Qlt_le_weak, Qinv_lt_0_compat, He.
  - destruct (round_pos_bounds x Hx) as [_ H1].
    destruct (round_pos_bounds y Hy) as [H2 _].
    assert (pow2 (ilog2 x + 1) <= pow2 (ilog2 y))%Q by (apply pow2_le; lia).
    lra.
Qed.

Lemma round_pos_pos x : (0 < x)%Q -> (0 < round_pos x)%Q.
Proof.
  intros Hx. destruct (round_pos_bounds x Hx) as [H _].
  pose proof (pow2_pos (ilog2 x)). lra.
Qed.

Lemma Qnum_neg x : (x < 0)%Q <-> exists p, Qnum x = Zneg p.
Proof.
  destruct x as [n d]. unfold Qlt. cbn. split.
  - intros H. destruct n; try lia. now exists p.
  - intros [p ->]. lia.
Qed.

Lemma Qnum_zero x : (x == 0)%Q <-> Qnum x = 0.
Proof. destruct x as [n d]. unfold Qeq. cbn. lia. Qed.

(** Rounding to the nearest float keeps the order. *)
Lemma round53_mono x y : (x <= y)%Q -> (round53 x <= round53 y)%Q.
Proof.
  intros Hxy. unfold round53.
  destruct (Qnum x) as [|p|p] eqn:Ex; destruct (Qnum y) as [|q|q] eqn:Ey.
  all: try (apply Qnum_zero in Ex).
  all: try (apply Qnum_zero in Ey).
  all: try (assert (Hx : (0 < x)%Q) by (apply Qnum_pos; eauto)).
  all: try (assert (Hx : (x < 0)%Q) by (apply Qnum_neg; eauto)).
  all: try (assert (Hy : (0 < y)%Q) by (apply Qnum_pos; eauto)).
  all: try (assert (Hy : (y < 0)%Q) by (apply Qnum_neg; eauto)).
  all: try (exfalso; lra).
  - lra.
  - pose proof (round_pos_pos y Hy). lra.
  - now apply round_pos_mono.
  - assert (Hx' : (0 < - x)%Q) by lra.
    pose proof (round_pos_pos (- x) Hx'). lra.
  - assert (Hx' : (0 < - x)%Q) by lra.
    pose proof (round_pos_pos (- x) Hx').
    pose proof (round_pos_pos y Hy). lra.
  - assert (Hy' : (0 < - y)%Q) by lra.
    assert (Hyx : (- y <= - x)%Q) by lra.
    pose proof (round_pos_mono (- y) (- x) Hy' Hyx). lra.
Qed.

(** So it never crosses a number that is its own rounding. *)
Lemma round53_keeps_order v y :
  (round53 v == v)%Q -> (v <= y)%Q -> (v <= round53 y)%Q.
Proof.
  intros Hv Hvy. rewrite <- Hv. now apply round53_mono.
Qed.

Lemma rne_comp x y : (x == y)%Q -> rne x = rne y.
Proof.
  intros H. apply Z.le_antisymm; apply rne_mono; rewrite H; apply Qle_refl.
Qed.

(** A number whose scaled significand is an integer is its own rounding. *)
Lemma round_pos_exact x m :
  (x / pow2 (ilog2 x - 52) == inject_Z m)%Q -> (round_pos x == x)%Q.
Proof.
  intros H. unfold round_pos. rewrite (rne_comp _ _ H), rne_Z, <- H.
  field. apply Qnot_eq_sym, Qlt_not_eq, pow2_pos.
Qed.

Lemma pow2_neg_Z n : 0 <= n -> (/ pow2 (- n) == inject_Z (2 ^ n))%Q.
Proof.
  intros H. unfold pow2. rewrite Qpower_opp, Qinv_involutive.
  symmetry. now apply pow2_Z.
Qed.

Lemma round_pos_int n : 0 < n <= 2 ^ 53 -> (round_pos (inject_Z n) == inject_Z n)%Q.
Proof.
  intros [Hpos Hle].
  assert (Hx : (0 < inject_Z n)%Q) by (rewrite Zlt_Qlt in Hpos; exact Hpos).
  destruct (ilog2_spec _ Hx) as [H1 H2].
  set (k := ilog2 (inject_Z n)) in *.
  assert (Hk0 : 0 <= k).
  { assert (0 < k + 1); [|lia]. apply pow2_lt_inv.
    assert (1 <= inject_Z n)%Q
      by (change 1%Q with (inject_Z 1); rewrite <- Zle_Qle; lia).
    change (pow2 0) with 1%Q. lra. }
  assert (Hk53 : k <= 53).
  { assert (k < 54); [|lia]. apply pow2_lt_inv.
    assert (inject_Z n <= inject_Z (2 ^ 53))%Q by (rewrite <- Zle_Qle; exact Hle).
    assert (inject_Z (2 ^ 53) < pow2 54)%Q by reflexivity. lra. }
  destruct (Z.eq_dec k 53) as [E|NE].
  - assert (Hn : n = 2 ^ 53).
    { rewrite E in H1. rewrite <- pow2_Z in H1 by lia.
      rewrite <- Zle_Qle in H1. lia. }
    apply (round_pos_exact _ (2 ^ 52)). fold k. rewrite E, Hn. reflexivity.
  - apply (round_pos_exact _ (n * 2 ^ (52 - k))). fold k.
    rewrite inject_Z_mult. unfold Qdiv.
    replace (k - 52) with (- (52 - k)) by lia.
    rewrite pow2_neg_Z by lia. reflexivity.
Qed.

(** Ints of at most 53 bits are floats. *)
Lemma round53_int n : Z.abs n <= 2 ^ 53 -> (round53 (inject_Z n) == inject_Z n)%Q.
Proof.
  intros H. unfold round53. destruct n as [|p|p]; cbn [inject_Z Qnum].
  - reflexivity.
  - apply (round_pos_int (Z.pos p)). lia.
  - change (- (Z.neg p # 1))%Q with (inject_Z (Z.pos p)).
    rewrite (round_pos_int (Z.pos p)) by lia. reflexivity.
Qed.

(** What [float(n)] answers is the nearest float of [n]; it is refused
    exactly when that rounding leaves the range of floats. *)
Lemma of_int_rounds n :
  match of_int n with
  | Ret q => (q == round53 (inject_Z n))%Q /\ (Qabs q < pow2 1024)%Q
  | Raise e =>
      e = Exn OverflowError "int too large to convert to float"
      /\ (pow2 1024 <= Qabs (round53 (inject_Z n)))%Q
  end.
Proof.
  unfold of_int. destruct (Z.abs n <=? 2 ^ 53) eqn:Hsmall.
  - apply Z.leb_le in Hsmall. split.
    + symmetry. now apply round53_int.
    + change (Qabs (inject_Z n)) with (inject_Z (Z.abs n)).
      assert (inject_Z (Z.abs n) <= inject_Z (2 ^ 53))%Q
        by (rewrite <- Zle_Qle; exact Hsmall).
      assert (inject_Z (2 ^ 53) < pow2 1024)%Q by reflexivity.
      lra.
  - destruct (Qle_bool (pow2 1024) (Qabs (round53 (inject_Z n)))) eqn:Hbig.
    + split; [reflexivity|]. now apply Qle_bool_iff.
    + split; [reflexivity|]. apply Qnot_le_lt. intros H.
      apply Qle_bool_iff in H. congruence.
Qed.

(** A float is its own rounding. *)
Lemma float_is_rounded (f : Float.t) : (round53 (value f) == value f)%Q.
Proof.
  destruct f as [q Hq]. cbn [value]. unfold is_float in Hq.
  apply andb_true_iff in Hq as [Hq _]. apply andb_true_iff in Hq as [Hq _].
  now apply Qeq_bool_iff.
Qed.
End Rounding.

(** ** The throttling level *)

Section Throttling.
Import ResourceController.

Lemma gt_true x y : gt x y = true <-> (y < x)%Q.
Proof.
  unfold gt. rewrite negb_true_iff, <- not_true_iff_false, Qle_bool_iff.
  split; intros H; lra.
Qed.

Lemma gt_false x y : gt x y = false <-> (x <= y)%Q.
Proof.
  unfold gt. rewrite negb_false_iff, Qle_bool_iff. reflexivity.
Qed.

Ltac cases_gt :=
  repeat match goal with
    | |- context [gt ?x ?y] =>
        let E := fresh "E" in
        destruct (gt x y) eqn:E;
        [apply gt_true in E | apply gt_false in E]
    end.

(** Adding to a limit never gives less than the limit: exactly on an int,
    and on a float because rounding never crosses a float. *)
Lemma add_ge l c : 0 <= c -> (number_value l <= add l c)%Q.
Proof.
  intros Hc. destruct l as [n|f]; cbn [add number_value].
  - rewrite <- Zle_Qle. lia.
  - apply round53_keeps_order; [apply float_is_rounded|].
    rewrite Zle_Qle in Hc. generalize dependent (inject_Z c). intros q Hq.
    change (inject_Z 0) with 0%Q in Hq. lra.
Qed.

Lemma current_level_flat rc cpu ram :
  current_throttling_level rc cpu ram
  = level_code (spec_level (cpu_limit rc) (ram_limit rc) cpu ram).
Proof.
  unfold current_throttling_level, spec_level.
  pose proof (add_ge (cpu_limit rc) 10 ltac:(lia)) as Hc10.
  pose proof (add_ge (cpu_limit rc) 5 ltac:(lia)) as Hc5.
  pose proof (add_ge (ram_limit rc) 10 ltac:(lia)) as Hr10.
  pose proof (add_ge (ram_limit rc) 5 ltac:(lia)) as Hr5.
  cases_gt; simpl; try reflexivity; exfalso; lra.
Qed.

Lemma apply_throttling_publishes rc cpu ram w :
  exists w',
    _apply_throttling rc cpu ram w = (Ret tt, w')
    /\ shared_state w' !! "throttling_level"
       = Some (VInt (current_throttling_level rc cpu ram))
    /\ throttling_level w' = current_throttling_level rc cpu ram.
Proof.
  unfold _apply_throttling, bind, set_level_value, setitem, logging.
  destruct (0 <? _); eexists; (split; [reflexivity|]); simpl;
    (split; [apply lookup_insert_eq | reflexivity]).
Qed.
End Throttling.

(** C2. For every CPU and RAM percentage and every pair of limits, ints or
    floats, the level [_apply_throttling] publishes under [throttling_level]
    is the flat function of the specification: Severe (3) above a limit
    plus 10, else Moderate (2) above a limit plus 5, else Light (1) above a
    limit, else Normal (0), the sums being Python's (exact on an int limit,
    rounded to the nearest float on a float limit). With limits 70/70:
    (71,0) is Light, (76,0) Moderate, (81,0) Severe and (70,70) Normal.
    With a CPU limit of 59.9, whose sum with 10 is rounded up to the float
    69.9, a CPU reading of 69.9 is Moderate. *)
Theorem C2_throttling_level_is_the_flat_function :
  (forall rc cpu ram w,
      exists w',
        ResourceController._apply_throttling rc cpu ram w = (Ret tt, w')
        /\ shared_state w' !! "throttling_level"
           = Some (VInt (ResourceController.level_code
                           (ResourceController.spec_level
                              (ResourceController.cpu_limit rc)
                              (ResourceController.ram_limit rc) cpu ram))))
  /\ (let rc := ResourceController.Make 70 70 1 in
      let published cpu ram :=
        shared_state (snd (ResourceController._apply_throttling rc cpu ram empty_world))
          !! "throttling_level" in
      published 71%Q 0%Q = Some (VInt 1)
      /\ published 76%Q 0%Q = Some (VInt 2)
      /\ published 81%Q 0%Q = Some (VInt 3)
      /\ published 70%Q 70%Q = Some (VInt 0))
  /\ (let rc := Scenario.tight_controller in
      let cpu := Float.value Scenario.float_69_9 in
      (ResourceController.add (ResourceController.cpu_limit rc) 10 == cpu)%Q
      /\ shared_state (snd (ResourceController._apply_throttling rc cpu 0%Q empty_world))
           !! "throttling_level" = Some (VInt 2)).
Proof.
  split; [|split].
  - intros rc cpu ram w.
    destruct (apply_throttling_publishes rc cpu ram w) as (w' & Hrun & Hst & _).
    exists w'. split; [exact Hrun|].
    now rewrite Hst, current_level_flat.
  - repeat split; vm_compute; reflexivity.
  - split; vm_compute; reflexivity.
Qed.

(** ** The retry executor *)


Lemma sleeps_in_app h1 h2 : sleeps_in (h1 ++ h2) = sleeps_in h1 ++ sleeps_in h2.
Proof. unfold sleeps_in. apply omap_app. Qed.



Section Retry.
Import ConnectivityAsync.
Context {A : Type}.
Variable self : t.
Variable script : nat -> outcome A.


End Retry.

(** The fuel [_retry_operation] gives its loop is enough: more changes nothing. *)
Lemma retry_loop_fuel self {A} (func : M A) n :
  forall retries fuel w,
    n = Z.to_nat (ConnectivityAsync.max_retries self - retries) ->
    (n <= fuel)%nat ->
    ConnectivityAsync.retry_loop self fuel func retries w
    = ConnectivityAsync.retry_loop self n func retries w.
Proof.
  induction n as [|n IH]; intros retries fuel w Hn Hfuel.
  - destruct fuel as [|fuel]; [reflexivity|]. simpl.
    replace (retries <? ConnectivityAsync.max_retries self) with false
      by (symmetry; apply Z.ltb_ge; lia).
    reflexivity.
  - destruct fuel as [|fuel]; [lia|]. simpl.
    destruct (retries <? ConnectivityAsync.max_retries self); [|reflexivity].
    unfold try_except.
    destruct (bind func _ w) as [[a|e] w1]; [reflexivity|].
    destruct (retries + 1 >=? ConnectivityAsync.max_retries self); [reflexivity|].
    unfold bind, logging, sleep, emit. cbn [fst snd].
    apply IH; lia.
Qed.




(** ** The pipeline verdict *)

Lemma pipeline_ok_skips_exception pre post e :
  ConnectivityAsync.pipeline_ok_of (pre ++ ConnectivityAsync.RException e :: post)
  = ConnectivityAsync.pipeline_ok_of (pre ++ post).
Proof.
  unfold ConnectivityAsync.pipeline_ok_of.
  rewrite !List.filter_app. reflexivity.
Qed.

(** C1 (what the code does). A task that raised is left out of the
    conjunction instead of counting as false: removing the exceptions from
    the gathered results never changes [pipeline_ok], and when every task
    raised the verdict is True. With DNS, the search
    engine and Redis answering and every TLS handshake refused, the cycle
    gathers True, the TLS error, True, True and publishes
    [pipeline_ok = True]. *)
Theorem C1_raised_task_is_left_out_of_pipeline_ok :
  (forall pre post e,
      ConnectivityAsync.pipeline_ok_of (pre ++ ConnectivityAsync.RException e :: post)
      = ConnectivityAsync.pipeline_ok_of (pre ++ post))
  /\ (forall results,
         Forall (fun r => ConnectivityAsync.is_Exception r = true) results ->
         ConnectivityAsync.pipeline_ok_of results = true)
  /\ (let gathered :=
        ConnectivityAsync.gather
          (ConnectivityAsync.tasks Scenario.getaddrinfo_ok Scenario.open_connection_tls_down
                                   Scenario.wait_closed_ok Scenario.session_get_200
                                   Scenario.checker)
          empty_world in
      let cycle :=
        ConnectivityAsync.connectivity_cycle
          Scenario.getaddrinfo_ok Scenario.open_connection_tls_down
          Scenario.wait_closed_ok Scenario.session_get_200 Scenario.checker
          empty_world in
      fst gathered
      = Ret [ ConnectivityAsync.RValue (VBool true);
              ConnectivityAsync.RException Scenario.tls_failure;
              ConnectivityAsync.RValue (VBool true);
              ConnectivityAsync.RValue (VBool true) ]
      /\ length (List.filter
                   (fun ev => match ev with EvOpenConnection _ _ true => true | _ => false end)
                   (trace (snd gathered))) = 5%nat
      /\ shared_state (snd cycle) !! "pipeline_ok" = Some (VBool true)).
Proof.
  split; [|split].
  - apply pipeline_ok_skips_exception.
  - intros results Hall. unfold ConnectivityAsync.pipeline_ok_of.
    induction Hall as [|r results Hr _ IH]; [reflexivity|].
    cbn. rewrite Hr. exact IH.
  - vm_compute. repeat split; reflexivity.
Qed.

(** The string helpers agree with Python on the shapes the modules meet. *)
Example string_helpers :
  rstrip "/" "https://x.com//" = "https://x.com"
  /\ rstrip "/" "///" = ""
  /\ split2_last "/" "https://x.com:9200/path" = "x.com:9200/path"
  /\ split2_last "/" "a///b" = "/b"
  /\ split2_last "/" "x.com" = "x.com"
  /\ split_head ":" "x.com:9200" = "x.com"
  /\ split "." "raspberry_pi.cpu_limit_percent" = ["raspberry_pi"; "cpu_limit_percent"]
  /\ split "." "a..b" = ["a"; ""; "b"]
  /\ split "." "" = [""]
  /\ join "," ["a"; "b"; "c"] = "a,b,c".
Proof. repeat split; reflexivity. Qed.

(** ** The search engine health check *)

(** C4 (as stated, refuted). On a transport error the check re-raises: the
    exception leaves [check_opensearch_bulk_test]. *)
Lemma C4_transport_error_leaves_the_check :
  fst (ConnectivityAsync.check_opensearch_bulk_test
         Scenario.session_get_down Scenario.checker empty_world)
  = Raise Scenario.http_failure.
Proof. vm_compute. reflexivity. Qed.

Lemma check_opensearch_status session_get (self : ConnectivityAsync.t) endpoint w status :
  ConnectivityAsync.opensearch_endpoint self = Some endpoint ->
  endpoint <> "" ->
  session_get (trace w) (rstrip "/" endpoint ++ "/_cluster/health")%string = Ret status ->
  exists w',
    ConnectivityAsync.check_opensearch_bulk_test session_get self w
    = (Ret (status =? 200), w')
    /\ shared_state w' !! "aws_ready" = Some (VBool (status =? 200))
    /\ (status <> 200 ->
        shared_state w' !! "last_error"
        = Some (VStr ("OpenSearch health check failed: " ++ pretty status)%string))
    /\ trace w' = trace w ++ [EvHttpGet (rstrip "/" endpoint ++ "/_cluster/health")%string 5].
Proof.
  intros Hend Hne Hget.
  assert (Heq : String.eqb endpoint "" = false) by now apply String.eqb_neq.
  unfold ConnectivityAsync.check_opensearch_bulk_test.
  rewrite Hend, Heq.
  unfold try_except, bind, ask. cbn [trace]. rewrite Hget.
  destruct (status =? 200) eqn:Hst; cbn; eexists; (split; [reflexivity|]); cbn.
  - apply Z.eqb_eq in Hst.
    split; [apply lookup_insert_eq|]. split; [congruence|reflexivity].
  - split; [|split; [intros _; apply lookup_insert_eq|reflexivity]].
    rewrite lookup_insert_ne by discriminate. apply lookup_insert_eq.
Qed.

Lemma check_opensearch_error session_get (self : ConnectivityAsync.t) endpoint w e :
  ConnectivityAsync.opensearch_endpoint self = Some endpoint ->
  endpoint <> "" ->
  session_get (trace w) (rstrip "/" endpoint ++ "/_cluster/health")%string = Raise e ->
  exists w',
    ConnectivityAsync.check_opensearch_bulk_test session_get self w = (Raise e, w')
    /\ shared_state w' !! "aws_ready" = Some (VBool false)
    /\ shared_state w' !! "last_error"
       = Some (VStr ((if is_aiohttp_ClientError e
                      then "OpenSearch HTTP client error: "
                      else "OpenSearch test error: ") ++ exn_msg e)%string)
    /\ trace w' = trace w ++ [EvHttpGet (rstrip "/" endpoint ++ "/_cluster/health")%string 5].
Proof.
  intros Hend Hne Hget.
  assert (Heq : String.eqb endpoint "" = false) by now apply String.eqb_neq.
  unfold ConnectivityAsync.check_opensearch_bulk_test.
  rewrite Hend, Heq.
  unfold try_except, bind, ask. cbn [trace]. rewrite Hget.
  destruct (is_aiohttp_ClientError e); cbn; eexists; (split; [reflexivity|]); cbn;
    (split; [rewrite lookup_insert_ne by discriminate; apply lookup_insert_eq|]);
    (split; [apply lookup_insert_eq|reflexivity]).
Qed.

(** C4 (amended). With an endpoint configured, the check returns True
    exactly when the HTTP status is 200; any other status returns False
    without raising, with [aws_ready] False and the status in
    [last_error]; a transport error sets [aws_ready] False, records the
    error in [last_error] and is raised again to the caller. *)
Theorem C4_health_check_200_or_false_or_reraise :
  forall session_get (self : ConnectivityAsync.t) endpoint (w : world),
    ConnectivityAsync.opensearch_endpoint self = Some endpoint ->
    endpoint <> "" ->
    let url := (rstrip "/" endpoint ++ "/_cluster/health")%string in
    let run := ConnectivityAsync.check_opensearch_bulk_test session_get self w in
    (fst run = Ret true <-> session_get (trace w) url = Ret 200)
    /\ (forall status,
           session_get (trace w) url = Ret status ->
           fst run = Ret (status =? 200)
           /\ shared_state (snd run) !! "aws_ready" = Some (VBool (status =? 200))
           /\ (status <> 200 ->
               shared_state (snd run) !! "last_error"
               = Some (VStr ("OpenSearch health check failed: " ++ pretty status)%string)))
    /\ (forall e,
           session_get (trace w) url = Raise e ->
           fst run = Raise e
           /\ shared_state (snd run) !! "aws_ready" = Some (VBool false)
           /\ shared_state (snd run) !! "last_error"
              = Some (VStr ((if is_aiohttp_ClientError e
                             then "OpenSearch HTTP client error: "
                             else "OpenSearch test error: ") ++ exn_msg e)%string))
    /\ trace (snd run) = trace w ++ [EvHttpGet url 5].
Proof.
  intros session_get self endpoint w Hend Hne url run.
  destruct (session_get (trace w) url) as [status|e] eqn:Hget.
  - destruct (check_opensearch_status session_get self endpoint w status Hend Hne Hget)
      as (w' & Hrun & Haws & Herr & Htr).
    fold run in Hrun. rewrite Hrun. cbn [fst snd].
    split; [|split; [|split]].
    + split; intros [= H].
      * apply Z.eqb_eq in H. now subst.
      * subst. reflexivity.
    + intros status' [= <-]. auto.
    + intros e [=].
    + exact Htr.
  - destruct (check_opensearch_error session_get self endpoint w e Hend Hne Hget)
      as (w' & Hrun & Haws & Herr & Htr).
    fold run in Hrun. rewrite Hrun. cbn [fst snd].
    split; [|split; [|split]].
    + split; intros [=].
    + intros status [=].
    + intros e' [= <-]. auto.
    + exact Htr.
Qed.

(** C4 (amended) at a concrete transport error. *)
Lemma C4_health_check_witness :
  let run := ConnectivityAsync.check_opensearch_bulk_test
               Scenario.session_get_down Scenario.checker empty_world in
  fst run = Raise Scenario.http_failure
  /\ shared_state (snd run) !! "aws_ready" = Some (VBool false)
  /\ shared_state (snd run) !! "last_error"
     = Some (VStr "OpenSearch HTTP client error: Cannot connect to host").
Proof.
  intros run.
  pose proof (C4_health_check_200_or_false_or_reraise
                Scenario.session_get_down Scenario.checker
                "https://search.example.com/" empty_world eq_refl
                ltac:(discriminate))
    as (_ & _ & Herr & _).
  exact (Herr Scenario.http_failure eq_refl).
Defined.

(** ** The resource controller loop *)

Lemma bind_assoc {A B C} (m : M A) (f : A -> M B) (g : B -> M C) w :
  bind (bind m f) g w = bind m (fun a => bind (f a) g) w.
Proof. unfold bind. destruct (m w) as [[a|e] w']; reflexivity. Qed.

Lemma bind_ext {A B} (m : M A) (f g : A -> M B) w :
  (forall a w', f a w' = g a w') -> bind m f w = bind m g w.
Proof. intros H. unfold bind. destruct (m w) as [[a|e] w']; [apply H|reflexivity]. Qed.

Section ControllerLoop.
Import ResourceController.
Variable psutil_cpu_percent : list event -> outcome Q.
Variable psutil_virtual_memory_percent : list event -> outcome Q.
Variable self : t.

Local Abbreviation run_loop :=
  (run_loop psutil_cpu_percent psutil_virtual_memory_percent self).
Local Abbreviation sample :=
  (_get_system_metrics psutil_cpu_percent psutil_virtual_memory_percent).

(** [k + m] turns are [k] turns followed by [m] turns. *)
Lemma run_loop_add k m w :
  run_loop (k + m) w = bind (run_loop k) (fun _ => run_loop m) w.
Proof.
  revert w. induction k as [|k IH]; intros w; [reflexivity|].
  cbn [Nat.add ResourceController.run_loop].
  rewrite bind_assoc. apply bind_ext. intros [cpu ram] w1.
  repeat (rewrite bind_assoc; apply bind_ext; intros ? ?).
  apply IH.
Qed.

(** A turn whose sampling fails writes nothing and ends the loop. *)
Lemma run_loop_sample_fails n w e :
  fst (sample w) = Raise e ->
  run_loop (S n) w = (Raise e, snd (sample w)).
Proof.
  intros H. cbn [ResourceController.run_loop]. unfold bind at 1.
  destruct (sample w) as [[a|e'] w1]; cbn in H; [discriminate|].
  now injection H as ->.
Qed.

Lemma sample_keeps_store w :
  shared_state (snd (sample w)) = shared_state w
  /\ log (snd (sample w)) = log w
  /\ throttling_level (snd (sample w)) = throttling_level w.
Proof.
  unfold _get_system_metrics, bind, ask. cbn [trace].
  destruct (psutil_cpu_percent (trace w)); [|now cbn].
  match goal with |- context [psutil_virtual_memory_percent ?h] =>
    destruct (psutil_virtual_memory_percent h) end; now cbn.
Qed.
End ControllerLoop.

(** C5 (as stated, refuted). The first tick reads 85 percent and publishes
    Severe; on the second tick reading the CPU fails: [run], asked for three
    ticks, ends with the exception after the second sample, there is no
    third tick, and the log holds no entry about the failure. *)
Lemma C5_sampling_failure_ends_the_worker :
  let ended := ResourceController.run Scenario.cpu_percent_once Scenario.virtual_memory_ok
                 Scenario.controller 3 empty_world in
  fst ended = Raise Scenario.sample_failure
  /\ trace (snd ended)
     = [EvCpuPercent; EvVirtualMemory; EvSleep (inject_Z 1); EvCpuPercent]
  /\ log (snd ended)
     = [ (INFO, "Processus de Contrôle / Ressources démarré."%string);
         (WARNING, "Régulation activée"%string) ]
  /\ shared_state (snd ended) !! "throttling_level" = Some (VInt 3).
Proof. vm_compute. repeat split; reflexivity. Qed.

(** C5 (amended). If, after [k] complete ticks, sampling the system metrics
    fails, the loop writes nothing in that tick: the store (so the
    published throttling level, and the usages), the controller's own
    level and the log are as the last complete tick left them; the
    exception is not caught, it ends [run] however many ticks were to
    follow. *)
Theorem C5_sampling_failure_holds_level_and_ends_run :
  forall psutil_cpu_percent psutil_virtual_memory_percent
         (self : ResourceController.t) (k n : nat) (w wk : world) (e : exn),
    ResourceController.run psutil_cpu_percent psutil_virtual_memory_percent self k w
    = (Ret tt, wk) ->
    fst (ResourceController._get_system_metrics
           psutil_cpu_percent psutil_virtual_memory_percent wk) = Raise e ->
    exists w',
      ResourceController.run psutil_cpu_percent psutil_virtual_memory_percent self
                             (k + S n) w = (Raise e, w')
      /\ shared_state w' = shared_state wk
      /\ shared_state w' !! "throttling_level" = shared_state wk !! "throttling_level"
      /\ throttling_level w' = throttling_level wk
      /\ log w' = log wk.
Proof.
  intros cpu mem self k n w wk e Hk Hfail.
  exists (snd (ResourceController._get_system_metrics cpu mem wk)).
  destruct (sample_keeps_store cpu mem wk) as (Hst & Hlog & Hlvl).
  split; [|rewrite Hst; auto].
  unfold ResourceController.run in *.
  unfold bind at 1. unfold bind at 1 in Hk.
  destruct (logging INFO _ w) as [[[]|e0] w0] eqn:Hlogging; [|discriminate].
  rewrite run_loop_add. unfold bind at 1. rewrite Hk.
  now apply run_loop_sample_fails.
Qed.

(** C5 (amended) on a host whose second sample fails: Severe stays published. *)
Lemma C5_sampling_failure_witness :
  exists w',
    ResourceController.run Scenario.cpu_percent_once Scenario.virtual_memory_ok
                           Scenario.controller (1 + 3) empty_world
    = (Raise Scenario.sample_failure, w')
    /\ shared_state w' !! "throttling_level" = Some (VInt 3)
    /\ throttling_level w' = 3.
Proof.
  pose (wk := snd (ResourceController.run Scenario.cpu_percent_once
                     Scenario.virtual_memory_ok Scenario.controller 1 empty_world)).
  assert (Hk : ResourceController.run Scenario.cpu_percent_once
                 Scenario.virtual_memory_ok Scenario.controller 1 empty_world
               = (Ret tt, wk)) by (vm_compute; reflexivity).
  assert (Hfail : fst (ResourceController._get_system_metrics
                         Scenario.cpu_percent_once Scenario.virtual_memory_ok wk)
                  = Raise Scenario.sample_failure) by (vm_compute; reflexivity).
  destruct (C5_sampling_failure_holds_level_and_ends_run
              Scenario.cpu_percent_once Scenario.virtual_memory_ok Scenario.controller
              1 2 empty_world wk Scenario.sample_failure Hk Hfail)
    as (w' & Hrun & _ & Hlvl & Hval & _).
  exists w'. split; [exact Hrun|]. split.
  - rewrite Hlvl. vm_compute. reflexivity.
  - rewrite Hval. vm_compute. reflexivity.
Defined.

(** ** Readers of the shared state *)

(** The flags 0 and 1 convert to themselves. *)
Lemma to_float_flag float_of_string v :
  MetricsServer.to_float float_of_string (MetricsServer.flag v)
  = Ret (inject_Z (if truthy v then 1 else 0)).
Proof. unfold MetricsServer.flag. destruct (truthy v); reflexivity. Qed.

Lemma of_int_flag (b : bool) :
  Float.of_int (if b then 1 else 0) = Ret (inject_Z (if b then 1 else 0)).
Proof. destruct b; reflexivity. Qed.

Lemma update_metrics_readiness float_of_string w w' :
  MetricsServer._update_metrics float_of_string w = (Ret tt, w') ->
  forall key gauge,
    In (key, gauge) readiness_gauges ->
    gauges w' !! gauge = Some (readiness_reading w key).
Proof.
  unfold MetricsServer._update_metrics, bind, getitem, MetricsServer.Gauge_set.
  repeat first
    [ rewrite of_int_flag; cbn
    | match goal with
      | |- context [MetricsServer.to_float float_of_string ?v] =>
          destruct (MetricsServer.to_float float_of_string v);
          cbn; [|intros H; discriminate H]
      end ].
  intros [= <-] key gauge Hin. unfold readiness_reading.
  cbn in Hin.
  destruct Hin as [[= <- <-]|[[= <- <-]|[[= <- <-]|[[= <- <-]|[]]]]]; cbn [gauges];
    repeat (rewrite lookup_insert_ne by discriminate); apply lookup_insert_eq.
Qed.

Lemma check_vector_health_run w :
  exists w',
    VectorManager.check_vector_health w
    = (Ret (truthy (default (VBool false) (shared_state w !! "docker_healthy"))), w')
    /\ shared_state w' !! "vector_healthy"
       = Some (VBool (truthy (default (VBool false) (shared_state w !! "docker_healthy"))))
    /\ (truthy (default (VBool false) (shared_state w !! "docker_healthy")) = false ->
        shared_state w' !! "last_error" = Some (VStr "Vector container not healthy.")).
Proof.
  unfold VectorManager.check_vector_health, bind, getitem.
  destruct (truthy _) eqn:E; cbn; eexists; (split; [reflexivity|]); cbn.
  - split; [apply lookup_insert_eq|discriminate].
  - split; [|intros _; apply lookup_insert_eq].
    rewrite lookup_insert_ne by discriminate. apply lookup_insert_eq.
Qed.

(** C6 (as stated, refuted). In a store where nothing was ever written,
    the log shipper check concludes "not healthy" and records it, and the
    exporter reports every readiness gauge as 0. *)
Lemma C6_absent_key_is_read_as_false :
  let checked := VectorManager.check_vector_health empty_world in
  let exported := MetricsServer._update_metrics (fun _ => None) empty_world in
  shared_state empty_world !! "docker_healthy" = None
  /\ fst checked = Ret false
  /\ shared_state (snd checked) !! "vector_healthy" = Some (VBool false)
  /\ shared_state (snd checked) !! "last_error" = Some (VStr "Vector container not healthy.")
  /\ fst exported = Ret tt
  /\ gauges (snd exported) !! "ids2_vector_health" = Some 0%Q
  /\ gauges (snd exported) !! "ids2_aws_ready" = Some 0%Q
  /\ gauges (snd exported) !! "ids2_redis_ready" = Some 0%Q
  /\ gauges (snd exported) !! "ids2_pipeline_ok" = Some 0%Q.
Proof. vm_compute. repeat split; reflexivity. Qed.

(** C6 (amended). Readers take an absent key for its default, which is
    False: with [docker_healthy] absent the log shipper check returns False,
    publishes [vector_healthy = False] and the "not healthy" error, exactly
    as for a stored False; and an exporter cycle that completes leaves each
    readiness gauge at 1 if the key holds a true value and at 0 otherwise,
    so at 0 when the key is absent. *)
Theorem C6_absent_key_reads_as_its_default_false :
  forall float_of_string (w : world),
    (shared_state w !! "docker_healthy" = None
     \/ shared_state w !! "docker_healthy" = Some (VBool false) ->
     exists w',
       VectorManager.check_vector_health w = (Ret false, w')
       /\ shared_state w' !! "vector_healthy" = Some (VBool false)
       /\ shared_state w' !! "last_error" = Some (VStr "Vector container not healthy."))
    /\ (forall w',
           MetricsServer._update_metrics float_of_string w = (Ret tt, w') ->
           forall key gauge,
             In (key, gauge) readiness_gauges ->
             gauges w' !! gauge = Some (readiness_reading w key)
             /\ (shared_state w !! key = None -> gauges w' !! gauge = Some 0%Q)).
Proof.
  intros float_of_string w. split.
  - intros Habs.
    destruct (check_vector_health_run w) as (w' & Hrun & Hvec & Herr).
    assert (E : truthy (default (VBool false) (shared_state w !! "docker_healthy")) = false)
      by (destruct Habs as [-> | ->]; reflexivity).
    rewrite E in *. exists w'. auto.
  - intros w' Hrun key gauge Hin.
    pose proof (update_metrics_readiness float_of_string w w' Hrun key gauge Hin) as Hg.
    split; [exact Hg|].
    intros Habs. rewrite Hg. unfold readiness_reading. rewrite Habs. reflexivity.
Qed.

(** C6 (amended) on a store where nothing was ever written. *)
Lemma C6_absent_key_witness :
  (exists w',
      VectorManager.check_vector_health empty_world = (Ret false, w')
      /\ shared_state w' !! "vector_healthy" = Some (VBool false)
      /\ shared_state w' !! "last_error" = Some (VStr "Vector container not healthy."))
  /\ gauges (snd (MetricsServer._update_metrics (fun _ => None) empty_world))
       !! "ids2_aws_ready" = Some 0%Q.
Proof.
  destruct (C6_absent_key_reads_as_its_default_false (fun _ => None) empty_world)
    as (Hvec & Hexp).
  split.
  - apply Hvec. left. reflexivity.
  - assert (Hrun : MetricsServer._update_metrics (fun _ => None) empty_world
                   = (Ret tt, snd (MetricsServer._update_metrics (fun _ => None) empty_world)))
      by (vm_compute; reflexivity).
    apply (Hexp _ Hrun "aws_ready" "ids2_aws_ready").
    + right. left. reflexivity.
    + reflexivity.
Defined.

(** ** The exporter never writes to the store *)

Lemma keeps_store_ret {A} (a : A) : keeps_store (ret a).
Proof. intros w. reflexivity. Qed.

Lemma keeps_store_raise {A} e : keeps_store (@raise A e).
Proof. intros w. reflexivity. Qed.

Lemma keeps_store_getitem key dflt : keeps_store (getitem key dflt).
Proof. intros w. reflexivity. Qed.

Lemma keeps_store_gauge_set name x : keeps_store (gauge_set name x).
Proof. intros w. reflexivity. Qed.

Lemma keeps_store_logging lvl msg : keeps_store (logging lvl msg).
Proof. intros w. reflexivity. Qed.

Lemma keeps_store_sleep secs : keeps_store (sleep secs).
Proof. intros w. reflexivity. Qed.

Lemma keeps_store_ask {A} ev (oracle : list event -> outcome A) :
  keeps_store (ask ev oracle).
Proof. intros w. reflexivity. Qed.

Lemma keeps_store_bind {A B} (m : M A) (k : A -> M B) :
  keeps_store m -> (forall a, keeps_store (k a)) -> keeps_store (bind m k).
Proof.
  intros Hm Hk w. unfold bind. specialize (Hm w).
  destruct (m w) as [[a|e] w1]; cbn in *.
  - now rewrite Hk.
  - exact Hm.
Qed.

Lemma keeps_store_Gauge_set float_of_string name v :
  keeps_store (MetricsServer.Gauge_set float_of_string name v).
Proof.
  unfold MetricsServer.Gauge_set.
  destruct (MetricsServer.to_float float_of_string v);
    [apply keeps_store_gauge_set|apply keeps_store_raise].
Qed.

Create HintDb store.

#[local] Hint Resolve keeps_store_ret keeps_store_raise keeps_store_getitem
  keeps_store_gauge_set keeps_store_logging keeps_store_sleep keeps_store_ask
  keeps_store_Gauge_set : store.

Lemma keeps_store_update_metrics float_of_string :
  keeps_store (MetricsServer._update_metrics float_of_string).
Proof.
  unfold MetricsServer._update_metrics.
  repeat (apply keeps_store_bind; [auto with store|intros ?]).
  auto with store.
Qed.

Lemma keeps_store_run_loop float_of_string cycles :
  keeps_store (MetricsServer.run_loop float_of_string cycles).
Proof.
  induction cycles as [|n IH]; [apply keeps_store_ret|].
  cbn [MetricsServer.run_loop].
  apply keeps_store_bind; [apply keeps_store_update_metrics|intros _].
  apply keeps_store_bind; [apply keeps_store_sleep|intros _]. exact IH.
Qed.

(** C8. The exporter only reads the store: one update of the metrics, and
    [run] over any number of cycles, leave the shared state exactly as it
    was, whether the update completes or a conversion raises. *)
Theorem C8_metrics_exporter_leaves_the_store_unchanged :
  forall float_of_string start_http_server port (cycles : nat) (w : world),
    shared_state (snd (MetricsServer._update_metrics float_of_string w)) = shared_state w
    /\ shared_state
         (snd (MetricsServer.run float_of_string start_http_server port cycles w))
       = shared_state w.
Proof.
  intros float_of_string start_http_server port cycles w. split.
  - apply keeps_store_update_metrics.
  - unfold MetricsServer.run.
    apply keeps_store_bind; [apply keeps_store_logging|intros _].
    apply keeps_store_bind; [apply keeps_store_ask|intros _].
    apply keeps_store_run_loop.
Qed.

(** ** The container stack health check *)

Section StackHealth.
Import DockerManager.
Variable ping : list event -> outcome unit.
Variable containers_get : list event -> string -> outcome string.

Local Abbreviation check_service := (check_service containers_get).
Local Abbreviation services_loop := (services_loop containers_get).

(** One look-up per service, no write, and True exactly for "running". *)
Lemma check_service_run s w :
  exists b w',
    check_service s w = (Ret b, w')
    /\ (b = true <-> containers_get (trace w) (container_name s) = Ret "running")
    /\ trace w' = trace w ++ [EvDockerGet (container_name s)]
    /\ shared_state w' = shared_state w.
Proof.
  unfold DockerManager.check_service, try_except, bind, ask. cbn [trace].
  destruct (containers_get (trace w) (container_name s)) as [status|e] eqn:Hget.
  - destruct (String.eqb status "running") eqn:Hst; cbn.
    + apply String.eqb_eq in Hst. subst status.
      eexists _, _. repeat split; reflexivity.
    + apply String.eqb_neq in Hst.
      eexists _, _. repeat split; try reflexivity; try discriminate.
      intros [= ->]. now destruct Hst.
  - destruct (is_NotFound e); cbn; eexists _, _;
      repeat split; try reflexivity; discriminate.
Qed.

Lemma docker_gets_cons s l :
  docker_gets (s :: l) = EvDockerGet (container_name s) :: docker_gets l.
Proof. reflexivity. Qed.

(** The loop stops at the first service that is not running. *)
Lemma services_loop_first_bad pre :
  forall w s post,
    (forall i s', pre !! i = Some s' ->
                  containers_get (trace w ++ docker_gets (take i pre)) (container_name s')
                  = Ret "running") ->
    containers_get (trace w ++ docker_gets pre) (container_name s) <> Ret "running" ->
    exists w',
      services_loop (pre ++ s :: post) w = (Ret false, w')
      /\ trace w' = trace w ++ docker_gets (pre ++ [s])
      /\ shared_state w' = shared_state w.
Proof.
  induction pre as [|p pre IH]; intros w s post Hpre Hbad.
  - cbn [app DockerManager.services_loop]. unfold bind.
    destruct (check_service_run s w) as (b & w1 & Hrun & Hb & Htr & Hst).
    rewrite Hrun. destruct b.
    + exfalso. apply Hbad. cbn. rewrite app_nil_r. now apply Hb.
    + exists w1. auto.
  - cbn [app DockerManager.services_loop]. unfold bind.
    destruct (check_service_run p w) as (b & w1 & Hrun & Hb & Htr & Hst).
    rewrite Hrun.
    assert (b = true) as ->.
    { apply Hb. specialize (Hpre O p eq_refl). cbn in Hpre.
      now rewrite app_nil_r in Hpre. }
    destruct (IH w1 s post) as (w' & Hloop & Htr' & Hst').
    + intros i s' Hi. rewrite Htr, <- app_assoc. apply (Hpre (S i) s' Hi).
    + rewrite Htr, <- app_assoc. exact Hbad.
    + exists w'. split; [exact Hloop|]. split.
      * rewrite Htr', Htr, <- app_assoc. reflexivity.
      * congruence.
Qed.

(** With every service running the loop examines them all. *)
Lemma services_loop_all_running l :
  forall w,
    (forall i s, l !! i = Some s ->
                 containers_get (trace w ++ docker_gets (take i l)) (container_name s)
                 = Ret "running") ->
    exists w',
      services_loop l w = (Ret true, w')
      /\ trace w' = trace w ++ docker_gets l
      /\ shared_state w' = shared_state w.
Proof.
  induction l as [|p l IH]; intros w Hall.
  - exists w. cbn. rewrite app_nil_r. auto.
  - cbn [DockerManager.services_loop]. unfold bind.
    destruct (check_service_run p w) as (b & w1 & Hrun & Hb & Htr & Hst).
    rewrite Hrun.
    assert (b = true) as ->.
    { apply Hb. specialize (Hall O p eq_refl). cbn in Hall.
      now rewrite app_nil_r in Hall. }
    destruct (IH w1) as (w' & Hloop & Htr' & Hst').
    + intros i s Hi. rewrite Htr, <- app_assoc. apply (Hall (S i) s Hi).
    + exists w'. split; [exact Hloop|]. split.
      * rewrite Htr', Htr, <- app_assoc. reflexivity.
      * congruence.
Qed.

(** The loop answers True only if every service was running. *)
Lemma services_loop_true l :
  forall w w',
    services_loop l w = (Ret true, w') ->
    forall i s, l !! i = Some s ->
                containers_get (trace w ++ docker_gets (take i l)) (container_name s)
                = Ret "running".
Proof.
  induction l as [|p l IH]; intros w w' Hloop i s Hi; [discriminate|].
  cbn [DockerManager.services_loop] in Hloop. unfold bind in Hloop.
  destruct (check_service_run p w) as (b & w1 & Hrun & Hb & Htr & Hst).
  rewrite Hrun in Hloop. destruct b; [|discriminate].
  destruct i as [|i].
  - injection Hi as <-. cbn. rewrite app_nil_r. now apply Hb.
  - cbn [take]. rewrite docker_gets_cons.
    specialize (IH w1 w' Hloop i s Hi).
    rewrite Htr, <- app_assoc in IH. exact IH.
Qed.

(** The loop never raises. *)
Lemma services_loop_returns l :
  forall w, exists b w', services_loop l w = (Ret b, w').
Proof.
  induction l as [|p l IH]; intros w; [eexists _, _; reflexivity|].
  cbn [DockerManager.services_loop]. unfold bind.
  destruct (check_service_run p w) as (b & w1 & Hrun & _).
  rewrite Hrun. destruct b; [apply IH|eexists _, _; reflexivity].
Qed.

Lemma check_docker_daemon_ok w :
  ping (trace w) = Ret tt ->
  _check_docker_daemon ping w
  = (Ret true,
     World (shared_state w)
           (log w ++ [(INFO, "Le démon Docker est en cours d'exécution."%string)])
           (trace w ++ [EvDockerPing]) (gauges w) (throttling_level w)).
Proof.
  intros Hping. unfold _check_docker_daemon, try_except, bind, ask.
  rewrite Hping. reflexivity.
Qed.

(** What [check_stack_health] does with the answer of its loop. *)
Lemma check_stack_health_of_loop services w w0 b w1 :
  _check_docker_daemon ping w = (Ret true, w0) ->
  services_loop services w0 = (Ret b, w1) ->
  exists w',
    check_stack_health_of ping containers_get services w = (Ret b, w')
    /\ shared_state w' !! "docker_healthy" = Some (VBool b)
    /\ trace w' = trace w1.
Proof.
  intros Hdaemon Hloop.
  unfold check_stack_health_of. unfold bind at 1. rewrite Hdaemon. cbn [negb].
  unfold try_except, bind at 1. rewrite Hloop.
  destruct b; cbn; eexists; (split; [reflexivity|]); cbn.
  - split; [apply lookup_insert_eq|reflexivity].
  - split; [|reflexivity].
    rewrite lookup_insert_ne by discriminate. apply lookup_insert_eq.
Qed.
End StackHealth.

Lemma take_app_one {A} (pre : list A) s post :
  take (S (length pre)) (pre ++ s :: post) = pre ++ [s].
Proof. induction pre as [|p pre IH]; [reflexivity|]. cbn. now rewrite IH. Qed.

Lemma take_app_prefix {A} (pre : list A) rest i s :
  pre !! i = Some s -> take i (pre ++ rest) = take i pre.
Proof.
  revert i. induction pre as [|p pre IH]; intros i Hi; [discriminate|].
  destruct i as [|i]; [reflexivity|]. cbn. f_equal. now apply IH.
Qed.

Lemma take_app_whole {A} (pre rest : list A) :
  take (length pre) (pre ++ rest) = pre.
Proof. induction pre as [|p pre IH]; [now destruct rest|]. cbn. now rewrite IH. Qed.

(** C7. With the docker daemon answering, the health check looks the
    services up in the order of the list; at the first one that is not
    running (another status, not found, or any error) it stops, having
    examined nothing after it, publishes [docker_healthy = False] and
    returns False; it returns True, and then publishes True after
    examining the whole list, exactly when every service is running. *)
Theorem C7_stack_health_stops_at_first_failure :
  forall ping containers_get (services : list string) (w : world),
    ping (trace w) = Ret tt ->
    let run := DockerManager.check_stack_health_of ping containers_get services w in
    let examined (i : nat) := trace w ++ EvDockerPing :: docker_gets (take i services) in
    let running (i : nat) (s : string) :=
      containers_get (examined i) (DockerManager.container_name s) = Ret "running" in
    (forall pre s post,
        services = pre ++ s :: post ->
        (forall i s', pre !! i = Some s' -> running i s') ->
        ~ running (length pre) s ->
        fst run = Ret false
        /\ shared_state (snd run) !! "docker_healthy" = Some (VBool false)
        /\ trace (snd run) = examined (S (length pre)))
    /\ (fst run = Ret true <-> forall i s, services !! i = Some s -> running i s)
    /\ (fst run = Ret true ->
        shared_state (snd run) !! "docker_healthy" = Some (VBool true)
        /\ trace (snd run) = examined (length services)).
Proof.
  intros ping containers_get services w Hping run examined running.
  pose proof (check_docker_daemon_ok ping w Hping) as Hdaemon.
  set (w0 := World (shared_state w)
                   (log w ++ [(INFO, "Le démon Docker est en cours d'exécution."%string)])
                   (trace w ++ [EvDockerPing]) (gauges w) (throttling_level w)) in *.
  assert (Hex : forall i, examined i = trace w0 ++ docker_gets (take i services)).
  { intros i. unfold examined. cbn [trace w0]. now rewrite <- app_assoc. }
  destruct (services_loop_returns containers_get services w0) as (b & w1 & Hloop).
  destruct (check_stack_health_of_loop ping containers_get services w w0 b w1 Hdaemon Hloop)
    as (w' & Hrun & Hpub & Htr).
  fold run in Hrun. rewrite Hrun. cbn [fst snd].
  split; [|split].
  - intros pre s post -> Hpre Hbad.
    destruct (services_loop_first_bad containers_get pre w0 s post)
      as (w2 & Hloop2 & Htr2 & _).
    + intros i s' Hi. specialize (Hpre i s' Hi). unfold running in Hpre.
      rewrite Hex in Hpre. now rewrite (take_app_prefix pre (s :: post) i s' Hi) in Hpre.
    + intros Hrunning. apply Hbad. unfold running. rewrite Hex.
      now rewrite take_app_whole.
    + rewrite Hloop in Hloop2. injection Hloop2 as -> ->.
      split; [reflexivity|]. split; [exact Hpub|].
      rewrite Htr, Htr2, Hex, take_app_one. reflexivity.
  - split.
    + intros [= ->] i s Hi. unfold running. rewrite Hex.
      exact (services_loop_true containers_get services w0 w1 Hloop i s Hi).
    + intros Hall.
      destruct (services_loop_all_running containers_get services w0) as (w2 & Hloop2 & _).
      * intros i s Hi. specialize (Hall i s Hi). unfold running in Hall.
        now rewrite Hex in Hall.
      * rewrite Hloop in Hloop2. now injection Hloop2 as -> ->.
  - intros [= ->]. split; [exact Hpub|].
    destruct (services_loop_all_running containers_get services w0) as (w2 & Hloop2 & Htr2 & _).
    + intros i s Hi.
      exact (services_loop_true containers_get services w0 w1 Hloop i s Hi).
    + rewrite Hloop in Hloop2. injection Hloop2 as <-.
      rewrite Htr, Htr2, Hex, firstn_all. reflexivity.
Qed.

(** C7 on the four required services, redis having exited: prometheus and
    grafana are not looked up. *)
Lemma C7_stack_health_witness :
  let run := DockerManager.check_stack_health Scenario.ping_ok
               Scenario.containers_redis_exited empty_world in
  fst run = Ret false
  /\ shared_state (snd run) !! "docker_healthy" = Some (VBool false)
  /\ trace (snd run)
     = [EvDockerPing; EvDockerGet "oi-vector-1"; EvDockerGet "oi-redis-1"].
Proof.
  intros run.
  pose proof (C7_stack_health_stops_at_first_failure
                Scenario.ping_ok Scenario.containers_redis_exited
                DockerManager.required_services empty_world eq_refl)
    as (Hstop & _ & _).
  apply (Hstop ["vector"] "redis" ["prometheus"; "grafana"] eq_refl).
  - intros [|[|i]] s' Hi; [|discriminate Hi..].
    injection Hi as <-. reflexivity.
  - discriminate.
Defined.

(** ** Reloading the configuration *)

Lemma split_lacks c s : lacks c s = true -> split c s = [s].
Proof.
  induction s as [|a s IH]; [reflexivity|].
  simpl. intros [Ha Hs]%andb_true_iff. rewrite (IH Hs).
  now destruct (Ascii.eqb a c).
Qed.

(** C9. A reload succeeds exactly when the file is there, can be read and
    its text parses. The object then holds the document parsed from the
    text that was read, whatever it held before, under the same path;
    "Configuration rechargée." is printed, and every [get] walks that
    document: a key without a dot reads its entry there, or the default.
    When the file is absent (a FileNotFoundError), cannot be read or does
    not parse, the exception leaves before the assignment: the object, its
    configuration included, and the output are exactly as they were. *)
Theorem C9_reload_replaces_the_config_or_leaves_it :
  forall os_path_exists read_file yaml_safe_load (self : ConfigManager.t)
         (stdout : list string),
    let path := ConfigManager.config_path self in
    let reloaded :=
      ConfigManager.reload_config os_path_exists read_file yaml_safe_load self stdout in
    (forall text doc,
        os_path_exists path = true ->
        read_file path = Ret text ->
        yaml_safe_load text = Ret doc ->
        reloaded = (Ret tt, ConfigManager.Make path doc,
                    stdout ++ ["Configuration rechargée."%string])
        /\ (forall key dflt,
               ConfigManager.get (snd (fst reloaded)) key dflt
               = ConfigManager.walk (split "." key) doc dflt)
        /\ (forall key dflt,
               lacks "." key = true ->
               ConfigManager.get (snd (fst reloaded)) key dflt
               = match doc with
                 | VDict d => default dflt (d !! key)
                 | _ => dflt
                 end))
    /\ (fst (fst reloaded) = Ret tt ->
        exists text doc,
          os_path_exists path = true
          /\ read_file path = Ret text
          /\ yaml_safe_load text = Ret doc)
    /\ (os_path_exists path = false ->
        exists e,
          exn_cls e = FileNotFoundError /\ reloaded = (Raise e, self, stdout))
    /\ (forall e,
           os_path_exists path = true ->
           read_file path = Raise e ->
           reloaded = (Raise e, self, stdout))
    /\ (forall text e,
           os_path_exists path = true ->
           read_file path = Ret text ->
           yaml_safe_load text = Raise e ->
           reloaded = (Raise e, self, stdout)).
Proof.
  intros os_path_exists read_file yaml_safe_load self stdout path reloaded.
  subst reloaded. unfold ConfigManager.reload_config, ConfigManager._load_config.
  fold path.
  split; [|split; [|split; [|split]]].
  - intros text doc -> -> ->. cbn. split; [reflexivity|]. split.
    + reflexivity.
    + intros key dflt Hkey. unfold ConfigManager.get. cbn [ConfigManager.config].
      rewrite (split_lacks _ _ Hkey). cbn [ConfigManager.walk].
      destruct doc as [| | | | | |d]; reflexivity.
  - destruct (os_path_exists path); cbn; [|discriminate].
    destruct (read_file path) as [text|e]; [|discriminate].
    destruct (yaml_safe_load text) as [doc|e] eqn:Hdoc; [|discriminate].
    intros _. exists text, doc. auto.
  - intros ->. cbn. eexists. split; [|reflexivity]. reflexivity.
  - intros e -> ->. reflexivity.
  - intros text e -> -> ->. reflexivity.
Qed.

(** C9 on a rewritten file, and on an absent one: after the reload the
    new key is read and the old section is gone; without the file the
    object keeps the old section. *)
Lemma C9_reload_witness :
  (let reloaded := ConfigManager.reload_config Scenario.a_file Scenario.read_new_text
                     Scenario.parse_new_text Scenario.loaded_config [] in
   reloaded
   = (Ret tt,
      ConfigManager.Make "config.yaml" (VDict {[ "new_key" := VStr "new_value" ]}),
      ["Configuration rechargée."%string])
   /\ ConfigManager.get (snd (fst reloaded)) "new_key" VNone = VStr "new_value"
   /\ ConfigManager.get (snd (fst reloaded)) "test_section" VNone = VNone)
  /\ (exists e,
         exn_cls e = FileNotFoundError
         /\ ConfigManager.reload_config Scenario.no_file Scenario.read_new_text
              Scenario.parse_new_text Scenario.loaded_config []
            = (Raise e, Scenario.loaded_config, [])).
Proof.
  split.
  - destruct (proj1 (C9_reload_replaces_the_config_or_leaves_it
                       Scenario.a_file Scenario.read_new_text Scenario.parse_new_text
                       Scenario.loaded_config [])
                    "new_key: 'new_value'" (VDict {[ "new_key" := VStr "new_value" ]})
                    eq_refl eq_refl eq_refl) as (Hrun & _ & Hget).
    split; [exact Hrun|]. split.
    + rewrite (Hget "new_key" VNone eq_refl). reflexivity.
    + rewrite (Hget "test_section" VNone eq_refl). reflexivity.
  - apply (proj1 (proj2 (proj2 (C9_reload_replaces_the_config_or_leaves_it
                                  Scenario.no_file Scenario.read_new_text
                                  Scenario.parse_new_text Scenario.loaded_config [])))).
    reflexivity.
Defined.

(** [get] before and after a reload, as in the module's own example. *)
Example reload_then_get :
  let reloaded := ConfigManager.reload_config Scenario.a_file Scenario.read_new_text
                    Scenario.parse_new_text Scenario.loaded_config [] in
  ConfigManager.get Scenario.loaded_config "test_section.key1" VNone = VStr "value1"
  /\ ConfigManager.get Scenario.loaded_config "new_key" VNone = VNone
  /\ ConfigManager.get (snd (fst reloaded)) "new_key" VNone = VStr "new_value"
  /\ ConfigManager.get (snd (fst reloaded)) "test_section.key1" VNone = VNone
  /\ snd reloaded = ["Configuration rechargée."%string].
Proof. vm_compute. repeat split; reflexivity. Qed.

(** ** Sending an empty batch *)

Section EmptyBatch.
Import AWSManager.
Variable json_dumps : value -> string.
Variable json_dumps_indent : value -> string.
Variable strftime : list event -> string -> outcome string.
Variable get_credentials : list event -> outcome unit.
Variable client_bulk : list event -> string -> string -> outcome value.
Variable error_code : exn -> string.
Variable self : t.

(** Entries that are not dictionaries are logged and skipped. *)
Lemma build_bulk_data_no_dict prefix logs :
  forall w,
    Forall (fun log => is_dict log = false) logs ->
    exists w',
      build_bulk_data json_dumps strftime self prefix logs w = (Ret [], w')
      /\ shared_state w' = shared_state w
      /\ trace w' = trace w
      /\ gauges w' = gauges w.
Proof.
  induction logs as [|log logs IH]; intros w Hall.
  - exists w. auto.
  - inversion Hall as [|? ? Hlog Hrest]; subst.
    cbn [AWSManager.build_bulk_data]. unfold bind at 1, bulk_lines.
    rewrite Hlog. unfold bind at 1, logging at 1. cbn [ret fst snd].
    unfold bind at 1.
    match goal with |- context [build_bulk_data _ _ _ _ _ ?w1] =>
      destruct (IH w1 Hrest) as (w' & Hrun & Hst & Htr & Hg) end.
    rewrite Hrun. exists w'. cbn. auto.
Qed.
End EmptyBatch.

(** C10. With an endpoint configured, a batch that is empty or holds no
    dictionary makes [send_bulk_to_opensearch] return True having asked
    nothing of the outside (no credentials, no bulk request, no wait) and
    having written no key of the shared state. *)
Theorem C10_nothing_to_send_returns_true_untouched :
  forall json_dumps json_dumps_indent strftime get_credentials client_bulk error_code
         (self : AWSManager.t) endpoint (logs : list value) index_name_prefix
         (max_retries initial_backoff : Z) (w : world),
    AWSManager.opensearch_endpoint self = Some endpoint ->
    endpoint <> "" ->
    Forall (fun log => is_dict log = false) logs ->
    let run := AWSManager.send_bulk_to_opensearch
                 json_dumps json_dumps_indent strftime get_credentials client_bulk
                 error_code self logs index_name_prefix max_retries initial_backoff w in
    fst run = Ret true
    /\ trace (snd run) = trace w
    /\ shared_state (snd run) = shared_state w.
Proof.
  intros json_dumps json_dumps_indent strftime get_credentials client_bulk error_code
         self endpoint logs prefix max_retries initial_backoff w Hend Hne Hall run.
  assert (Heq : String.eqb endpoint "" = false) by now apply String.eqb_neq.
  destruct (build_bulk_data_no_dict json_dumps strftime self prefix logs w Hall)
    as (w' & Hrun & Hst & Htr & _).
  assert (Hsend : run = (Ret true, w) \/ run = (Ret true, w')).
  { subst run. unfold AWSManager.send_bulk_to_opensearch. rewrite Hend, Heq.
    destruct logs as [|log logs]; [left; reflexivity|right].
    cbn [truthy length Nat.eqb negb].
    rewrite (bind_Ret _ _ _ _ _ Hrun). reflexivity. }
  destruct Hsend as [-> | ->]; cbn [fst snd]; auto.
Qed.

(** C10 on the empty batch and on a batch of three entries, none a dictionary. *)
Lemma C10_nothing_to_send_witness :
  let run logs :=
    AWSManager.send_bulk_to_opensearch
      Scenario.no_json Scenario.no_json Scenario.strftime_ok Scenario.credentials_ok
      Scenario.bulk_ok Scenario.no_code Scenario.aws logs "suricata-" 5 1 empty_world in
  (fst (run []) = Ret true
   /\ trace (snd (run [])) = []
   /\ shared_state (snd (run [])) = ∅)
  /\ (fst (run Scenario.not_logs) = Ret true
      /\ trace (snd (run Scenario.not_logs)) = []
      /\ shared_state (snd (run Scenario.not_logs)) = ∅).
Proof.
  intros run. split.
  - apply (C10_nothing_to_send_returns_true_untouched
             Scenario.no_json Scenario.no_json Scenario.strftime_ok
             Scenario.credentials_ok Scenario.bulk_ok Scenario.no_code Scenario.aws
             "https://search.example.com" [] "suricata-" 5 1 empty_world eq_refl).
    + discriminate.
    + constructor.
  - apply (C10_nothing_to_send_returns_true_untouched
             Scenario.no_json Scenario.no_json Scenario.strftime_ok
             Scenario.credentials_ok Scenario.bulk_ok Scenario.no_code Scenario.aws
             "https://search.example.com" Scenario.not_logs "suricata-" 5 1
             empty_world eq_refl).
    + discriminate.
    + repeat constructor.
Defined.

(** A batch with one dictionary does go out: credentials, then the bulk
    request to the host of the endpoint. *)
Example one_record_is_sent :
  let run :=
    AWSManager.send_bulk_to_opensearch
      Scenario.no_json Scenario.no_json Scenario.strftime_ok Scenario.credentials_ok
      Scenario.bulk_ok Scenario.no_code Scenario.aws
      [VDict {[ "event_type" := VStr "alert" ]}] "suricata-" 5 1 empty_world in
  fst run = Ret true
  /\ trace (snd run)
     = [ EvStrftime "suricata-%Y.%m.%d"; EvCredentials; EvCredentials; EvCredentials;
         EvBulk "search.example.com" (String "{" (String "}" (String "010"
                  (String "{" (String "}" (String "010" EmptyString)))))) ]
  /\ shared_state (snd run) !! "aws_ready" = Some (VBool true).
Proof. vm_compute. repeat split; reflexivity. Qed.

(** * Further properties of the modules *)

(** ** Looking a key up in the configuration *)

Lemma split_head_first c s :
  exists rest, split c s = split_head c s :: rest.
Proof.
  induction s as [|a s [rest IH]]; [now exists []|].
  simpl. rewrite IH. destruct (Ascii.eqb a c); eexists; reflexivity.
Qed.

Lemma split_section c section rest :
  lacks c section = true ->
  split c (section ++ String c rest)%string = section :: split c rest.
Proof.
  induction section as [|a s IH]; simpl.
  - intros _. now rewrite Ascii.eqb_refl.
  - intros [Ha Hs]%andb_true_iff. rewrite (IH Hs).
    now destruct (Ascii.eqb a c).
Qed.

(** X1. [get] falls back on the default whenever the walk cannot start:
    the loaded document is not a dictionary (an empty YAML file loads as
    None), or the first component of the key is not one of its keys. *)
Theorem X1_get_defaults_when_the_walk_cannot_start :
  forall (self : ConfigManager.t) (key : string) (dflt : value),
    (is_dict (ConfigManager.config self) = false ->
     ConfigManager.get self key dflt = dflt)
    /\ (forall d,
           ConfigManager.config self = VDict d ->
           d !! split_head "." key = None ->
           ConfigManager.get self key dflt = dflt).
Proof.
  intros self key dflt. unfold ConfigManager.get.
  destruct (split_head_first "." key) as [rest ->]. split.
  - intros Hnd. cbn. now destruct (ConfigManager.config self).
  - intros d -> Hnone. cbn. now rewrite Hnone.
Qed.

(** X1 on the document an empty file gives, and on a missing section. *)
Lemma X1_get_defaults_witness :
  ConfigManager.get (ConfigManager.Make "config.yaml" VNone)
                    "raspberry_pi.cpu_limit_percent" (VInt 70) = VInt 70
  /\ ConfigManager.get Scenario.loaded_config "redis.host" (VStr "localhost")
     = VStr "localhost".
Proof.
  split.
  - apply (X1_get_defaults_when_the_walk_cannot_start
             (ConfigManager.Make "config.yaml" VNone)
             "raspberry_pi.cpu_limit_percent" (VInt 70)).
    reflexivity.
  - apply (proj2 (X1_get_defaults_when_the_walk_cannot_start
                    Scenario.loaded_config "redis.host" (VStr "localhost"))
                 {[ "test_section" := VDict {[ "key1" := VStr "value1" ]} ]}).
    + reflexivity.
    + vm_compute. reflexivity.
Defined.

(** X2. A key without a dot reads the entry of the top dictionary, or the
    default; a dotted key [section.rest] reads [rest] in the document stored
    under [section]: nested look-ups compose. *)
Theorem X2_get_walks_section_by_section :
  forall (self : ConfigManager.t) (d : gmap string value) (dflt : value),
    ConfigManager.config self = VDict d ->
    (forall key,
        lacks "." key = true ->
        ConfigManager.get self key dflt = default dflt (d !! key))
    /\ (forall section rest v,
           lacks "." section = true ->
           d !! section = Some v ->
           ConfigManager.get self (section ++ String "." rest)%string dflt
           = ConfigManager.get (ConfigManager.Make (ConfigManager.config_path self) v)
                               rest dflt).
Proof.
  intros self d dflt Hcfg. unfold ConfigManager.get. rewrite Hcfg. split.
  - intros key Hkey. rewrite (split_lacks _ _ Hkey). cbn.
    now destruct (d !! key).
  - intros section rest v Hsec Hv. rewrite (split_section _ _ _ Hsec). cbn.
    now rewrite Hv.
Qed.

(** X2 on the configuration of the module's own example. *)
Lemma X2_get_walks_witness :
  ConfigManager.get Scenario.loaded_config "test_section.key1" VNone
  = ConfigManager.get (ConfigManager.Make "config.yaml" (VDict {[ "key1" := VStr "value1" ]}))
                      "key1" VNone.
Proof.
  apply (proj2 (X2_get_walks_section_by_section
                  Scenario.loaded_config
                  {[ "test_section" := VDict {[ "key1" := VStr "value1" ]} ]}
                  VNone eq_refl)
               "test_section" "key1" (VDict {[ "key1" := VStr "value1" ]})).
  - reflexivity.
  - vm_compute. reflexivity.
Defined.

(** ** The throttling level as a function of the two usages *)

Ltac split_on_gt :=
  repeat match goal with
    | |- context [ResourceController.gt ?x ?y] =>
        let E := fresh "E" in
        destruct (ResourceController.gt x y) eqn:E;
        [apply gt_true in E | apply gt_false in E];
        cbn [orb]
    end.

(** X3. The level never decreases when a usage increases, and it is always
    one of 0, 1, 2, 3. *)
Theorem X3_throttling_level_is_monotone_and_bounded :
  forall (rc : ResourceController.t) (cpu ram cpu' ram' : Q),
    (cpu <= cpu')%Q ->
    (ram <= ram')%Q ->
    ResourceController.current_throttling_level rc cpu ram
    <= ResourceController.current_throttling_level rc cpu' ram'
    /\ 0 <= ResourceController.current_throttling_level rc cpu ram <= 3.
Proof.
  intros rc cpu ram cpu' ram' Hcpu Hram.
  unfold ResourceController.current_throttling_level.
  split.
  - split_on_gt; try lia; exfalso; lra.
  - split_on_gt; lia.
Qed.

(** X3 on a CPU that climbs from 72 to 83 percent under the default limits. *)
Lemma X3_throttling_level_witness :
  ResourceController.current_throttling_level Scenario.controller 72 40
  <= ResourceController.current_throttling_level Scenario.controller 83 40
  /\ 0 <= ResourceController.current_throttling_level Scenario.controller 72 40 <= 3.
Proof.
  apply (X3_throttling_level_is_monotone_and_bounded Scenario.controller 72 40 83 40).
  - vm_compute. discriminate.
  - vm_compute. discriminate.
Defined.

(** X4. The worse of the two resources decides: the level is the greater of
    the level the CPU alone would give and the level the RAM alone would
    give (the other usage being at its limit). *)
Theorem X4_throttling_level_is_the_worse_of_cpu_and_ram :
  forall (rc : ResourceController.t) (cpu ram : Q),
    ResourceController.current_throttling_level rc cpu ram
    = Z.max
        (ResourceController.current_throttling_level rc cpu (ResourceController.ram_limit rc))
        (ResourceController.current_throttling_level rc (ResourceController.cpu_limit rc) ram).
Proof.
  intros rc cpu ram.
  unfold ResourceController.current_throttling_level.
  pose proof (add_ge (ResourceController.cpu_limit rc) 10 ltac:(lia)).
  pose proof (add_ge (ResourceController.cpu_limit rc) 5 ltac:(lia)).
  pose proof (add_ge (ResourceController.ram_limit rc) 10 ltac:(lia)).
  pose proof (add_ge (ResourceController.ram_limit rc) 5 ltac:(lia)).
  split_on_gt; try reflexivity; exfalso; lra.
Qed.

(** ** What a complete tick of the controller leaves in the store *)

Section ControllerTick.
Import ResourceController.
Variable psutil_cpu_percent : list event -> outcome Q.
Variable psutil_virtual_memory_percent : list event -> outcome Q.
Variable self : t.

Local Abbreviation run_loop :=
  (run_loop psutil_cpu_percent psutil_virtual_memory_percent self).

Lemma one_tick w w' :
  run_loop 1 w = (Ret tt, w') ->
  exists cpu ram,
    shared_state w' !! "cpu_usage" = Some (VFloat cpu)
    /\ shared_state w' !! "ram_usage" = Some (VFloat ram)
    /\ shared_state w' !! "throttling_level"
       = Some (VInt (current_throttling_level self cpu ram))
    /\ throttling_level w' = current_throttling_level self cpu ram
    /\ sleeps_in (trace w') = sleeps_in (trace w) ++ [inject_Z (sleep_interval self)].
Proof.
  cbn [ResourceController.run_loop]. unfold bind at 1.
  unfold _get_system_metrics, bind at 1, ask at 1. cbn [trace].
  destruct (psutil_cpu_percent (trace w)) as [cpu|e]; [|discriminate].
  unfold bind at 1, ask at 1. cbn [trace].
  destruct (psutil_virtual_memory_percent _) as [ram|e]; [|discriminate].
  unfold _apply_throttling, bind, setitem, set_level_value, sleep, emit.
  cbn [ret fst snd shared_state log trace gauges throttling_level].
  destruct (0 <? _); cbn; intros [= <-]; exists cpu, ram; cbn;
    (split; [rewrite !lookup_insert_ne by discriminate; apply lookup_insert_eq|]);
    (split; [rewrite !lookup_insert_ne by discriminate; apply lookup_insert_eq|]);
    (split; [apply lookup_insert_eq|]);
    (split; [reflexivity|]);
    rewrite !sleeps_in_app; cbn; now rewrite !app_nil_r.
Qed.
End ControllerTick.

(** X5. After any number of complete ticks the store is consistent: the
    published [throttling_level] is the level of the published [cpu_usage]
    and [ram_usage], and the controller's own level cell holds the same
    value. *)
Theorem X5_complete_ticks_leave_a_consistent_store :
  forall psutil_cpu_percent psutil_virtual_memory_percent
         (self : ResourceController.t) (k : nat) (w w' : world),
    ResourceController.run psutil_cpu_percent psutil_virtual_memory_percent self (S k) w
    = (Ret tt, w') ->
    exists cpu ram,
      shared_state w' !! "cpu_usage" = Some (VFloat cpu)
      /\ shared_state w' !! "ram_usage" = Some (VFloat ram)
      /\ shared_state w' !! "throttling_level"
         = Some (VInt (ResourceController.current_throttling_level self cpu ram))
      /\ throttling_level w'
         = ResourceController.current_throttling_level self cpu ram.
Proof.
  intros cpu_percent memory self k w w' Hrun.
  unfold ResourceController.run in Hrun. unfold bind at 1 in Hrun.
  destruct (logging INFO _ w) as [[[]|e0] w0]; [|discriminate].
  replace (S k) with (k + 1)%nat in Hrun by lia.
  rewrite run_loop_add in Hrun. unfold bind at 1 in Hrun.
  destruct (ResourceController.run_loop cpu_percent memory self k w0)
    as [[[]|e1] w1]; [|discriminate].
  destruct (one_tick cpu_percent memory self w1 w' Hrun)
    as (cpu & ram & Hcpu & Hram & Hlvl & Hval & _).
  exists cpu, ram. auto.
Qed.

(** X5 on a host that reads 69.9 and 30 percent under a CPU limit of 59.9:
    the two readings are in the store, with Moderate, since 59.9 + 10 is the
    float 69.9 and the reading does not exceed it. *)
Lemma X5_complete_ticks_witness :
  let w' := snd (ResourceController.run
                   (fun _ => Ret (Float.value Scenario.float_69_9))
                   Scenario.virtual_memory_ok Scenario.tight_controller 2 empty_world) in
  shared_state w' !! "cpu_usage" = Some (VFloat (Float.value Scenario.float_69_9))
  /\ shared_state w' !! "ram_usage" = Some (VFloat 30)
  /\ shared_state w' !! "throttling_level" = Some (VInt 2)
  /\ throttling_level w' = 2.
Proof.
  intros w'.
  assert (Hrun : ResourceController.run
                   (fun _ => Ret (Float.value Scenario.float_69_9))
                   Scenario.virtual_memory_ok Scenario.tight_controller 2 empty_world
                 = (Ret tt, w'))
    by (vm_compute; reflexivity).
  destruct (X5_complete_ticks_leave_a_consistent_store _ _ _ _ _ _ Hrun)
    as (cpu & ram & Hcpu & Hram & Hlvl & Hval).
  assert (Hc : shared_state w' !! "cpu_usage"
               = Some (VFloat (Float.value Scenario.float_69_9)))
    by (vm_compute; reflexivity).
  assert (Hr : shared_state w' !! "ram_usage" = Some (VFloat 30))
    by (vm_compute; reflexivity).
  rewrite Hc in Hcpu. rewrite Hr in Hram.
  injection Hcpu as <-. injection Hram as <-.
  split; [exact Hc|]. split; [exact Hr|]. split.
  - rewrite Hlvl. vm_compute. reflexivity.
  - rewrite Hval. vm_compute. reflexivity.
Defined.

(** ** What the connectivity checks write *)

Lemma keeps_store_try_except {A} (body : M A) handler :
  keeps_store body -> (forall e, keeps_store (handler e)) ->
  keeps_store (try_except body handler).
Proof.
  intros Hbody Hhandler w. unfold try_except. specialize (Hbody w).
  destruct (body w) as [[a|e] w1]; cbn in *; [exact Hbody|].
  now rewrite Hhandler.
Qed.

Lemma keeps_store_retry_loop self {A} (func : M A) fuel :
  keeps_store func ->
  forall retries, keeps_store (ConnectivityAsync.retry_loop self fuel func retries).
Proof.
  intros Hfunc. induction fuel as [|fuel IH]; intros retries; cbn.
  - apply keeps_store_ret.
  - destruct (retries <? ConnectivityAsync.max_retries self); [|apply keeps_store_ret].
    apply keeps_store_try_except.
    + apply keeps_store_bind; [exact Hfunc|intros a; apply keeps_store_ret].
    + intros e. destruct (retries + 1 >=? ConnectivityAsync.max_retries self).
      * apply keeps_store_raise.
      * apply keeps_store_bind; [apply keeps_store_logging|intros _].
        apply keeps_store_bind; [apply keeps_store_sleep|intros _]. apply IH.
Qed.

Lemma keeps_store_check_dns getaddrinfo hostname :
  keeps_store (ConnectivityAsync.check_dns_resolution getaddrinfo hostname).
Proof.
  unfold ConnectivityAsync.check_dns_resolution.
  apply keeps_store_try_except.
  - repeat (apply keeps_store_bind; [auto with store|intros ?]). auto with store.
  - intros e. destruct (is_gaierror e); [|auto with store].
    apply keeps_store_bind; auto with store.
Qed.

Lemma keeps_store_check_tls open_connection wait_closed hostname port :
  keeps_store (ConnectivityAsync.check_tls_handshake open_connection wait_closed
                                                     hostname port).
Proof.
  unfold ConnectivityAsync.check_tls_handshake.
  apply keeps_store_try_except.
  - repeat (apply keeps_store_bind; [auto with store|intros ?]). auto with store.
  - intros e. destruct (is_OSError e); [|auto with store].
    apply keeps_store_bind; auto with store.
Qed.

(** X6. The DNS and the TLS checks never write to the shared state, on
    their own or under the retry executor, whether they succeed or fail:
    a DNS or TLS failure leaves no readiness key and no [last_error]. *)
Theorem X6_dns_and_tls_checks_write_nothing :
  forall getaddrinfo open_connection wait_closed (self : ConnectivityAsync.t)
         (hostname : string) (port : Z) (w : world),
    shared_state
      (snd (ConnectivityAsync._retry_operation self
              (ConnectivityAsync.check_dns_resolution getaddrinfo hostname) w))
    = shared_state w
    /\ shared_state
         (snd (ConnectivityAsync._retry_operation self
                 (ConnectivityAsync.check_tls_handshake open_connection wait_closed
                                                        hostname port) w))
       = shared_state w.
Proof.
  intros getaddrinfo open_connection wait_closed self hostname port w.
  unfold ConnectivityAsync._retry_operation. split.
  - apply keeps_store_retry_loop, keeps_store_check_dns.
  - apply keeps_store_retry_loop, keeps_store_check_tls.
Qed.

(** X7. The Redis check ends in one of three ways: it returns True with
    [redis_ready] set to True; it raises an error of the OSError family
    after setting [redis_ready] to False and recording the error in
    [last_error]; or it lets any other exception through without writing
    anything. It never returns False. A connection that times out is of the
    OSError family ([TimeoutError], which [socket.timeout] and
    [asyncio.TimeoutError] name as well): it is recorded and raised again. *)
Theorem X7_redis_check_outcomes :
  forall open_connection wait_closed (self : ConnectivityAsync.t) (w : world),
    let run := ConnectivityAsync.check_redis_connectivity
                 open_connection wait_closed self w in
    ((fst run = Ret true
      /\ shared_state (snd run) = <["redis_ready" := VBool true]> (shared_state w))
     \/ (exists e,
            fst run = Raise e
            /\ shared_state (snd run)
               = if is_OSError e
                 then <["last_error" := VStr ("Redis connectivity error: " ++ exn_msg e)%string]>
                        (<["redis_ready" := VBool false]> (shared_state w))
                 else shared_state w))
    /\ (forall msg,
           open_connection (trace w) (ConnectivityAsync.redis_host self)
                           (ConnectivityAsync.redis_port self) false
           = Raise (Exn TimeoutError msg) ->
           fst run = Raise (Exn TimeoutError msg)
           /\ shared_state (snd run) !! "redis_ready" = Some (VBool false)
           /\ shared_state (snd run) !! "last_error"
              = Some (VStr ("Redis connectivity error: " ++ msg)%string)).
Proof.
  intros open_connection wait_closed self w run. subst run.
  unfold ConnectivityAsync.check_redis_connectivity, try_except, bind, ask.
  cbn [trace]. split.
  - destruct (open_connection (trace w) _ _ false) as [[]|e].
    + match goal with |- context [wait_closed ?h] => destruct (wait_closed h) as [[]|e] end.
      * left. cbn. auto.
      * right. exists e. destruct (is_OSError e) eqn:Hos; cbn; rewrite ?Hos; auto.
    + right. exists e. destruct (is_OSError e) eqn:Hos; cbn; rewrite ?Hos; auto.
  - intros msg ->. cbn. split; [reflexivity|]. split.
    + rewrite lookup_insert_ne by discriminate. apply lookup_insert_eq.
    + apply lookup_insert_eq.
Qed.

(** X7 on a Redis that does not answer in time. *)
Lemma X7_redis_check_witness :
  let run := ConnectivityAsync.check_redis_connectivity
               (fun _ _ _ _ => Raise (Exn TimeoutError "timed out"))
               Scenario.wait_closed_ok Scenario.checker empty_world in
  fst run = Raise (Exn TimeoutError "timed out")
  /\ shared_state (snd run) !! "redis_ready" = Some (VBool false)
  /\ shared_state (snd run) !! "last_error"
     = Some (VStr "Redis connectivity error: timed out").
Proof.
  apply (proj2 (X7_redis_check_outcomes
                  (fun _ _ _ _ => Raise (Exn TimeoutError "timed out"))
                  Scenario.wait_closed_ok Scenario.checker empty_world)
               "timed out").
  reflexivity.
Defined.

(** X8. A check that returns False is not retried: when the search engine
    answers a status other than 200, the retry executor makes that one
    request and hands False back. *)
Theorem X8_a_returned_false_is_not_retried :
  forall session_get (self : ConnectivityAsync.t) endpoint status (w : world),
    0 < ConnectivityAsync.max_retries self ->
    ConnectivityAsync.opensearch_endpoint self = Some endpoint ->
    endpoint <> "" ->
    session_get (trace w) (rstrip "/" endpoint ++ "/_cluster/health")%string = Ret status ->
    status <> 200 ->
    let run := ConnectivityAsync._retry_operation self
                 (ConnectivityAsync.check_opensearch_bulk_test session_get self) w in
    fst run = Ret (Some false)
    /\ trace (snd run)
       = trace w ++ [EvHttpGet (rstrip "/" endpoint ++ "/_cluster/health")%string 5]
    /\ sleeps_in (trace (snd run)) = sleeps_in (trace w).
Proof.
  intros session_get self endpoint status w Hmax Hend Hne Hget Hst run.
  destruct (check_opensearch_status session_get self endpoint w status Hend Hne Hget)
    as (w' & Hrun & _ & _ & Htr).
  apply Z.eqb_neq in Hst. rewrite Hst in Hrun.
  subst run. unfold ConnectivityAsync._retry_operation.
  destruct (Z.to_nat (ConnectivityAsync.max_retries self)) as [|fuel] eqn:Hfuel; [lia|].
  cbn [ConnectivityAsync.retry_loop].
  replace (0 <? ConnectivityAsync.max_retries self) with true
    by (symmetry; apply Z.ltb_lt; lia).
  unfold try_except, bind. rewrite Hrun. cbn [fst snd ret].
  split; [reflexivity|]. split; [exact Htr|].
  rewrite Htr, sleeps_in_app. cbn. now rewrite app_nil_r.
Qed.

(** X8 on a search engine that answers 503. *)
Lemma X8_returned_false_witness :
  let run := ConnectivityAsync._retry_operation Scenario.checker
               (ConnectivityAsync.check_opensearch_bulk_test
                  (fun _ _ => Ret 503) Scenario.checker) empty_world in
  fst run = Ret (Some false)
  /\ trace (snd run) = [EvHttpGet "https://search.example.com/_cluster/health" 5]
  /\ sleeps_in (trace (snd run)) = [].
Proof.
  apply (X8_a_returned_false_is_not_retried
           (fun _ _ => Ret 503) Scenario.checker "https://search.example.com/" 503
           empty_world).
  - reflexivity.
  - reflexivity.
  - discriminate.
  - reflexivity.
  - discriminate.
Defined.

(** ** A connectivity cycle as a whole *)

(** [gather] answers one result per task, each either the exception the
    task raised or the value it returned. *)
Lemma gather_results tasks :
  forall w,
    exists rs w',
      ConnectivityAsync.gather tasks w = (Ret rs, w')
      /\ Forall2
           (fun task r =>
              (exists e, r = ConnectivityAsync.RException e)
              \/ (exists o w0 w1,
                     task w0 = (Ret o, w1)
                     /\ r = ConnectivityAsync.RValue (ConnectivityAsync.as_value o)))
           tasks rs.
Proof.
  induction tasks as [|task tasks IH]; intros w.
  - exists [], w. split; [reflexivity|constructor].
  - cbn [ConnectivityAsync.gather]. unfold bind at 1, try_except, bind at 1.
    destruct (task w) as [[o|e] w1] eqn:Htask; cbn [ret].
    + destruct (IH w1) as (rs & w' & Hrun & Hall).
      unfold bind at 1. rewrite Hrun. cbn.
      eexists _, _. split; [reflexivity|].
      constructor; [|exact Hall]. right. eauto.
    + destruct (IH w1) as (rs & w' & Hrun & Hall).
      unfold bind at 1. rewrite Hrun. cbn.
      eexists _, _. split; [reflexivity|].
      constructor; [|exact Hall]. left. eauto.
Qed.

Section Cycle.
Import ConnectivityAsync.
Variable getaddrinfo : list event -> string -> outcome unit.
Variable open_connection : list event -> string -> Z -> bool -> outcome unit.
Variable wait_closed : list event -> outcome unit.
Variable session_get : list event -> string -> outcome Z.
Variable self : t.

Local Abbreviation cycle :=
  (connectivity_cycle getaddrinfo open_connection wait_closed session_get self).
Local Abbreviation the_tasks :=
  (tasks getaddrinfo open_connection wait_closed session_get self).

(** A cycle gathers, publishes the verdict, and sleeps; it does not raise. *)
Lemma cycle_run w :
  exists rs w1 w',
    gather the_tasks w = (Ret rs, w1)
    /\ cycle w = (Ret tt, w')
    /\ shared_state w' = <["pipeline_ok" := VBool (pipeline_ok_of rs)]> (shared_state w1)
    /\ trace w' = trace w1 ++ [EvSleep (interval self)].
Proof.
  destruct (gather_results the_tasks w) as (rs & w1 & Hg & _).
  exists rs, w1.
  unfold connectivity_cycle. unfold bind at 1, try_except, bind at 1.
  rewrite Hg. unfold bind at 1, setitem at 1. cbn [fst snd].
  destruct (pipeline_ok_of rs); cbn [negb];
    unfold logging at 1; cbn [fst snd];
    unfold bind at 1;
    destruct (connectivity_check_interval self);
    unfold ret, logging, sleep, emit; cbn;
    eexists; repeat split; reflexivity.
Qed.

(** What the retry executor returns is what the operation returned. *)
Lemma retry_returns_what_func_returned {A} (func : M A) fuel :
  forall retries w o w',
    retries < max_retries self ->
    (Z.to_nat (max_retries self - retries) <= fuel)%nat ->
    retry_loop self fuel func retries w = (Ret o, w') ->
    exists a w0 w1, o = Some a /\ func w0 = (Ret a, w1).
Proof.
  induction fuel as [|fuel IH]; intros retries w o w' Hlt Hfuel Hrun; [lia|].
  cbn [retry_loop] in Hrun.
  replace (retries <? max_retries self) with true in Hrun
    by (symmetry; apply Z.ltb_lt; lia).
  unfold try_except, bind at 1 in Hrun.
  destruct (func w) as [[a|e] w1] eqn:Hfunc.
  - cbn in Hrun. injection Hrun as <- <-. eauto.
  - destruct (retries + 1 >=? max_retries self) eqn:Hge; [discriminate|].
    rewrite Z.geb_leb in Hge. apply Z.leb_gt in Hge.
    unfold bind at 1, logging at 1 in Hrun. cbn [fst snd] in Hrun.
    unfold bind at 1, sleep, emit at 1 in Hrun.
    eapply IH; [| |exact Hrun]; lia.
Qed.

Lemma check_dns_returns_true hostname w a w' :
  check_dns_resolution getaddrinfo hostname w = (Ret a, w') -> a = true.
Proof.
  unfold check_dns_resolution, try_except, bind, ask.
  destruct (getaddrinfo (trace w) hostname) as [[]|e]; cbn.
  - now intros [= <- _].
  - destruct (is_gaierror e); cbn; discriminate.
Qed.

Lemma check_tls_returns_true hostname port w a w' :
  check_tls_handshake open_connection wait_closed hostname port w = (Ret a, w') ->
  a = true.
Proof.
  unfold check_tls_handshake, try_except, bind, ask. cbn [trace].
  destruct (open_connection (trace w) hostname port true) as [[]|e].
  - match goal with |- context [wait_closed ?h] => destruct (wait_closed h) as [[]|e] end;
      cbn.
    + now intros [= <- _].
    + destruct (is_OSError e); cbn; discriminate.
  - cbn. destruct (is_OSError e); cbn; discriminate.
Qed.

Lemma check_redis_returns_true w a w' :
  check_redis_connectivity open_connection wait_closed self w = (Ret a, w') ->
  a = true.
Proof.
  unfold check_redis_connectivity, try_except, bind, ask. cbn [trace].
  destruct (open_connection (trace w) _ _ false) as [[]|e].
  - match goal with |- context [wait_closed ?h] => destruct (wait_closed h) as [[]|e] end;
      cbn.
    + now intros [= <- _].
    + destruct (is_OSError e); cbn; discriminate.
  - cbn. destruct (is_OSError e); cbn; discriminate.
Qed.

Lemma check_opensearch_returns_false w w' :
  falsy_str (opensearch_hostname self) = false ->
  check_opensearch_bulk_test session_get self w = (Ret false, w') ->
  exists h url status, session_get h url = Ret status /\ status <> 200.
Proof.
  unfold opensearch_hostname, check_opensearch_bulk_test.
  destruct (opensearch_endpoint self) as [endpoint|]; [|discriminate].
  destruct (String.eqb endpoint ""); [discriminate|].
  intros _. unfold try_except, bind at 1, ask. cbn [trace].
  match goal with |- context [session_get ?h ?url] =>
    destruct (session_get h url) as [status|e] eqn:Hget end.
  - destruct (status =? 200) eqn:Hst; cbn; [discriminate|].
    intros _. apply Z.eqb_neq in Hst. eauto.
  - destruct (is_aiohttp_ClientError e); cbn; discriminate.
Qed.
End Cycle.

Lemma pipeline_ok_when_nothing_returned_false rs :
  Forall (fun r => ConnectivityAsync.is_Exception r = true
                   \/ ConnectivityAsync.is_True r = true) rs ->
  ConnectivityAsync.pipeline_ok_of rs = true.
Proof.
  unfold ConnectivityAsync.pipeline_ok_of.
  induction 1 as [|r rs [Hr|Hr] _ IH]; [reflexivity| |].
  - cbn. now rewrite Hr.
  - cbn. destruct (ConnectivityAsync.is_Exception r); cbn; [exact IH|].
    now rewrite Hr.
Qed.

Lemma results_of_tasks_returning_true (tasks : list (M (option bool))) rs :
  Forall (fun task : M (option bool) =>
            forall w0 o w2, task w0 = (Ret o, w2) -> o = Some true) tasks ->
  Forall2
    (fun task r =>
       (exists e, r = ConnectivityAsync.RException e)
       \/ (exists o w0 w1,
              task w0 = (Ret o, w1)
              /\ r = ConnectivityAsync.RValue (ConnectivityAsync.as_value o)))
    tasks rs ->
  Forall (fun r => ConnectivityAsync.is_Exception r = true
                   \/ ConnectivityAsync.is_True r = true) rs.
Proof.
  intros Htasks Hall. induction Hall as [|task r tasks rs Hr _ IH]; [constructor|].
  inversion Htasks as [|? ? Htask Hrest]; subst.
  constructor; [|exact (IH Hrest)].
  destruct Hr as [[e ->]|(o & w0 & w2 & Hrun' & ->)]; [now left|right].
  now rewrite (Htask _ _ _ Hrun').
Qed.

(** X9. A connectivity cycle always runs to its end: whatever the checks
    do, [gather] answers one result per task, the cycle publishes a boolean
    [pipeline_ok], sleeps for the configured interval and returns; so the
    loop of [run_connectivity_checks] goes through any number of cycles
    without an exception. *)
Theorem X9_connectivity_cycle_always_completes :
  forall getaddrinfo open_connection wait_closed session_get
         (self : ConnectivityAsync.t) (cycles : nat) (w : world),
    (exists rs w1,
        ConnectivityAsync.gather
          (ConnectivityAsync.tasks getaddrinfo open_connection wait_closed
                                   session_get self) w = (Ret rs, w1)
        /\ length rs
           = length (ConnectivityAsync.tasks getaddrinfo open_connection wait_closed
                                             session_get self))
    /\ (exists w' b,
           ConnectivityAsync.connectivity_cycle getaddrinfo open_connection wait_closed
                                                session_get self w = (Ret tt, w')
           /\ shared_state w' !! "pipeline_ok" = Some (VBool b)
           /\ last (trace w') = Some (EvSleep (ConnectivityAsync.interval self)))
    /\ fst (ConnectivityAsync.run_connectivity_checks
              getaddrinfo open_connection wait_closed session_get self cycles w)
       = Ret tt.
Proof.
  intros getaddrinfo open_connection wait_closed session_get self cycles w.
  split; [|split].
  - destruct (gather_results
                (ConnectivityAsync.tasks getaddrinfo open_connection wait_closed
                                         session_get self) w) as (rs & w1 & Hg & Hall).
    exists rs, w1. split; [exact Hg|]. symmetry. exact (Forall2_length _ _ _ Hall).
  - destruct (cycle_run getaddrinfo open_connection wait_closed session_get self w)
      as (rs & w1 & w' & _ & Hrun & Hst & Htr).
    exists w', (ConnectivityAsync.pipeline_ok_of rs).
    split; [exact Hrun|]. split.
    + rewrite Hst. apply lookup_insert_eq.
    + rewrite Htr. apply last_snoc.
  - unfold ConnectivityAsync.run_connectivity_checks. unfold bind at 1, logging at 1.
    cbn [fst snd].
    match goal with |- context [ConnectivityAsync.run_cycles _ _ _ _ _ _ ?w0] =>
      generalize w0 end.
    induction cycles as [|n IH]; intros w0; [reflexivity|].
    cbn [ConnectivityAsync.run_cycles]. unfold bind at 1.
    destruct (cycle_run getaddrinfo open_connection wait_closed session_get self w0)
      as (rs & w1 & w' & _ & Hrun & _).
    rewrite Hrun. apply IH.
Qed.

(** X10. With at least one attempt allowed, only the answer of the search
    engine can make the verdict False: if the health call never gets a
    status other than 200 (it gets 200, or it fails), the cycle publishes
    [pipeline_ok = True], whatever DNS, TLS and Redis do. *)
Theorem X10_only_a_non_200_status_makes_the_verdict_false :
  forall getaddrinfo open_connection wait_closed session_get
         (self : ConnectivityAsync.t) (w : world),
    0 < ConnectivityAsync.max_retries self ->
    (forall h url status, session_get h url = Ret status -> status = 200) ->
    shared_state
      (snd (ConnectivityAsync.connectivity_cycle getaddrinfo open_connection wait_closed
                                                 session_get self w))
      !! "pipeline_ok" = Some (VBool true).
Proof.
  intros getaddrinfo open_connection wait_closed session_get self w Hmax H200.
  destruct (cycle_run getaddrinfo open_connection wait_closed session_get self w)
    as (rs & w1 & w' & Hg & Hrun & Hst & _).
  rewrite Hrun. cbn [snd]. rewrite Hst, lookup_insert_eq. do 2 f_equal.
  apply pipeline_ok_when_nothing_returned_false.
  destruct (gather_results
              (ConnectivityAsync.tasks getaddrinfo open_connection wait_closed
                                       session_get self) w) as (rs' & w1' & Hg' & Hall).
  rewrite Hg in Hg'. injection Hg' as <- <-.
  assert (Htasks :
            Forall (fun task : M (option bool) =>
                      forall w0 o w2, task w0 = (Ret o, w2) -> o = Some true)
                   (ConnectivityAsync.tasks getaddrinfo open_connection wait_closed
                                            session_get self)).
  { assert (Hretry :
              forall func : M bool,
                (forall w0 a w2, func w0 = (Ret a, w2) -> a = true) ->
                forall w0 o w2,
                  ConnectivityAsync._retry_operation self func w0 = (Ret o, w2) ->
                  o = Some true).
    { intros func Hfunc w0 o w2 Hret.
      destruct (retry_returns_what_func_returned
                  self func (Z.to_nat (ConnectivityAsync.max_retries self)) 0 w0 o w2)
        as (a & w3 & w4 & -> & Ha); [lia|lia|exact Hret|].
      now rewrite (Hfunc _ _ _ Ha). }
    unfold ConnectivityAsync.tasks.
    destruct (ConnectivityAsync.falsy_str (ConnectivityAsync.opensearch_hostname self))
      eqn:Hhost; cbn [app]; repeat constructor; apply Hretry.
    - apply check_redis_returns_true.
    - apply check_dns_returns_true.
    - apply check_tls_returns_true.
    - intros w0 [|] w2 Hcheck; [reflexivity|].
      destruct (check_opensearch_returns_false session_get self w0 w2 Hhost Hcheck)
        as (h & url & status & Hget & Hne).
      exfalso. apply Hne. exact (H200 h url status Hget).
    - apply check_redis_returns_true. }
  exact (results_of_tasks_returning_true _ _ Htasks Hall).
Qed.

(** X10 on the host of C1: DNS, Redis and the search engine answer, TLS is
    refused, and the verdict is True. *)
Lemma X10_only_a_non_200_witness :
  shared_state
    (snd (ConnectivityAsync.connectivity_cycle
            Scenario.getaddrinfo_ok Scenario.open_connection_tls_down
            Scenario.wait_closed_ok Scenario.session_get_200 Scenario.checker
            empty_world))
    !! "pipeline_ok" = Some (VBool true).
Proof.
  apply (X10_only_a_non_200_status_makes_the_verdict_false
           Scenario.getaddrinfo_ok Scenario.open_connection_tls_down
           Scenario.wait_closed_ok Scenario.session_get_200 Scenario.checker
           empty_world).
  - reflexivity.
  - intros h url status [= <-]. reflexivity.
Defined.

(** ** The exporter's gauges *)

Section Gauges.
Import MetricsServer.
Variable float_of_string : string -> option Q.

Local Abbreviation reading w key dflt :=
  (to_float float_of_string (default dflt (shared_state w !! key))).

Local Abbreviation mirrored w q1 q2 q3 q4 g :=
  (<["ids2_throttling_level" := q4]>
     (<["ids2_pipeline_ok" := readiness_reading w "pipeline_ok"]>
        (<["ids2_redis_ready" := readiness_reading w "redis_ready"]>
           (<["ids2_aws_ready" := readiness_reading w "aws_ready"]>
              (<["ids2_vector_health" := readiness_reading w "vector_healthy"]>
                 (<["ids2_redis_queue_depth" := q3]>
                    (<["ids2_ram_usage_percent" := q2]>
                       (<["ids2_cpu_usage_percent" := q1]> g)))))))).

(** An update completes exactly when the four numeric values convert. *)
Lemma update_metrics_completes w w' :
  _update_metrics float_of_string w = (Ret tt, w') <->
  exists q1 q2 q3 q4,
    reading w "cpu_usage" (VFloat 0) = Ret q1
    /\ reading w "ram_usage" (VFloat 0) = Ret q2
    /\ reading w "redis_queue_depth" (VInt 0) = Ret q3
    /\ reading w "throttling_level" (VInt 0) = Ret q4
    /\ w' = World (shared_state w) (log w) (trace w)
                  (mirrored w q1 q2 q3 q4 (gauges w)) (throttling_level w).
Proof.
  unfold _update_metrics, bind, getitem, Gauge_set, flag, readiness_reading.
  cbn [to_float].
  destruct (reading w "cpu_usage" (VFloat 0)) as [q1|e1]; cbn;
    [|split; [discriminate|intros (? & ? & ? & ? & [=] & _)]].
  destruct (reading w "ram_usage" (VFloat 0)) as [q2|e2]; cbn;
    [|split; [discriminate|intros (? & ? & ? & ? & _ & [=] & _)]].
  destruct (reading w "redis_queue_depth" (VInt 0)) as [q3|e3]; cbn;
    [|split; [discriminate|intros (? & ? & ? & ? & _ & _ & [=] & _)]].
  repeat (rewrite of_int_flag; cbn).
  destruct (reading w "throttling_level" (VInt 0)) as [q4|e4]; cbn;
    [|split; [discriminate|intros (? & ? & ? & ? & _ & _ & _ & [=] & _)]].
  split.
  - intros [= <-]. exists q1, q2, q3, q4. repeat split; reflexivity.
  - intros (? & ? & ? & ? & [= <-] & [= <-] & [= <-] & [= <-] & ->). reflexivity.
Qed.

Lemma mirrored_twice w q1 q2 q3 q4 (g : gmap string Q) :
  mirrored w q1 q2 q3 q4 (mirrored w q1 q2 q3 q4 g) = mirrored w q1 q2 q3 q4 g.
Proof.
  apply map_eq. intros i. rewrite !lookup_insert.
  repeat case_decide; reflexivity.
Qed.

(** What an update answers depends on the store alone. *)
Lemma update_metrics_outcome w1 w2 :
  shared_state w1 = shared_state w2 ->
  fst (_update_metrics float_of_string w1) = fst (_update_metrics float_of_string w2).
Proof.
  destruct w1 as [s1 l1 t1 g1 v1], w2 as [s2 l2 t2 g2 v2]. cbn. intros ->.
  unfold _update_metrics, bind, getitem, Gauge_set, flag. cbn.
  repeat first
    [ rewrite of_int_flag; cbn
    | match goal with
      | |- context [to_float float_of_string ?v] =>
          destruct (to_float float_of_string v); cbn; [|reflexivity]
      end ].
  reflexivity.
Qed.
End Gauges.

(** X11. Exporting is idempotent: an update that completed, run again on the
    world it left, completes again and changes nothing, the gauges
    included. *)
Theorem X11_metrics_update_is_idempotent :
  forall float_of_string (w w' : world),
    MetricsServer._update_metrics float_of_string w = (Ret tt, w') ->
    MetricsServer._update_metrics float_of_string w' = (Ret tt, w').
Proof.
  intros float_of_string w w' Hrun.
  apply update_metrics_completes in Hrun
    as (q1 & q2 & q3 & q4 & H1 & H2 & H3 & H4 & ->).
  apply update_metrics_completes.
  exists q1, q2, q3, q4. cbn [shared_state log trace gauges throttling_level].
  repeat (split; [assumption|]).
  f_equal. symmetry. apply (mirrored_twice w).
Qed.

(** X11 on a store that holds nothing yet. *)
Lemma X11_metrics_update_witness :
  let w' := snd (MetricsServer._update_metrics (fun _ => None) empty_world) in
  MetricsServer._update_metrics (fun _ => None) w' = (Ret tt, w').
Proof.
  intros w'.
  apply (X11_metrics_update_is_idempotent (fun _ => None) empty_world w').
  vm_compute. reflexivity.
Defined.

(** X12. An update of the metrics completes exactly when the values under
    the four numeric keys (or their defaults when absent) are accepted by
    [float()]; it then leaves each numeric gauge at the float that
    [float()] answered: for a stored int this is the nearest float, the int
    itself up to [2 ** 53] only ([2 ** 53 + 1] is exported as [2 ** 53]).
    When a value is rejected (a text that is not a number, or an int beyond
    the range of floats such as [10 ** 400], an OverflowError) the update
    raises, and so does [run]: nothing in the exporter catches it. *)
Theorem X12_numeric_gauges_need_convertible_values :
  forall float_of_string start_http_server port (cycles : nat) (w : world),
    let convertible :=
      forall key dflt gauge,
        In (key, dflt, gauge) numeric_gauges ->
        exists q,
          MetricsServer.to_float float_of_string (default dflt (shared_state w !! key))
          = Ret q in
    (fst (MetricsServer._update_metrics float_of_string w) = Ret tt <-> convertible)
    /\ (forall w',
           MetricsServer._update_metrics float_of_string w = (Ret tt, w') ->
           forall key dflt gauge,
             In (key, dflt, gauge) numeric_gauges ->
             exists q,
               MetricsServer.to_float float_of_string
                                      (default dflt (shared_state w !! key)) = Ret q
               /\ gauges w' !! gauge = Some q
               /\ forall n,
                   default dflt (shared_state w !! key) = VInt n ->
                   (q == Float.round53 (inject_Z n))%Q
                   /\ (Qabs q < Float.pow2 1024)%Q
                   /\ (Z.abs n <= 2 ^ 53 -> q = inject_Z n))
    /\ (forall e,
           fst (MetricsServer._update_metrics float_of_string w) = Raise e ->
           start_http_server (trace w) port = Ret tt ->
           fst (MetricsServer.run float_of_string start_http_server port (S cycles) w)
           = Raise e)
    /\ (let stored n := World {[ "redis_queue_depth" := VInt n ]} [] [] ∅ 0 in
        gauges (snd (MetricsServer._update_metrics float_of_string (stored (2 ^ 53 + 1))))
          !! "ids2_redis_queue_depth" = Some (inject_Z (2 ^ 53))
        /\ fst (MetricsServer._update_metrics float_of_string (stored (10 ^ 400)))
           = Raise (Exn OverflowError "int too large to convert to float")).
Proof.
  intros float_of_string start_http_server port cycles w convertible.
  assert (Hgauges :
            forall w',
              MetricsServer._update_metrics float_of_string w = (Ret tt, w') ->
              forall key dflt gauge,
                In (key, dflt, gauge) numeric_gauges ->
                exists q,
                  MetricsServer.to_float float_of_string
                                         (default dflt (shared_state w !! key)) = Ret q
                  /\ gauges w' !! gauge = Some q).
  { intros w' Hrun key dflt gauge Hin.
    apply update_metrics_completes in Hrun
      as (q1 & q2 & q3 & q4 & H1 & H2 & H3 & H4 & ->).
    cbn in Hin.
    destruct Hin as [[= <- <- <-]|[[= <- <- <-]|[[= <- <- <-]|[[= <- <- <-]|[]]]]];
      eexists; (split; [eassumption|]); cbn [gauges];
      repeat (rewrite lookup_insert_ne by discriminate); apply lookup_insert_eq. }
  split; [|split; [|split]].
  - split.
    + intros Hret key dflt gauge Hin.
      destruct (MetricsServer._update_metrics float_of_string w) as [r w'] eqn:Hrun.
      cbn in Hret. subst r.
      destruct (Hgauges w' eq_refl key dflt gauge Hin) as (q & Hq & _). eauto.
    + intros Hconv.
      destruct (Hconv "cpu_usage" (VFloat 0) "ids2_cpu_usage_percent") as [q1 H1];
        [cbn; auto|].
      destruct (Hconv "ram_usage" (VFloat 0) "ids2_ram_usage_percent") as [q2 H2];
        [cbn; auto|].
      destruct (Hconv "redis_queue_depth" (VInt 0) "ids2_redis_queue_depth") as [q3 H3];
        [cbn; auto|].
      destruct (Hconv "throttling_level" (VInt 0) "ids2_throttling_level") as [q4 H4];
        [cbn; auto 6|].
      erewrite (proj2 (update_metrics_completes float_of_string w _)); [reflexivity|].
      exists q1, q2, q3, q4. repeat (split; [assumption|]). reflexivity.
  - intros w' Hrun key dflt gauge Hin.
    destruct (Hgauges w' Hrun key dflt gauge Hin) as (q & Hq & Hg).
    exists q. split; [exact Hq|]. split; [exact Hg|].
    intros n Hn. rewrite Hn in Hq. cbn [MetricsServer.to_float] in Hq.
    pose proof (of_int_rounds n) as Hround. rewrite Hq in Hround.
    destruct Hround as [Hr Hb]. split; [exact Hr|]. split; [exact Hb|].
    intros Hsmall. unfold Float.of_int in Hq.
    apply Z.leb_le in Hsmall. rewrite Hsmall in Hq. now injection Hq.
  - intros e Hraise Hstart.
    unfold MetricsServer.run. unfold bind at 1, logging at 1. cbn [fst snd].
    unfold bind at 1, ask at 1. cbn [trace]. rewrite Hstart.
    cbn [MetricsServer.run_loop]. unfold bind at 1.
    match goal with |- context [MetricsServer._update_metrics _ ?w0] =>
      pose proof (update_metrics_outcome float_of_string w0 w eq_refl) as Hsame;
      destruct (MetricsServer._update_metrics float_of_string w0) as [r w1]
    end.
    rewrite Hraise in Hsame. cbn [fst] in Hsame. subst r. reflexivity.
  - split; vm_compute; reflexivity.
Qed.

(** X12 on a store whose [cpu_usage] was overwritten with a text, and on
    one whose queue depth is too large for a float. *)
Lemma X12_numeric_gauges_witness :
  let w := World {[ "cpu_usage" := VStr "n/a" ]} [] [] ∅ 0 in
  let w' := World {[ "redis_queue_depth" := VInt (10 ^ 400) ]} [] [] ∅ 0 in
  fst (MetricsServer.run (fun _ => None) (fun _ _ => Ret tt) 9100 3 w)
  = Raise (Exn ValueError "could not convert string to float")
  /\ fst (MetricsServer.run (fun _ => None) (fun _ _ => Ret tt) 9100 3 w')
     = Raise (Exn OverflowError "int too large to convert to float").
Proof.
  intros w w'. split.
  - apply (proj1 (proj2 (proj2 (X12_numeric_gauges_need_convertible_values
                                   (fun _ => None) (fun _ _ => Ret tt) 9100 2 w)))).
    + vm_compute. reflexivity.
    + reflexivity.
  - apply (proj1 (proj2 (proj2 (X12_numeric_gauges_need_convertible_values
                                   (fun _ => None) (fun _ _ => Ret tt) 9100 2 w')))).
    + vm_compute. reflexivity.
    + reflexivity.
Defined.

(** ** The container stack and the log shipper *)

(** X13. When the docker daemon does not answer, the stack health check
    returns False after the ping alone: no container is looked up, the
    error goes to [last_error], and [docker_healthy] is not written. The
    log shipper check that follows therefore still answers from the value
    [docker_healthy] had before. *)
Theorem X13_unreachable_daemon_leaves_docker_healthy_as_it_was :
  forall ping containers_get (services : list string) (w : world) (e : exn),
    ping (trace w) = Raise e ->
    let run := DockerManager.check_stack_health_of ping containers_get services w in
    fst run = Ret false
    /\ trace (snd run) = trace w ++ [EvDockerPing]
    /\ shared_state (snd run)
       = <["last_error" := VStr ("Docker daemon not accessible: " ++ exn_msg e)%string]>
           (shared_state w)
    /\ shared_state (snd run) !! "docker_healthy" = shared_state w !! "docker_healthy"
    /\ fst (VectorManager.check_vector_health (snd run))
       = Ret (truthy (default (VBool false) (shared_state w !! "docker_healthy"))).
Proof.
  intros ping containers_get services w e Hping run.
  assert (Hrun : run
                 = (Ret false,
                    World (<["last_error" :=
                               VStr ("Docker daemon not accessible: " ++ exn_msg e)%string]>
                             (shared_state w))
                          (log w ++ [(ERROR, "Le démon Docker n'est pas accessible"%string)])
                          (trace w ++ [EvDockerPing]) (gauges w) (throttling_level w))).
  { subst run. unfold DockerManager.check_stack_health_of.
    unfold bind at 1, DockerManager._check_docker_daemon, try_except, bind at 1, ask.
    rewrite Hping. reflexivity. }
  rewrite Hrun. cbn [fst snd shared_state trace].
  assert (Hkey : <["last_error" := VStr ("Docker daemon not accessible: " ++ exn_msg e)%string]>
                   (shared_state w) !! "docker_healthy"
                 = shared_state w !! "docker_healthy")
    by (apply lookup_insert_ne; discriminate).
  repeat (split; [reflexivity|]). split; [exact Hkey|].
  match goal with |- context [VectorManager.check_vector_health ?w1] =>
    destruct (check_vector_health_run w1) as (w2 & Hvec & _) end.
  rewrite Hvec. cbn [fst shared_state]. now rewrite Hkey.
Qed.

(** X13 when the stack was healthy at the last check and the daemon has
    gone: the shipper is still reported healthy. *)
Lemma X13_unreachable_daemon_witness :
  let w := World {[ "docker_healthy" := VBool true ]} [] [] ∅ 0 in
  let run := DockerManager.check_stack_health
               (fun _ => Raise (Exn OSError "connection refused"))
               Scenario.containers_redis_exited w in
  fst run = Ret false
  /\ shared_state (snd run) !! "docker_healthy" = Some (VBool true)
  /\ fst (VectorManager.check_vector_health (snd run)) = Ret true.
Proof.
  intros w run.
  destruct (X13_unreachable_daemon_leaves_docker_healthy_as_it_was
              (fun _ => Raise (Exn OSError "connection refused"))
              Scenario.containers_redis_exited DockerManager.required_services w
              (Exn OSError "connection refused") eq_refl)
    as (Hret & _ & _ & Hkey & Hvec).
  split; [exact Hret|]. split; [exact Hkey|exact Hvec].
Defined.

(** X14. With the daemon answering, the log shipper check that follows a
    stack health check returns what the stack check returned, and
    [vector_healthy] mirrors [docker_healthy]. *)
Theorem X14_vector_health_follows_stack_health :
  forall ping containers_get (services : list string) (w : world),
    ping (trace w) = Ret tt ->
    exists b w1 w2,
      DockerManager.check_stack_health_of ping containers_get services w = (Ret b, w1)
      /\ VectorManager.check_vector_health w1 = (Ret b, w2)
      /\ shared_state w2 !! "docker_healthy" = Some (VBool b)
      /\ shared_state w2 !! "vector_healthy" = Some (VBool b).
Proof.
  intros ping containers_get services w Hping.
  pose proof (check_docker_daemon_ok ping w Hping) as Hdaemon.
  match type of Hdaemon with _ = (_, ?w0') => set (w0 := w0') in * end.
  destruct (services_loop_returns containers_get services w0) as (b & w1' & Hloop).
  destruct (check_stack_health_of_loop ping containers_get services w w0 b w1' Hdaemon Hloop)
    as (w1 & Hrun & Hpub & _).
  destruct (check_vector_health_run w1) as (w2 & Hvec & Hv & _).
  rewrite Hpub in Hvec, Hv. cbn [default truthy] in Hvec, Hv.
  exists b, w1, w2. split; [exact Hrun|]. split; [exact Hvec|]. split; [|exact Hv].
  revert Hvec. unfold VectorManager.check_vector_health, bind, getitem.
  rewrite Hpub. cbn [default truthy].
  destruct b; cbn; intros [= <-]; cbn;
    repeat (rewrite lookup_insert_ne by discriminate); exact Hpub.
Qed.

(** X14 on the four required services, redis having exited. *)
Lemma X14_vector_health_witness :
  exists b w1 w2,
    DockerManager.check_stack_health Scenario.ping_ok Scenario.containers_redis_exited
                                     empty_world = (Ret b, w1)
    /\ VectorManager.check_vector_health w1 = (Ret b, w2)
    /\ shared_state w2 !! "docker_healthy" = Some (VBool b)
    /\ shared_state w2 !! "vector_healthy" = Some (VBool b).
Proof.
  apply (X14_vector_health_follows_stack_health
           Scenario.ping_ok Scenario.containers_redis_exited
           DockerManager.required_services empty_world).
  reflexivity.
Defined.

(** ** Docker compose commands *)

Lemma commands_app h1 h2 :
  Host.commands (h1 ++ h2) = Host.commands h1 ++ Host.commands h2.
Proof. unfold Host.commands. apply omap_app. Qed.

Section ComposeRuns.
Import DockerManager.
Variable ping : list event -> outcome unit.
Variable os_path_exists : list Host.request -> string -> bool.
Variable subprocess_run : list Host.request -> string -> Host.completed.

Local Abbreviation compose :=
  (_run_docker_compose_command os_path_exists subprocess_run).

(** One compose command: the file is looked for, then the command runs;
    nothing is raised. *)
Lemma compose_run command detach s :
  let h1 := Host.requests s ++ [Host.OsPathExists docker_compose_path] in
  let cmd := compose_command command detach in
  exists b s',
    compose command detach s = (Ret b, s')
    /\ trace (Host.py s') = trace (Host.py s)
    /\ if os_path_exists (Host.requests s) docker_compose_path
       then Host.requests s' = h1 ++ [Host.SubprocessRun cmd]
            /\ (b = true <-> exists out err, subprocess_run h1 cmd = Host.Completed out err)
            /\ (b = true -> shared_state (Host.py s') = shared_state (Host.py s))
       else b = false
            /\ Host.requests s' = h1
            /\ shared_state (Host.py s')
               = <["last_error" :=
                     VStr "docker-compose.yml not found: docker/docker-compose.yml"]>
                   (shared_state (Host.py s)).
Proof.
  intros h1 cmd. unfold _run_docker_compose_command.
  unfold Host.bind at 1, Host.ask at 1. cbn [Host.requests Host.py].
  destruct (os_path_exists (Host.requests s) docker_compose_path).
  - cbn [negb]. fold (compose_command command detach). fold cmd. fold h1.
    unfold Host.bind at 1, Host.lift at 1, logging at 1. cbn [Host.requests Host.py fst snd].
    unfold Host.bind at 1, Host.ask at 1. cbn [Host.requests Host.py].
    destruct (subprocess_run h1 cmd) as [out err| err | | e] eqn:Hsub.
    + unfold Host.bind, Host.lift, Host.ret, bind, logging. cbn.
      destruct (String.eqb err ""); cbn; eexists _, _;
        (split; [reflexivity|]); cbn; (split; [reflexivity|]);
        (split; [reflexivity|]); (split; [|reflexivity]);
        (split; [eauto|reflexivity]).
    + eexists _, _. split; [reflexivity|]. cbn. split; [reflexivity|].
      split; [reflexivity|]. split; [|discriminate].
      split; [discriminate|intros (? & ? & [=])].
    + eexists _, _. split; [reflexivity|]. cbn. split; [reflexivity|].
      split; [reflexivity|]. split; [|discriminate].
      split; [discriminate|intros (? & ? & [=])].
    + eexists _, _. split; [reflexivity|]. cbn. split; [reflexivity|].
      split; [reflexivity|]. split; [|discriminate].
      split; [discriminate|intros (? & ? & [=])].
  - eexists _, _. split; [reflexivity|]. cbn. repeat split; reflexivity.
Qed.
End ComposeRuns.

Lemma check_docker_daemon_returns ping w :
  exists b w',
    DockerManager._check_docker_daemon ping w = (Ret b, w')
    /\ (b = true <-> ping (trace w) = Ret tt).
Proof.
  unfold DockerManager._check_docker_daemon, try_except, bind, ask.
  destruct (ping (trace w)) as [[]|e]; cbn; eexists _, _;
    (split; [reflexivity|]); split; try reflexivity; discriminate.
Qed.

Lemma compose_commands os_path_exists subprocess_run command detach s :
  exists b s',
    DockerManager._run_docker_compose_command os_path_exists subprocess_run
                                              command detach s = (Ret b, s')
    /\ (Host.commands (Host.requests s')
        = Host.commands (Host.requests s) ++ [compose_command command detach]
        \/ (b = false
            /\ Host.commands (Host.requests s') = Host.commands (Host.requests s))).
Proof.
  destruct (compose_run os_path_exists subprocess_run command detach s)
    as (b & s' & Hrun & _ & Hcase).
  exists b, s'. split; [exact Hrun|].
  destruct (os_path_exists (Host.requests s) DockerManager.docker_compose_path).
  - left. destruct Hcase as (-> & _). rewrite !commands_app. cbn.
    now rewrite app_nil_r.
  - right. destruct Hcase as (-> & -> & _). rewrite commands_app. cbn.
    now rewrite app_nil_r.
Qed.

(** X15. Preparing the stack never raises, and it runs its commands in
    order and stops at the first failure: the commands it has run are
    none, the build alone, or the build followed by [up -d]; it returns
    True only after both. *)
Theorem X15_prepare_runs_build_then_up_and_never_raises :
  forall ping os_path_exists subprocess_run (s : Host.state),
    let run := DockerManager.prepare_docker_stack ping os_path_exists subprocess_run s in
    let build := "docker compose -f docker/docker-compose.yml build" in
    let up := "docker compose -f docker/docker-compose.yml up -d" in
    exists b cmds,
      fst run = Ret b
      /\ Host.commands (Host.requests (snd run))
         = Host.commands (Host.requests s) ++ cmds
      /\ (cmds = [] \/ cmds = [build] \/ cmds = [build; up])
      /\ (b = true -> cmds = [build; up]).
Proof.
  intros ping os_path_exists subprocess_run s run build up.
  assert (H : exists b s' cmds,
             run = (Ret b, s')
             /\ Host.commands (Host.requests s')
                = Host.commands (Host.requests s) ++ cmds
             /\ (cmds = [] \/ cmds = [build] \/ cmds = [build; up])
             /\ (b = true -> cmds = [build; up])).
  { subst run. unfold DockerManager.prepare_docker_stack.
    unfold Host.bind at 1, Host.lift at 1.
    destruct (check_docker_daemon_returns ping (Host.py s)) as ([|] & w1 & Hping & _);
      rewrite Hping; cbn [negb Host.requests].
    2: { exists false, (Host.State w1 (Host.requests s)), [].
         cbn. rewrite app_nil_r.
         split; [reflexivity|]. split; [reflexivity|].
         split; [left; reflexivity|discriminate]. }
    unfold Host.bind at 1, Host.lift at 1, logging at 1.
    cbn [Host.py Host.requests fst snd]. unfold Host.bind at 1.
    match goal with
    | |- context [DockerManager._run_docker_compose_command _ _ "build" false ?s1] =>
        destruct (compose_commands os_path_exists subprocess_run "build" false s1)
          as (b1 & s2 & Hbuild & Hcmds1)
    end.
    rewrite Hbuild. cbn [Host.requests] in Hcmds1.
    change (compose_command "build" false) with build in Hcmds1.
    destruct b1; cbn [negb].
    - destruct Hcmds1 as [Hcmds1|[[=] _]].
      destruct (compose_commands os_path_exists subprocess_run "up" true s2)
        as (b2 & s3 & Hup & Hcmds2).
      unfold Host.bind at 1. rewrite Hup.
      change (compose_command "up" true) with up in Hcmds2.
      destruct b2; cbn [negb].
      + destruct Hcmds2 as [Hcmds2|[[=] _]].
        eexists true, _, [build; up]. split; [reflexivity|]. cbn [Host.requests].
        rewrite Hcmds2, Hcmds1, <- app_assoc.
        split; [reflexivity|]. split; [right; right|]; reflexivity.
      + destruct Hcmds2 as [Hcmds2|[_ Hcmds2]].
        * exists false, s3, [build; up]. split; [reflexivity|].
          rewrite Hcmds2, Hcmds1, <- app_assoc.
          split; [reflexivity|]. split; [right; right; reflexivity|discriminate].
        * exists false, s3, [build]. split; [reflexivity|].
          rewrite Hcmds2, Hcmds1.
          split; [reflexivity|]. split; [right; left; reflexivity|discriminate].
    - destruct Hcmds1 as [Hcmds1|[_ Hcmds1]].
      + exists false, s2, [build]. split; [reflexivity|]. rewrite Hcmds1.
        split; [reflexivity|]. split; [right; left; reflexivity|discriminate].
      + exists false, s2, []. split; [reflexivity|]. rewrite Hcmds1, app_nil_r.
        split; [reflexivity|]. split; [left; reflexivity|discriminate]. }
  destruct H as (b & s' & cmds & -> & Hcmds & Hshape & Hboth).
  exists b, cmds. cbn [fst snd]. auto.
Qed.

(** X16. A build that does not complete stops the preparation: with the
    daemon answering and the compose file in place, the build is the only
    command run, [up] is never started, and False is returned. *)
Theorem X16_failed_build_stops_the_preparation :
  forall ping os_path_exists subprocess_run (s : Host.state),
    let build := "docker compose -f docker/docker-compose.yml build" in
    let h1 := Host.requests s ++ [Host.OsPathExists DockerManager.docker_compose_path] in
    ping (trace (Host.py s)) = Ret tt ->
    os_path_exists (Host.requests s) DockerManager.docker_compose_path = true ->
    (forall out err, subprocess_run h1 build <> Host.Completed out err) ->
    let run := DockerManager.prepare_docker_stack ping os_path_exists subprocess_run s in
    fst run = Ret false
    /\ Host.requests (snd run) = h1 ++ [Host.SubprocessRun build].
Proof.
  intros ping os_path_exists subprocess_run s build h1 Hping Hfile Hfail run.
  assert (H : exists s', run = (Ret false, s')
                         /\ Host.requests s' = h1 ++ [Host.SubprocessRun build]).
  { subst run. unfold DockerManager.prepare_docker_stack.
    unfold Host.bind at 1, Host.lift at 1.
    rewrite (check_docker_daemon_ok ping (Host.py s) Hping). cbn [negb Host.requests].
    unfold Host.bind at 1, Host.lift at 1, logging at 1.
    cbn [Host.py Host.requests fst snd]. unfold Host.bind at 1.
    match goal with
    | |- context [DockerManager._run_docker_compose_command _ _ "build" false ?s1] =>
        destruct (compose_run os_path_exists subprocess_run "build" false s1)
          as (b1 & s2 & Hbuild & _ & Hcase)
    end.
    cbn [Host.requests] in Hcase. rewrite Hfile in Hcase.
    change (compose_command "build" false) with build in Hcase. fold h1 in Hcase.
    destruct Hcase as (Hreq & Hb & _).
    rewrite Hbuild.
    destruct b1.
    - exfalso. destruct (proj1 Hb eq_refl) as (out & err & Hdone).
      exact (Hfail out err Hdone).
    - exists s2. split; [reflexivity|exact Hreq]. }
  destruct H as (s' & -> & Hreq). cbn [fst snd]. auto.
Qed.

(** X16 on a host whose build fails. *)
Lemma X16_failed_build_witness :
  let run := DockerManager.prepare_docker_stack Scenario.ping_ok
               Scenario.compose_file_there Scenario.build_fails Scenario.empty_host in
  fst run = Ret false
  /\ Host.requests (snd run)
     = [ Host.OsPathExists "docker/docker-compose.yml";
         Host.SubprocessRun "docker compose -f docker/docker-compose.yml build" ].
Proof.
  apply (X16_failed_build_stops_the_preparation
           Scenario.ping_ok Scenario.compose_file_there Scenario.build_fails
           Scenario.empty_host).
  - reflexivity.
  - reflexivity.
  - intros out err. discriminate.
Defined.

(** X17. Without the compose file no command is run: whatever the command,
    [_run_docker_compose_command] returns False after looking for the file
    and records that it was not found in [last_error]. *)
Theorem X17_missing_compose_file_runs_nothing :
  forall os_path_exists subprocess_run (command : string) (detach : bool)
         (s : Host.state),
    os_path_exists (Host.requests s) DockerManager.docker_compose_path = false ->
    let run := DockerManager._run_docker_compose_command
                 os_path_exists subprocess_run command detach s in
    fst run = Ret false
    /\ Host.requests (snd run)
       = Host.requests s ++ [Host.OsPathExists DockerManager.docker_compose_path]
    /\ Host.commands (Host.requests (snd run)) = Host.commands (Host.requests s)
    /\ shared_state (Host.py (snd run))
       = <["last_error" := VStr "docker-compose.yml not found: docker/docker-compose.yml"]>
           (shared_state (Host.py s)).
Proof.
  intros os_path_exists subprocess_run command detach s Hfile run.
  destruct (compose_run os_path_exists subprocess_run command detach s)
    as (b & s' & Hrun & _ & Hcase).
  rewrite Hfile in Hcase. destruct Hcase as (-> & Hreq & Hst).
  subst run. rewrite Hrun. cbn [fst snd].
  split; [reflexivity|]. split; [exact Hreq|]. split; [|exact Hst].
  rewrite Hreq, commands_app. cbn. now rewrite app_nil_r.
Qed.

(** X17 on a host without the file, asked to bring the stack down. *)
Lemma X17_missing_compose_file_witness :
  let run := DockerManager._run_docker_compose_command
               (fun _ _ => false) Scenario.build_fails "down" false
               Scenario.empty_host in
  fst run = Ret false
  /\ Host.requests (snd run) = [Host.OsPathExists "docker/docker-compose.yml"]
  /\ Host.commands (Host.requests (snd run)) = []
  /\ shared_state (Host.py (snd run))
     = <["last_error" := VStr "docker-compose.yml not found: docker/docker-compose.yml"]> ∅.
Proof.
  apply (X17_missing_compose_file_runs_nothing
           (fun _ _ => false) Scenario.build_fails "down" false Scenario.empty_host).
  reflexivity.
Defined.

(** ** Sending a batch to the search engine *)




Section BulkLoop.
Import AWSManager.
Variable json_dumps_indent : value -> string.
Variable get_credentials : list event -> outcome unit.
Variable client_bulk : list event -> string -> string -> outcome value.
Variable error_code : exn -> string.
Hypothesis credentials : forall h, get_credentials h = Ret tt.

Local Abbreviation attempt :=
  (attempt json_dumps_indent get_credentials client_bulk).
Local Abbreviation send_loop :=
  (send_loop json_dumps_indent get_credentials client_bulk error_code).
Local Abbreviation host_of endpoint :=
  (split_head ":" (split2_last "/" endpoint)).
Local Abbreviation asked w :=
  (trace w ++ [EvCredentials; EvCredentials; EvCredentials]).




End BulkLoop.

Section BulkSend.
Import AWSManager.
Variable json_dumps : value -> string.
Variable json_dumps_indent : value -> string.
Variable strftime : list event -> string -> outcome string.
Variable get_credentials : list event -> outcome unit.
Variable client_bulk : list event -> string -> string -> outcome value.
Variable error_code : exn -> string.
Variable self : t.


(** The loop of [build_bulk_data] when the index name can be computed. *)
Lemma build_bulk_data_lines prefix pattern logs :
  ConfigManager.get (config self) "vector.index_pattern" (VStr (prefix ++ "%Y.%m.%d"))
  = VStr pattern ->
  (forall h, exists name, strftime h pattern = Ret name) ->
  forall w,
    exists lines w',
      build_bulk_data json_dumps strftime self prefix logs w = (Ret lines, w')
      /\ length lines = (2 * length (List.filter is_dict logs))%nat
      /\ (forall i log,
             List.filter is_dict logs !! i = Some log ->
             lines !! (2 * i + 1)%nat = Some (json_dumps log))
      /\ shared_state w' = shared_state w
      /\ trace w' = trace w ++ replicate (length (List.filter is_dict logs))
                                         (EvStrftime pattern).
Proof.
  intros Hpattern Htime.
  induction logs as [|log logs IH]; intros w.
  - exists [], w. cbn. rewrite app_nil_r. repeat split; auto. discriminate.
  - cbn [build_bulk_data List.filter]. unfold bind at 1, bulk_lines.
    destruct (is_dict log) eqn:Hdict.
    + rewrite Hpattern. unfold bind at 1, ask at 1.
      destruct (Htime (trace w)) as [name Hname]. rewrite Hname. cbn [ret fst snd].
      unfold bind at 1.
      match goal with |- context [build_bulk_data _ _ _ _ _ ?w1] =>
        destruct (IH w1) as (lines & w' & Hrun & Hlen & Hdocs & Hst & Htr) end.
      rewrite Hrun. cbn [ret].
      eexists _, w'. split; [reflexivity|]. cbn [length app].
      split; [rewrite Hlen; lia|]. split; [|split].
      * intros [|i] doc Hi.
        -- injection Hi as <-. reflexivity.
        -- replace (2 * S i + 1)%nat with (S (S (2 * i + 1))) by lia.
           cbn. exact (Hdocs i doc Hi).
      * exact Hst.
      * rewrite Htr. cbn [trace replicate]. now rewrite <- app_assoc.
    + unfold bind at 1, logging at 1. cbn [ret fst snd].
      unfold bind at 1.
      match goal with |- context [build_bulk_data _ _ _ _ _ ?w1] =>
        destruct (IH w1) as (lines & w' & Hrun & Hlen & Hdocs & Hst & Htr) end.
      rewrite Hrun. cbn [ret app].
      exists lines, w'. auto.
Qed.
End BulkSend.





(** X20. When the index name can be computed, the bulk data holds two lines
    per dictionary of the batch, in the order of the batch, the second
    being the dictionary serialised; entries that are not dictionaries
    contribute nothing, and the store is not written. *)
Theorem X20_bulk_data_holds_two_lines_per_dictionary :
  forall json_dumps strftime (self : AWSManager.t) prefix pattern
         (logs : list value) (w : world),
    ConfigManager.get (AWSManager.config self) "vector.index_pattern"
                      (VStr (prefix ++ "%Y.%m.%d")) = VStr pattern ->
    (forall h, exists name, strftime h pattern = Ret name) ->
    exists lines w',
      AWSManager.build_bulk_data json_dumps strftime self prefix logs w = (Ret lines, w')
      /\ length lines = (2 * length (List.filter is_dict logs))%nat
      /\ (forall i log,
             List.filter is_dict logs !! i = Some log ->
             lines !! (2 * i + 1)%nat = Some (json_dumps log))
      /\ shared_state w' = shared_state w.
Proof.
  intros json_dumps strftime self prefix pattern logs w Hpattern Htime.
  destruct (build_bulk_data_lines json_dumps strftime self prefix pattern logs
              Hpattern Htime w) as (lines & w' & Hrun & Hlen & Hdocs & Hst & _).
  exists lines, w'. auto.
Qed.

(** X20 on a batch of one alert between two entries that are not
    dictionaries. *)
Lemma X20_bulk_data_witness :
  exists lines w',
    AWSManager.build_bulk_data Scenario.no_json Scenario.strftime_ok Scenario.aws
      "suricata-" (VStr "eve" :: Scenario.one_alert ++ [VNone]) empty_world
    = (Ret lines, w')
    /\ length lines = 2%nat.
Proof.
  destruct (X20_bulk_data_holds_two_lines_per_dictionary
              Scenario.no_json Scenario.strftime_ok Scenario.aws "suricata-"
              "suricata-%Y.%m.%d" (VStr "eve" :: Scenario.one_alert ++ [VNone])
              empty_world eq_refl (fun _ => ex_intro _ _ eq_refl))
    as (lines & w' & Hrun & Hlen & _).
  exists lines, w'. split; [exact Hrun|exact Hlen].
Defined.

(** ** Applying the index template *)

(** X21. Applying the index template never raises and never writes
    [aws_ready]; it returns True only when the search engine acknowledged
    the template, and then it has written nothing at all. Without an
    endpoint it returns False without any request and without writing. *)
Theorem X21_index_template_never_raises_nor_writes_readiness :
  forall json_dumps get_credentials put_index_template (self : AWSManager.t)
         (template_name index_pattern : string) (s : Host.state),
    let run := AWSManager.apply_index_template json_dumps get_credentials
                 put_index_template self template_name index_pattern s in
    exists b,
      fst run = Ret b
      /\ shared_state (Host.py (snd run)) !! "aws_ready"
         = shared_state (Host.py s) !! "aws_ready"
      /\ (b = true ->
          shared_state (Host.py (snd run)) = shared_state (Host.py s)
          /\ exists endpoint d,
              AWSManager.opensearch_endpoint self = Some endpoint
              /\ put_index_template (Host.requests s)
                   (split_head ":" (split2_last "/" endpoint)) template_name
                   (AWSManager.index_template_body index_pattern) = Ret (VDict d)
              /\ truthy (default VNone (d !! "acknowledged")) = true)
      /\ (ConnectivityAsync.falsy_str (AWSManager.opensearch_endpoint self) = true ->
          b = false
          /\ Host.requests (snd run) = Host.requests s
          /\ shared_state (Host.py (snd run)) = shared_state (Host.py s)).
Proof.
  intros json_dumps get_credentials put_index_template self template_name
         index_pattern s run.
  assert (H : exists b s',
             run = (Ret b, s')
             /\ shared_state (Host.py s') !! "aws_ready"
                = shared_state (Host.py s) !! "aws_ready"
             /\ (b = true ->
                 shared_state (Host.py s') = shared_state (Host.py s)
                 /\ exists endpoint d,
                     AWSManager.opensearch_endpoint self = Some endpoint
                     /\ put_index_template (Host.requests s)
                          (split_head ":" (split2_last "/" endpoint)) template_name
                          (AWSManager.index_template_body index_pattern) = Ret (VDict d)
                     /\ truthy (default VNone (d !! "acknowledged")) = true)
             /\ (ConnectivityAsync.falsy_str (AWSManager.opensearch_endpoint self) = true ->
                 b = false
                 /\ Host.requests s' = Host.requests s
                 /\ shared_state (Host.py s') = shared_state (Host.py s))).
  { subst run. unfold AWSManager.apply_index_template.
    destruct (AWSManager.opensearch_endpoint self) as [endpoint|] eqn:Hend;
      [destruct (String.eqb endpoint "") eqn:Hempty|].
    - eexists false, _. split; [reflexivity|]. cbn.
      rewrite Hempty. repeat split; auto; discriminate.
    - cbn [ConnectivityAsync.falsy_str]. rewrite Hempty.
      unfold Host.try_except, Host.bind at 1, Host.lift at 1, bind, ask.
      cbn [trace].
      destruct (get_credentials (trace (Host.py s))) as [[]|e1];
        [|eexists false, _; split; [reflexivity|]; cbn;
          split; [apply lookup_insert_ne; discriminate|];
          split; discriminate].
      match goal with |- context [get_credentials ?h] =>
        destruct (get_credentials h) as [[]|e2] end;
        [|eexists false, _; split; [reflexivity|]; cbn;
          split; [apply lookup_insert_ne; discriminate|];
          split; discriminate].
      match goal with |- context [get_credentials ?h] =>
        destruct (get_credentials h) as [[]|e3] end;
        [|eexists false, _; split; [reflexivity|]; cbn;
          split; [apply lookup_insert_ne; discriminate|];
          split; discriminate].
      cbn [Host.requests Host.py fst snd].
      unfold Host.bind at 1, Host.lift at 1, logging at 1.
      cbn [Host.requests Host.py fst snd].
      unfold Host.bind at 1, Host.ask at 1. cbn [Host.requests Host.py].
      destruct (put_index_template (Host.requests s) _ template_name _)
        as [response|e] eqn:Hput.
      + destruct response as [| | | | | |d];
          try (eexists false, _; split; [reflexivity|]; cbn;
               split; [apply lookup_insert_ne; discriminate|];
               split; discriminate).
        unfold Host.bind at 1, Host.ret at 1.
        destruct (truthy (default VNone (d !! "acknowledged"))) eqn:Hack.
        * eexists true, _. split; [reflexivity|]. cbn.
          split; [reflexivity|]. split; [|discriminate].
          intros _. split; [reflexivity|]. exists endpoint, d. auto.
        * eexists false, _. split; [reflexivity|]. cbn.
          split; [apply lookup_insert_ne; discriminate|]. split; discriminate.
      + eexists false, _. split; [reflexivity|]. cbn.
        split; [apply lookup_insert_ne; discriminate|]. split; discriminate.
    - eexists false, _. split; [reflexivity|]. cbn.
      repeat split; auto; discriminate. }
  destruct H as (b & s' & -> & Haws & Htrue & Hnone).
  exists b. cbn [fst snd]. auto.
Qed.

(** ** The host name of the search engine *)

Lemma after_last_double_scheme c scheme rest :
  lacks c scheme = true ->
  after_last_double c (scheme ++ String c (String c rest))%string
  = Some (default rest (after_last_double c rest)).
Proof.
  induction scheme as [|a scheme IH]; simpl.
  - intros _. now rewrite Ascii.eqb_refl.
  - intros [Ha Hs]%andb_true_iff. apply negb_true_iff in Ha. rewrite Ha. cbn [andb].
    destruct (scheme ++ String c (String c rest))%string eqn:Happ.
    + destruct scheme; discriminate Happ.
    + exact (IH Hs).
Qed.

Lemma split_heads_stop_at_host host tail :
  lacks "/" host = true ->
  lacks ":" host = true ->
  tail = "" \/ (exists t, tail = String "/" t) \/ (exists t, tail = String ":" t) ->
  split_head ":" (split_head "/" (host ++ tail)%string) = host.
Proof.
  intros Hslash Hcolon Htail.
  induction host as [|a host IH]; simpl.
  - destruct Htail as [-> | [[t ->] | [t ->]]]; reflexivity.
  - simpl in Hslash, Hcolon.
    apply andb_true_iff in Hslash as [Ha1 Hs1].
    apply andb_true_iff in Hcolon as [Ha2 Hs2].
    apply negb_true_iff in Ha1, Ha2. rewrite Ha1. simpl. rewrite Ha2.
    now rewrite (IH Hs1 Hs2).
Qed.

Lemma grows_ret {A} (a : A) : grows (ret a).
Proof. intros w. exists []. cbn. now rewrite app_nil_r. Qed.

Lemma grows_raise {A} e : grows (@raise A e).
Proof. intros w. exists []. cbn. now rewrite app_nil_r. Qed.

Lemma grows_setitem key v : grows (setitem key v).
Proof. intros w. exists []. cbn. now rewrite app_nil_r. Qed.

Lemma grows_logging lvl msg : grows (logging lvl msg).
Proof. intros w. exists []. cbn. now rewrite app_nil_r. Qed.

Lemma grows_sleep secs : grows (sleep secs).
Proof. intros w. now exists [EvSleep secs]. Qed.

Lemma starts_with_ask {A} ev (oracle : list event -> outcome A) :
  starts_with ev (ask ev oracle).
Proof. intros w. now exists []. Qed.

Lemma starts_with_grows {A} ev (m : M A) : starts_with ev m -> grows m.
Proof. intros H w. destruct (H w) as [rest Hw]. eauto. Qed.

Lemma grows_bind {A B} (m : M A) (k : A -> M B) :
  grows m -> (forall a, grows (k a)) -> grows (bind m k).
Proof.
  intros Hm Hk w. unfold bind. destruct (Hm w) as [r1 H1].
  destruct (m w) as [[a|e] w1]; cbn in *.
  - destruct (Hk a w1) as [r2 H2]. exists (r1 ++ r2).
    now rewrite H2, H1, app_assoc.
  - eauto.
Qed.

Lemma grows_try_except {A} (body : M A) handler :
  grows body -> (forall e, grows (handler e)) -> grows (try_except body handler).
Proof.
  intros Hbody Hhandler w. unfold try_except. destruct (Hbody w) as [r1 H1].
  destruct (body w) as [[a|e] w1]; cbn in *.
  - eauto.
  - destruct (Hhandler e w1) as [r2 H2]. exists (r1 ++ r2).
    now rewrite H2, H1, app_assoc.
Qed.

Lemma starts_with_bind {A B} ev (m : M A) (k : A -> M B) :
  starts_with ev m -> (forall a, grows (k a)) -> starts_with ev (bind m k).
Proof.
  intros Hm Hk w. unfold bind. destruct (Hm w) as [r1 H1].
  destruct (m w) as [[a|e] w1]; cbn in *.
  - destruct (Hk a w1) as [r2 H2]. exists (r1 ++ r2).
    now rewrite H2, H1, <- app_assoc.
  - eauto.
Qed.

Lemma starts_with_try_except {A} ev (body : M A) handler :
  starts_with ev body -> (forall e, grows (handler e)) ->
  starts_with ev (try_except body handler).
Proof.
  intros Hbody Hhandler w. unfold try_except. destruct (Hbody w) as [r1 H1].
  destruct (body w) as [[a|e] w1]; cbn in *.
  - eauto.
  - destruct (Hhandler e w1) as [r2 H2]. exists (r1 ++ r2).
    now rewrite H2, H1, <- app_assoc.
Qed.

Create HintDb history.

#[local] Hint Resolve grows_ret grows_raise grows_setitem grows_logging grows_sleep
  starts_with_ask : history.

Lemma grows_retry_loop self {A} (func : M A) fuel :
  grows func ->
  forall retries, grows (ConnectivityAsync.retry_loop self fuel func retries).
Proof.
  intros Hfunc. induction fuel as [|fuel IH]; intros retries; cbn.
  - apply grows_ret.
  - destruct (retries <? ConnectivityAsync.max_retries self); [|apply grows_ret].
    apply grows_try_except.
    + apply grows_bind; [exact Hfunc|intros a; apply grows_ret].
    + intros e. destruct (retries + 1 >=? ConnectivityAsync.max_retries self).
      * apply grows_raise.
      * apply grows_bind; [apply grows_logging|intros _].
        apply grows_bind; [apply grows_sleep|intros _]. apply IH.
Qed.

(** With an attempt allowed, what the retry executor does first is what
    the operation does first. *)
Lemma starts_with_retry self {A} ev (func : M A) :
  0 < ConnectivityAsync.max_retries self ->
  starts_with ev func ->
  starts_with ev (ConnectivityAsync._retry_operation self func).
Proof.
  intros Hmax Hfunc. unfold ConnectivityAsync._retry_operation.
  destruct (Z.to_nat (ConnectivityAsync.max_retries self)) as [|fuel] eqn:Hfuel; [lia|].
  cbn [ConnectivityAsync.retry_loop].
  replace (0 <? ConnectivityAsync.max_retries self) with true
    by (symmetry; apply Z.ltb_lt; lia).
  apply starts_with_try_except.
  - apply starts_with_bind; [exact Hfunc|intros a; apply grows_ret].
  - intros e. destruct (0 + 1 >=? ConnectivityAsync.max_retries self).
    + apply grows_raise.
    + apply grows_bind; [apply grows_logging|intros _].
      apply grows_bind; [apply grows_sleep|intros _].
      apply grows_retry_loop. now apply starts_with_grows with ev.
Qed.

Lemma starts_with_check_dns getaddrinfo hostname :
  starts_with (EvGetaddrinfo hostname)
              (ConnectivityAsync.check_dns_resolution getaddrinfo hostname).
Proof.
  unfold ConnectivityAsync.check_dns_resolution.
  apply starts_with_try_except.
  - apply starts_with_bind; [auto with history|intros _].
    apply grows_bind; auto with history.
  - intros e. destruct (is_gaierror e); [|auto with history].
    apply grows_bind; auto with history.
Qed.

Lemma starts_with_check_tls open_connection wait_closed hostname port :
  starts_with (EvOpenConnection hostname port true)
              (ConnectivityAsync.check_tls_handshake open_connection wait_closed
                                                     hostname port).
Proof.
  unfold ConnectivityAsync.check_tls_handshake.
  apply starts_with_try_except.
  - apply starts_with_bind; [auto with history|intros _].
    apply grows_bind; [eapply starts_with_grows; auto with history|intros _].
    apply grows_bind; auto with history.
  - intros e. destruct (is_OSError e); [|auto with history].
    apply grows_bind; auto with history.
Qed.

Lemma grows_check_redis open_connection wait_closed self :
  grows (ConnectivityAsync.check_redis_connectivity open_connection wait_closed self).
Proof.
  unfold ConnectivityAsync.check_redis_connectivity.
  apply grows_try_except.
  - apply grows_bind; [eapply starts_with_grows; auto with history|intros _].
    apply grows_bind; [eapply starts_with_grows; auto with history|intros _].
    repeat (apply grows_bind; [auto with history|intros _]). auto with history.
  - intros e. destruct (is_OSError e); [|auto with history].
    repeat (apply grows_bind; [auto with history|intros _]). auto with history.
Qed.

Lemma grows_check_opensearch session_get self :
  grows (ConnectivityAsync.check_opensearch_bulk_test session_get self).
Proof.
  unfold ConnectivityAsync.check_opensearch_bulk_test.
  destruct (ConnectivityAsync.opensearch_endpoint self) as [endpoint|].
  - destruct (String.eqb endpoint "").
    + repeat (apply grows_bind; [auto with history|intros _]). auto with history.
    + apply grows_try_except.
      * apply grows_bind; [eapply starts_with_grows; auto with history|intros status].
        destruct (status =? 200);
          repeat (apply grows_bind; [auto with history|intros _]); auto with history.
      * intros e. destruct (is_aiohttp_ClientError e);
          repeat (apply grows_bind; [auto with history|intros _]); auto with history.
  - repeat (apply grows_bind; [auto with history|intros _]). auto with history.
Qed.

(** [gather] runs its first task, then the others from where it ended. *)
Lemma gather_step task rest w :
  exists r rs w',
    ConnectivityAsync.gather rest (snd (task w)) = (Ret rs, w')
    /\ ConnectivityAsync.gather (task :: rest) w = (Ret (r :: rs), w').
Proof.
  cbn [ConnectivityAsync.gather]. unfold bind at 1, try_except, bind at 1.
  destruct (task w) as [[o|e] w1]; cbn [ret snd];
    destruct (gather_results rest w1) as (rs & w' & Hrun & _);
    unfold bind at 1; rewrite Hrun; cbn; eauto.
Qed.

(** X22. From an endpoint of the shape [scheme//host], followed by nothing,
    by a port or by a path (the host holding no slash and no colon, and no
    double slash following it), with a host that is not empty, the cycle
    schedules four checks under the retry executor: the DNS resolution of
    exactly [host], the TLS handshake with [host] on port 443, the health
    call and the Redis check; the scheme, the port and the path are
    dropped. With an attempt allowed, the first thing the cycle does is to
    resolve [host], and later in the cycle it opens the TLS connection to
    [host] on port 443. With an empty host, as in [https:///x], only the
    Redis check is scheduled: no DNS resolution and no TLS handshake. *)
Theorem X22_hostname_is_extracted_from_the_endpoint :
  forall getaddrinfo open_connection wait_closed session_get
         (self : ConnectivityAsync.t) (scheme host tail : string),
    ConnectivityAsync.opensearch_endpoint self
    = Some (scheme ++ String "/" (String "/" (host ++ tail)))%string ->
    lacks "/" scheme = true ->
    lacks "/" host = true ->
    lacks ":" host = true ->
    tail = "" \/ (exists t, tail = String "/" t) \/ (exists t, tail = String ":" t) ->
    after_last_double "/" (host ++ tail)%string = None ->
    let tasks :=
      ConnectivityAsync.tasks getaddrinfo open_connection wait_closed session_get self in
    let redis :=
      ConnectivityAsync._retry_operation self
        (ConnectivityAsync.check_redis_connectivity open_connection wait_closed self) in
    ConnectivityAsync.opensearch_hostname self = Some host
    /\ (host <> "" ->
        tasks
        = [ ConnectivityAsync._retry_operation self
              (ConnectivityAsync.check_dns_resolution getaddrinfo host);
            ConnectivityAsync._retry_operation self
              (ConnectivityAsync.check_tls_handshake open_connection wait_closed host 443);
            ConnectivityAsync._retry_operation self
              (ConnectivityAsync.check_opensearch_bulk_test session_get self);
            redis ]
        /\ (0 < ConnectivityAsync.max_retries self ->
            forall w,
              exists after_dns after_tls,
                trace (snd (ConnectivityAsync.connectivity_cycle
                              getaddrinfo open_connection wait_closed session_get self w))
                = trace w ++ EvGetaddrinfo host :: after_dns
                          ++ EvOpenConnection host 443 true :: after_tls))
    /\ (host = "" -> tasks = [redis]).
Proof.
  intros getaddrinfo open_connection wait_closed session_get self scheme host tail
         Hend Hscheme Hslash Hcolon Htail Hnodouble tasks redis.
  assert (Hhost : ConnectivityAsync.opensearch_hostname self = Some host).
  { unfold ConnectivityAsync.opensearch_hostname. rewrite Hend.
    destruct (String.eqb _ "") eqn:Hempty.
    - apply String.eqb_eq in Hempty. destruct scheme; discriminate Hempty.
    - unfold split2_last.
      rewrite (after_last_double_scheme "/" scheme _ Hscheme), Hnodouble.
      change (default _ (Some (default (host ++ tail)%string None)))
        with (host ++ tail)%string.
      now rewrite (split_heads_stop_at_host host tail Hslash Hcolon Htail). }
  split; [exact Hhost|]. split.
  - intros Hne.
    assert (Htasks : tasks
                     = [ ConnectivityAsync._retry_operation self
                           (ConnectivityAsync.check_dns_resolution getaddrinfo host);
                         ConnectivityAsync._retry_operation self
                           (ConnectivityAsync.check_tls_handshake
                              open_connection wait_closed host 443);
                         ConnectivityAsync._retry_operation self
                           (ConnectivityAsync.check_opensearch_bulk_test session_get self);
                         redis ]).
    { subst tasks. unfold ConnectivityAsync.tasks. rewrite Hhost.
      cbn [ConnectivityAsync.falsy_str default].
      apply String.eqb_neq in Hne. rewrite Hne. reflexivity. }
    split; [exact Htasks|].
    intros Hmax w.
    destruct (cycle_run getaddrinfo open_connection wait_closed session_get self w)
      as (rs & w1 & w' & Hgather & Hcycle & _ & Htrace).
    rewrite Hcycle. cbn [snd]. rewrite Htrace. clear Hcycle Htrace.
    fold tasks in Hgather. rewrite Htasks in Hgather.
    destruct (gather_step
                (ConnectivityAsync._retry_operation self
                   (ConnectivityAsync.check_dns_resolution getaddrinfo host))
                [ ConnectivityAsync._retry_operation self
                    (ConnectivityAsync.check_tls_handshake open_connection wait_closed
                                                           host 443);
                  ConnectivityAsync._retry_operation self
                    (ConnectivityAsync.check_opensearch_bulk_test session_get self);
                  redis ] w) as (r1 & rs1 & wa & Hrest1 & Hall1).
    pose proof (eq_trans (eq_sym Hgather) Hall1) as E1. injection E1 as _ ->.
    destruct (starts_with_retry self _ _ Hmax
                (starts_with_check_dns getaddrinfo host) w) as [after_dns Hdns].
    set (w_dns := snd (ConnectivityAsync._retry_operation self
                         (ConnectivityAsync.check_dns_resolution getaddrinfo host) w))
      in *.
    destruct (gather_step
                (ConnectivityAsync._retry_operation self
                   (ConnectivityAsync.check_tls_handshake open_connection wait_closed
                                                          host 443))
                [ ConnectivityAsync._retry_operation self
                    (ConnectivityAsync.check_opensearch_bulk_test session_get self);
                  redis ] w_dns) as (r2 & rs2 & wb & Hrest2 & Hall2).
    pose proof (eq_trans (eq_sym Hrest1) Hall2) as E2. injection E2 as _ ->.
    destruct (starts_with_retry self _ _ Hmax
                (starts_with_check_tls open_connection wait_closed host 443) w_dns)
      as [after_tls Htls].
    set (w_tls := snd (ConnectivityAsync._retry_operation self
                         (ConnectivityAsync.check_tls_handshake
                            open_connection wait_closed host 443) w_dns)) in *.
    destruct (gather_step
                (ConnectivityAsync._retry_operation self
                   (ConnectivityAsync.check_opensearch_bulk_test session_get self))
                [redis] w_tls) as (r3 & rs3 & wc & Hrest3 & Hall3).
    pose proof (eq_trans (eq_sym Hrest2) Hall3) as E3. injection E3 as _ ->.
    destruct (grows_retry_loop self
                (ConnectivityAsync.check_opensearch_bulk_test session_get self)
                (Z.to_nat (ConnectivityAsync.max_retries self))
                (grows_check_opensearch session_get self) 0 w_tls) as [after_http Hhttp].
    fold (ConnectivityAsync._retry_operation self
            (ConnectivityAsync.check_opensearch_bulk_test session_get self)) in Hhttp.
    set (w_http := snd (ConnectivityAsync._retry_operation self
                          (ConnectivityAsync.check_opensearch_bulk_test session_get self)
                          w_tls)) in *.
    destruct (gather_step redis [] w_http) as (r4 & rs4 & wd & Hrest4 & Hall4).
    pose proof (eq_trans (eq_sym Hrest3) Hall4) as E4. injection E4 as _ ->.
    cbn [ConnectivityAsync.gather ret] in Hrest4. injection Hrest4 as _ Hend4.
    rewrite <- Hend4.
    destruct (grows_retry_loop self
                (ConnectivityAsync.check_redis_connectivity open_connection wait_closed self)
                (Z.to_nat (ConnectivityAsync.max_retries self))
                (grows_check_redis open_connection wait_closed self) 0 w_http)
      as [after_redis Hredis].
    fold (ConnectivityAsync._retry_operation self
            (ConnectivityAsync.check_redis_connectivity open_connection wait_closed self))
      in Hredis.
    fold redis in Hredis.
    exists after_dns,
      (after_tls ++ after_http ++ after_redis
         ++ [EvSleep (ConnectivityAsync.interval self)]).
    rewrite Hredis, Hhttp, Htls, Hdns.
    repeat rewrite <- app_assoc. cbn [app]. repeat rewrite <- app_assoc. reflexivity.
  - intros ->. subst tasks. unfold ConnectivityAsync.tasks. rewrite Hhost. reflexivity.
Qed.

(** X22 on an endpoint with a port and a path, when DNS answers, Redis
    accepts and every TLS handshake fails: the host alone is resolved, and
    the five handshakes are with it on port 443. *)
Lemma X22_hostname_witness :
  let self := ConnectivityAsync.Make (Some "https://search.example.com:9200/_plugin")
                                     "localhost" 6379 5 1 (VInt 10) in
  ConnectivityAsync.opensearch_hostname self = Some "search.example.com"
  /\ exists after_dns after_tls,
      trace (snd (ConnectivityAsync.connectivity_cycle
                    Scenario.getaddrinfo_ok Scenario.open_connection_tls_down
                    Scenario.wait_closed_ok Scenario.session_get_200 self empty_world))
      = EvGetaddrinfo "search.example.com" :: after_dns
          ++ EvOpenConnection "search.example.com" 443 true :: after_tls.
Proof.
  intros self.
  destruct (X22_hostname_is_extracted_from_the_endpoint
              Scenario.getaddrinfo_ok Scenario.open_connection_tls_down
              Scenario.wait_closed_ok Scenario.session_get_200 self
              "https:" "search.example.com" ":9200/_plugin"
              eq_refl eq_refl eq_refl eq_refl
              (or_intror (or_intror (ex_intro _ _ eq_refl))) eq_refl)
    as (Hhost & Hsome & _).
  split; [exact Hhost|].
  destruct Hsome as [_ Hcycle]; [discriminate|].
  exact (Hcycle eq_refl empty_world).
Defined.

(** ** Stopping the stack *)

(** X23. Stopping the stack never raises, and it returns True exactly when
    the daemon answered the ping, the compose file was found and the
    [down] command completed; [down] is the only command it can run. *)
Theorem X23_stop_succeeds_exactly_when_down_completes :
  forall ping os_path_exists subprocess_run (s : Host.state),
    let run := DockerManager.stop_docker_stack ping os_path_exists subprocess_run s in
    let down := "docker compose -f docker/docker-compose.yml down" in
    let h1 := Host.requests s ++ [Host.OsPathExists DockerManager.docker_compose_path] in
    exists b,
      fst run = Ret b
      /\ (b = true <->
          ping (trace (Host.py s)) = Ret tt
          /\ os_path_exists (Host.requests s) DockerManager.docker_compose_path = true
          /\ exists out err, subprocess_run h1 down = Host.Completed out err)
      /\ (Host.commands (Host.requests (snd run)) = Host.commands (Host.requests s)
          \/ Host.commands (Host.requests (snd run))
             = Host.commands (Host.requests s) ++ [down]).
Proof.
  intros ping os_path_exists subprocess_run s run down h1.
  assert (H : exists b s',
             run = (Ret b, s')
             /\ (b = true <->
                 ping (trace (Host.py s)) = Ret tt
                 /\ os_path_exists (Host.requests s) DockerManager.docker_compose_path = true
                 /\ exists out err, subprocess_run h1 down = Host.Completed out err)
             /\ (Host.commands (Host.requests s') = Host.commands (Host.requests s)
                 \/ Host.commands (Host.requests s')
                    = Host.commands (Host.requests s) ++ [down])).
  { subst run. unfold DockerManager.stop_docker_stack.
    unfold Host.bind at 1, Host.lift at 1.
    destruct (check_docker_daemon_returns ping (Host.py s)) as ([|] & w1 & Hping & Hiff);
      rewrite Hping; cbn [negb Host.requests].
    2: { exists false, (Host.State w1 (Host.requests s)).
         split; [reflexivity|]. split; [|left; reflexivity].
         split; [discriminate|]. intros (Hp & _). apply Hiff in Hp. discriminate Hp. }
    unfold Host.bind at 1, Host.lift at 1, logging at 1.
    cbn [Host.py Host.requests fst snd]. unfold Host.bind at 1.
    match goal with
    | |- context [DockerManager._run_docker_compose_command _ _ "down" false ?s1] =>
        destruct (compose_run os_path_exists subprocess_run "down" false s1)
          as (b1 & s2 & Hdown & _ & Hcase)
    end.
    rewrite Hdown. cbn [Host.requests] in Hcase.
    change (compose_command "down" false) with down in Hcase. fold h1 in Hcase.
    destruct (os_path_exists (Host.requests s) DockerManager.docker_compose_path) eqn:Hfile.
    - destruct Hcase as (Hreq & Hb & _).
      assert (Hcmds : Host.commands (Host.requests s2)
                      = Host.commands (Host.requests s) ++ [down]).
      { rewrite Hreq. unfold h1. rewrite !commands_app. cbn. now rewrite app_nil_r. }
      destruct b1; cbn [negb].
      + eexists true, _. split; [reflexivity|]. cbn [Host.requests].
        split; [|right; exact Hcmds].
        split; [|reflexivity]. intros _. split; [now apply Hiff|]. split; [reflexivity|].
        now apply Hb.
      + exists false, s2. split; [reflexivity|]. split; [|right; exact Hcmds].
        split; [discriminate|]. intros (_ & _ & Hdone). now apply Hb.
    - destruct Hcase as (-> & Hreq & _). cbn [negb].
      exists false, s2. split; [reflexivity|]. split.
      + split; [discriminate|]. intros (_ & [=] & _).
      + left. rewrite Hreq. unfold h1. rewrite commands_app. cbn. now rewrite app_nil_r. }
  destruct H as (b & s' & -> & Hiff & Hcmds).
  exists b. cbn [fst snd]. auto.
Qed.
